(** * juicefs [cmd/load.go]: the layered decode pipeline and the backup
      inspector

    A shallow embedding of [reader.Close], [open], [convert], [statBak],
    [showBakSummary] and [showBakDetail] from [cmd/load.go].  Go strings are
    byte strings ([string]); Go [int] values are [Z]; the file system, the
    process environment and the table of open streams are explicit state
    threaded through a small state monad; every collaborator that lives
    outside [cmd/load.go] is a field of the [Externals] class. *)

From Stdlib Require Import ZArith String Ascii List Bool Lia DecimalString.
From stdpp Require Import base option gmap strings list sorting.

Local Open Scope string_scope.

(** ** Go's [strings] package, as far as [load.go] calls it *)

Module GoStrings.

(** [len(s)] *)
Definition len (s : string) : Z := Z.of_nat (String.length s).

(** [s[i:j]]; [None] stands for the run-time panic
    "slice bounds out of range". *)
Definition slice (s : string) (i j : Z) : option string :=
  if ((0 <=? i) && (i <=? j) && (j <=? len s))%Z
  then Some (String.substring (Z.to_nat i) (Z.to_nat (j - i)) s)
  else None.

(** [strings.HasPrefix] *)
Definition HasPrefix (s p : string) : bool := String.prefix p s.

(** [strings.HasSuffix]:
    [len(s) >= len(suffix) && s[len(s)-len(suffix):] == suffix] *)
Definition HasSuffix (s suffix : string) : bool :=
  (len suffix <=? len s)%Z &&
  match slice s (len s - len suffix) (len s) with
  | Some t => String.eqb t suffix
  | None => false
  end.

(** [strings.TrimSuffix] *)
Definition TrimSuffix (s suffix : string) : string :=
  if HasSuffix s suffix
  then match slice s 0 (len s - len suffix) with
       | Some t => t
       | None => s
       end
  else s.

(** [strings.Index]: index of the first instance of [sep], or [-1]. *)
Fixpoint Index_from (s sep : string) (i : Z) : Z :=
  if String.prefix sep s then i
  else match s with
       | EmptyString => (-1)%Z
       | String _ s' => Index_from s' sep (i + 1)
       end.

Definition Index (s sep : string) : Z := Index_from s sep 0.

(** [strings.Contains] *)
Definition Contains (s substr : string) : bool := (0 <=? Index s substr)%Z.

(** [strings.LastIndex]: index of the last instance of [sep], or [-1].
    The scan runs left to right and remembers the last match. *)
Fixpoint LastIndex_from (s sep : string) (i acc : Z) : Z :=
  let acc' := if String.prefix sep s then i else acc in
  match s with
  | EmptyString => acc'
  | String _ s' => LastIndex_from s' sep (i + 1) acc'
  end.

Definition LastIndex (s sep : string) : Z := LastIndex_from s sep 0 (-1).

(** [strings.Repeat] *)
Fixpoint Repeat (s : string) (count : nat) : string :=
  match count with
  | O => ""
  | S n => s +:+ Repeat s n
  end.

End GoStrings.
Import GoStrings.

(** ** Results, state and the state monad *)

(** A Go call that returns [(T, error)] or panics.  [Err e] is the return
    [zero, e] with [e.Error() = e]; [Panic] unwinds the stack. *)
Inductive result (A : Type) : Type :=
| Ok (a : A)
| Err (e : string)
| Panic (msg : string).
Arguments Ok {A} a.
Arguments Err {A} e.
Arguments Panic {A} msg.

(** An entry of the local file system. *)
Inductive Node : Type :=
| RegFile (data : string) (readable writable : bool)
| Dir.

(** Open streams are objects on the Go heap; an [io.ReadCloser] interface
    value is the address of one, and [!=] on two of them compares addresses. *)
Definition handle := nat.

Inductive Layer : Type :=
| LFile (path : string)            (* *os.File opened by os.Open *)
| LWriter (path : string)          (* *os.File opened by os.Create *)
| LBlob (root name : string)       (* stream handed back by blob.Get *)
| LGzip (under : handle)           (* *gzip.Reader over [under] *)
| LZstd (under : handle).          (* zstd reader over [under] *)

Record Stream : Type := mkStream {
  s_layer : Layer;
  s_data : string;                 (* the bytes Read delivers before EOF or error *)
  s_rerr : option string;          (* the error Read ends with, if any *)
  s_cerr : option string;          (* the error Close returns, if any *)
  s_pos : Z;                       (* file offset, moved by Seek *)
  s_nclose : nat                   (* how many times Close was called *)
}.

Inductive Event : Type :=
| EvGetenv (name : string)
| EvLoadEncrypt (key : string)
| EvPemDecode
| EvParseRsaPrivateKey
| EvNewDataEncryptor (algo : string)
| EvExists (path : string)
| EvStat (path : string)
| EvAbs (path : string)
| EvCreateStorage (root : string)
| EvBlobGet (root name : string)
| EvOpen (path : string)
| EvCreate (path : string)
| EvGzipNewReader (under : handle)
| EvZstdNewReader (under : handle)
| EvCopy (dst src : handle)
| EvClose (h : handle)
| EvSeek (h : handle) (offset : Z)
| EvReadFooter (h : handle)
| EvReadSegment (h : handle) (pos : Z)
| EvLog (msg : string)
| EvPrint (text : string).

Record World : Type := mkWorld {
  fs : gmap string Node;           (* path |-> file or directory *)
  nocreate : gset string;          (* absent paths at which creation is refused *)
  environ : gmap string string;    (* the process environment *)
  heap : gmap handle Stream;       (* the open-stream objects *)
  trace : list Event               (* what has been done so far, oldest first *)
}.

Definition M (A : Type) : Type := World -> A * World.

Definition ret {A} (a : A) : M A := fun w => (a, w).

Definition bind {A B} (m : M A) (k : A -> M B) : M B :=
  fun w => let (a, w') := m w in k a w'.

Notation "x <- m ;; k" := (bind m (fun x => k))
  (at level 100, m at next level, right associativity).
Notation "m ;;; k" := (bind m (fun _ => k))
  (at level 100, right associativity).

(** [v, err := f(...); if err != nil { return zero, wrap(err) }; k v] *)
Definition try {A B} (wrap : string -> string) (m : M (result A))
    (k : A -> M (result B)) : M (result B) :=
  r <- m ;;
  match r with
  | Ok a => k a
  | Err e => ret (Err (wrap e))
  | Panic msg => ret (Panic msg)
  end.

Definition emit (e : Event) : M unit :=
  fun w => (tt, mkWorld (fs w) (nocreate w) (environ w) (heap w) (trace w ++ [e])).

Definition set_fs (f : gmap string Node) : M unit :=
  fun w => (tt, mkWorld f (nocreate w) (environ w) (heap w) (trace w)).

Definition set_heap (h : gmap handle Stream) : M unit :=
  fun w => (tt, mkWorld (fs w) (nocreate w) (environ w) h (trace w)).

Definition get {A} (f : World -> A) : M A := fun w => (f w, w).

(** Allocation of a stream object at a fresh address. *)
Definition alloc (s : Stream) : M handle :=
  hp <- get heap ;;
  let h := fresh (dom hp) in
  set_heap (<[h := s]> hp) ;;;
  ret h.

(** [logger.Infof] *)
Definition Infof (msg : string) : M unit := emit (EvLog msg).

(** [fmt.Printf] / [fmt.Println] on standard output *)
Definition Print (text : string) : M unit := emit (EvPrint text).

(** ** Collaborators outside [cmd/load.go] *)

(** [pem.Block] of [encoding/pem]; [Headers] is a Go [map[string]string]. *)
Record PemBlock : Type := mkPemBlock {
  pem_Type : string;
  pem_Headers : gmap string string;
  pem_Bytes : string
}.

(** [m[k]] on a [map[string]string]: the zero value when [k] is absent. *)
Definition header (b : PemBlock) (k : string) : string :=
  default "" (pem_Headers b !! k).

(** [x509.IsEncryptedPEMBlock]: [_, ok := b.Headers["DEK-Info"]; return ok] *)
Definition IsEncryptedPEMBlock (b : PemBlock) : bool :=
  bool_decide (is_Some (pem_Headers b !! "DEK-Info")).

(** Modelled from the spec: the footer message of [pkg/meta] (not under
    [src/]): "BackupFooter: {version: integer, segmentIndex:
    mapping<segmentName, {count: integer, offset: int64}>}". *)
Record SegInfo : Type := mkSegInfo { Num : Z; Offset : Z }.

Record Footer : Type := mkFooter {
  Version : Z;
  Infos : gmap string SegInfo
}.

(** Modelled from the spec: a segment of [pkg/meta] (not under [src/]):
    "returns it with a human-readable name and a renderable value". *)
Record Segment : Type := mkSegment {
  seg_Name : string;               (* seg.Name() *)
  seg_String : string              (* what the verb %s prints for seg *)
}.

(** Everything [load.go] calls in other packages of the repository
    ([cmd.loadEncrypt], [pkg/object], [pkg/meta]) and in libraries whose
    result depends on data this development does not interpret (PEM, RSA,
    gzip, zstd, path resolution), and the one limit of the file system the
    code can run into. *)
Class Externals : Type := {
  PrivateKey : Type;
  DataEncryptor : Type;
  (* cmd.loadEncrypt: the PEM text a key reference resolves to *)
  loadEncrypt : string -> string;
  (* pem.Decode: the first block, nil when there is none *)
  pem_Decode : string -> option PemBlock;
  (* object.ParseRsaPrivateKeyFromPem(pem, passphrase) *)
  ParseRsaPrivateKeyFromPem : string -> string -> result PrivateKey;
  (* object.NewDataEncryptor(object.NewRSAEncryptor(privKey), algo) *)
  NewDataEncryptor : PrivateKey -> string -> result DataEncryptor;
  filepath_Abs : string -> result string;
  filepath_Base : string -> string;
  (* object.CreateStorage("file", root, "", "", ""): its error, if any *)
  CreateStorage_file : string -> option string;
  (* what the encrypted accessor yields for a stored ciphertext *)
  Decrypt : DataEncryptor -> string -> result string;
  (* gzip.NewReader: the error of reading the header, if any *)
  gzip_header : string -> option string;
  (* decoded bytes, the error reading stops with, the error Close returns *)
  gzip_decode : string -> string * option string * option string;
  zstd_decode : string -> string * option string * option string;
  (* meta.BakFormat.ReadFooter on the bytes of the file *)
  bak_ReadFooter : string -> result Footer;
  (* meta.BakFormat.ReadSegment on the bytes of the file at a position *)
  bak_ReadSegment : string -> Z -> result Segment;
  (* the largest file offset the file system accepts: lseek(2) fails with
     EINVAL for a position beyond it, as it does for a negative one *)
  seek_max : Z
}.

(** ** Operating-system and library primitives *)

Definition bump_close (s : Stream) : Stream :=
  mkStream (s_layer s) (s_data s) (s_rerr s) (s_cerr s) (s_pos s) (S (s_nclose s)).

Definition move_to (s : Stream) (pos : Z) : Stream :=
  mkStream (s_layer s) (s_data s) (s_rerr s) (s_cerr s) pos (s_nclose s).

(** [os.Getenv]: the empty string when the variable is unset. *)
Definition os_Getenv (name : string) : M string :=
  emit (EvGetenv name) ;;;
  e <- get environ ;;
  ret (default "" (e !! name)).

(** Modelled from the spec: [utils.Exists] of [pkg/utils] (not under
    [src/]): "If a file already exists at plainPath". *)
Definition utils_Exists (path : string) : M bool :=
  emit (EvExists path) ;;;
  f <- get fs ;;
  ret (bool_decide (is_Some (f !! path))).

(** [os.Stat], reduced to its error. *)
Definition os_Stat (name : string) : M (option string) :=
  emit (EvStat name) ;;;
  f <- get fs ;;
  ret (match f !! name with
       | Some _ => None
       | None => Some ("stat " +:+ name +:+ ": no such file or directory")
       end).

(** [os.Open]: read-only; a directory opens but cannot be read. *)
Definition os_Open (name : string) : M (result handle) :=
  emit (EvOpen name) ;;;
  f <- get fs ;;
  match f !! name with
  | None => ret (Err ("open " +:+ name +:+ ": no such file or directory"))
  | Some Dir =>
      h <- alloc (mkStream (LFile name) ""
                    (Some ("read " +:+ name +:+ ": is a directory")) None 0 0) ;;
      ret (Ok h)
  | Some (RegFile d rd _) =>
      if rd
      then h <- alloc (mkStream (LFile name) d None None 0 0) ;; ret (Ok h)
      else ret (Err ("open " +:+ name +:+ ": permission denied"))
  end.

(** [os.Create] is [OpenFile(name, O_RDWR|O_CREATE|O_TRUNC, 0666)]: "Create
    creates or truncates the named file.  If the file already exists, it is
    truncated." *)
Definition os_Create (name : string) : M (result handle) :=
  emit (EvCreate name) ;;;
  f <- get fs ;;
  nc <- get nocreate ;;
  match f !! name with
  | Some Dir => ret (Err ("open " +:+ name +:+ ": is a directory"))
  | Some (RegFile _ rd wr) =>
      if wr
      then set_fs (<[name := RegFile "" rd wr]> f) ;;;
           h <- alloc (mkStream (LWriter name) "" None None 0 0) ;;
           ret (Ok h)
      else ret (Err ("open " +:+ name +:+ ": permission denied"))
  | None =>
      if bool_decide (name ∈ nc)
      then ret (Err ("open " +:+ name +:+ ": no such file or directory"))
      else set_fs (<[name := RegFile "" true true]> f) ;;;
           h <- alloc (mkStream (LWriter name) "" None None 0 0) ;;
           ret (Ok h)
  end.

(** [Close] on the stream object at [h].  An [*os.File] refuses a second
    [Close]; [gzip.Reader.Close] and the zstd reader's [Close] do not close
    the stream they read from. *)
Definition Close (h : handle) : M (option string) :=
  emit (EvClose h) ;;;
  hp <- get heap ;;
  match hp !! h with
  | None => ret (Some "invalid argument")
  | Some s =>
      set_heap (<[h := bump_close s]> hp) ;;;
      ret (match s_layer s with
           | LFile _ | LWriter _ =>
               if (0 <? s_nclose s)%nat then Some "file already closed" else s_cerr s
           | _ => s_cerr s
           end)
  end.

(** Reading the stream at [h] until EOF or error. *)
Definition read_all (h : handle) : M (string * option string) :=
  hp <- get heap ;;
  ret (match hp !! h with
       | None => ("", Some "invalid argument")
       | Some s => (s_data s, s_rerr s)
       end).

(** Appending to the file behind the writer at [h]. *)
Definition write_all (h : handle) (d : string) : M (option string) :=
  hp <- get heap ;;
  f <- get fs ;;
  match hp !! h with
  | Some s =>
      match s_layer s with
      | LWriter p =>
          if (0 <? s_nclose s)%nat then ret (Some "file already closed")
          else match f !! p with
               | Some (RegFile old rd wr) =>
                   set_fs (<[p := RegFile (old +:+ d) rd wr]> f) ;;; ret None
               | _ => ret None
               end
      | _ => ret (Some "bad file descriptor")
      end
  | None => ret (Some "invalid argument")
  end.

(** The name an [*os.File] was opened under; the other stream objects are
    not files. *)
Definition file_name (l : Layer) : option string :=
  match l with
  | LFile p | LWriter p => Some p
  | _ => None
  end.

(** [fp.Seek(offset, io.SeekStart)] on an [*os.File].  The system call
    refuses a negative position and a position beyond the file system's
    maximum; a position past the end of the file is accepted.  A failure
    comes back as [&PathError{Op: "seek", Path: f.name, Err: e}], whose
    text is ["seek " + name + ": " + e.Error()]. *)
Definition Seek `{Externals} (h : handle) (offset : Z) : M (option string) :=
  emit (EvSeek h offset) ;;;
  hp <- get heap ;;
  match hp !! h with
  | None => ret (Some "invalid argument")
  | Some s =>
      match file_name (s_layer s) with
      | None => ret (Some "invalid argument")
      | Some name =>
          if (0 <? s_nclose s)%nat
          then ret (Some ("seek " +:+ name +:+ ": file already closed"))
          else if ((offset <? 0) || (seek_max <? offset))%Z
          then ret (Some ("seek " +:+ name +:+ ": invalid argument"))
          else set_heap (<[h := move_to s offset]> hp) ;;; ret None
      end
  end.

(** ** [cmd/load.go] *)

Section Load.
Context `{Ext : Externals}.

Definition call_loadEncrypt (key : string) : M string :=
  emit (EvLoadEncrypt key) ;;; ret (loadEncrypt key).

Definition call_pem_Decode (text : string) : M (option PemBlock) :=
  emit EvPemDecode ;;; ret (pem_Decode text).

Definition call_ParseRsaPrivateKeyFromPem (text passphrase : string)
  : M (result PrivateKey) :=
  emit EvParseRsaPrivateKey ;;; ret (ParseRsaPrivateKeyFromPem text passphrase).

Definition call_NewDataEncryptor (k : PrivateKey) (algo : string)
  : M (result DataEncryptor) :=
  emit (EvNewDataEncryptor algo) ;;; ret (NewDataEncryptor k algo).

Definition call_Abs (path : string) : M (result string) :=
  emit (EvAbs path) ;;; ret (filepath_Abs path).

(** [object.CreateStorage("file", root, "", "", "")]; the accessor is
    identified with its root. *)
Definition call_CreateStorage (root : string) : M (result string) :=
  emit (EvCreateStorage root) ;;;
  ret (match CreateStorage_file root with
       | Some e => Err e
       | None => Ok root
       end).

(** Modelled from the spec: [object.NewEncrypted(fileBlob, encryptor)] and
    its [Get(name, 0, -1)] ([pkg/object], not under [src/]): "requests a
    byte range (offset, length=-1 meaning to end) from an object
    identified by name within a directory-rooted accessor, and receives a
    readable stream back". *)
Definition blob_Get (enc : DataEncryptor) (root name : string)
  : M (result handle) :=
  emit (EvBlobGet root name) ;;;
  f <- get fs ;;
  match f !! (root +:+ name) with
  | Some (RegFile d true _) =>
      match Decrypt enc d with
      | Ok plain =>
          h <- alloc (mkStream (LBlob root name) plain None None 0 0) ;;
          ret (Ok h)
      | Err e => ret (Err e)
      | Panic msg => ret (Panic msg)
      end
  | _ => ret (Err ("get " +:+ root +:+ name +:+ ": not readable"))
  end.

(** [gzip.NewReader(fp)] *)
Definition gzip_NewReader (fp : handle) : M (result handle) :=
  emit (EvGzipNewReader fp) ;;;
  de <- read_all fp ;;
  let '(d, e) := de in
  match gzip_header d with
  | Some herr => ret (Err herr)
  | None =>
      let '(plain, rerr, cerr) := gzip_decode d in
      h <- alloc (mkStream (LGzip fp) plain
                    (match rerr with Some x => Some x | None => e end)
                    cerr 0 0) ;;
      ret (Ok h)
  end.

(** [zstd.NewReader(fp)]: no error result. *)
Definition zstd_NewReader (fp : handle) : M handle :=
  emit (EvZstdNewReader fp) ;;;
  de <- read_all fp ;;
  let '(d, e) := de in
  let '(plain, rerr, cerr) := zstd_decode d in
  alloc (mkStream (LZstd fp) plain
           (match rerr with Some x => Some x | None => e end)
           cerr 0 0).

(** [type reader struct { encryptR, compressR io.ReadCloser }] *)
Record reader : Type := mkReader {
  encryptR : handle;
  compressR : handle
}.

(** [func (r *reader) Read(p []byte)]: delegates to [compressR]. *)
Definition reader_Read (r : reader) : M (string * option string) :=
  read_all (compressR r).

(** [func (r *reader) Close() error] *)
Definition reader_Close (r : reader) : M (option string) :=
  err <- Close (compressR r) ;;
  match err with
  | Some e => ret (Some e)
  | None =>
      if negb (encryptR r =? compressR r)%nat
      then Close (encryptR r)
      else ret None
  end.

(** [io.Copy(w, r)] with [r] a [*reader]; reduced to its error. *)
Definition io_Copy (w : handle) (r : reader) : M (option string) :=
  emit (EvCopy w (compressR r)) ;;;
  de <- reader_Read r ;;
  let '(d, rerr) := de in
  werr <- write_all w d ;;
  ret (match werr with
       | Some e => Some e
       | None => rerr
       end).

Definition passphrase_required : string :=
  "passphrase is required to private key, please try again after setting the 'JFS_RSA_PASSPHRASE' environment variable".

(** [func open(src string, key string, algo string) (io.ReadCloser, error)] *)
Definition open (src key algo : string) : M (result reader) :=
  try id
    (if negb (key =? "")
     then
       passphrase <- os_Getenv "JFS_RSA_PASSPHRASE" ;;
       encryptKey <- call_loadEncrypt key ;;
       refuse <- (if passphrase =? ""
                  then block <- call_pem_Decode encryptKey ;;
                       ret (match block with
                            | Some b =>
                                Contains (header b "Proc-Type") "ENCRYPTED"
                                && IsEncryptedPEMBlock b
                            | None => false
                            end)
                  else ret false) ;;
       if refuse : bool then ret (Err passphrase_required)
       else
         try (fun e => "parse rsa: " +:+ e)
           (call_ParseRsaPrivateKeyFromPem encryptKey passphrase)
           (fun privKey =>
         try id (call_NewDataEncryptor privKey algo) (fun encryptor =>
         serr <- os_Stat src ;;
         match serr with
         | Some e => ret (Err ("failed to stat " +:+ src +:+ ": " +:+ e))
         | None =>
             try (fun e => "failed to get absolute path of " +:+ src +:+ ": " +:+ e)
               (call_Abs src) (fun srcAbsPath =>
             try id
               (call_CreateStorage (TrimSuffix src (filepath_Base srcAbsPath)))
               (fun fileBlob =>
             blob_Get encryptor fileBlob (filepath_Base srcAbsPath)))
         end))
     else os_Open src)
    (fun fp =>
       if HasSuffix src ".gz"
       then try id (gzip_NewReader fp) (fun r => ret (Ok (mkReader fp r)))
       else if HasSuffix src ".zstd"
       then r <- zstd_NewReader fp ;; ret (Ok (mkReader fp r))
       else ret (Ok (mkReader fp fp))).

(** The part of [convert] after the existence check has failed: open the
    source, create the target, copy, close.  The two [defer]s run
    last-registered-first on every return taken after their registration:
    [w.Close()], then [r.Close()]. *)
Definition convert_miss (path nPath key algo : string) : M (result string) :=
  try id (open path key algo) (fun r =>
  wo <- os_Create nPath ;;
  match wo with
  | Panic msg => _ <- reader_Close r ;; ret (Panic msg)
  | Err e =>
      _ <- reader_Close r ;;
      ret (Err ("failed to create plain backup " +:+ nPath +:+ ": " +:+ e))
  | Ok w =>
      cerr <- io_Copy w r ;;
      match cerr with
      | Some e =>
          _ <- Close w ;;
          _ <- reader_Close r ;;
          ret (Err ("failed to convert " +:+ path +:+ " to " +:+ nPath
                    +:+ ": " +:+ e))
      | None =>
          Infof ("converted backup " +:+ path +:+ " to " +:+ nPath) ;;;
          _ <- Close w ;;
          _ <- reader_Close r ;;
          ret (Ok nPath)
      end
  end).

Definition skip_message (nPath : string) : string :=
  "plain backup " +:+ nPath +:+ " already exists, skip conversion".

(** [func convert(path string, key, algo string) (string, error)] *)
Definition convert (path key algo : string) : M (result string) :=
  let isCompress := HasSuffix path ".gz" || HasSuffix path ".zstd" in
  if (key =? "") && negb isCompress then ret (Ok path)
  else
    match slice path 0 (LastIndex path ".") with
    | None => ret (Panic "slice bounds out of range [:-1]")
    | Some nPath =>
        found <- utils_Exists nPath ;;
        if found : bool
        then Infof (skip_message nPath) ;;; ret (Ok nPath)
        else convert_miss path nPath key algo
    end.

(** *** Inspection mode *)

(** The two flag queries [statBak] makes: [ctx.IsSet("offset")] and
    [ctx.Int64("offset")]. *)
Record Context : Type := mkContext {
  IsSet_offset : bool;
  Int64_offset : Z
}.

Definition nl : string := String (ascii_of_nat 10) "".

(** The verb [%d] *)
Definition fmt_d (z : Z) : string := NilZero.string_of_int (Z.to_int z).

(** The verb [%-10s] on an ASCII string: left-justified, width 10. *)
Definition fmt_s10 (s : string) : string :=
  s +:+ Repeat " " (10 - String.length s).

(** [v[i]] on a row of the table *)
Definition col (v : list string) (i : nat) : string := nth i v "".

(** [data[i][0] < data[j][0]] is byte-wise order; the rows carry distinct
    names (the keys of a map), so every correct sort yields the same
    slice. *)
Definition row_le (r1 r2 : list string) : Prop :=
  String.leb (col r1 0) (col r2 0) = true.

#[local] Instance row_le_dec r1 r2 : Decision (row_le r1 r2).
Proof. unfold row_le. apply _. Defined.

Definition sort_rows (data : list (list string)) : list (list string) :=
  merge_sort row_le data.

Definition call_ReadFooter (fp : handle) : M (result Footer) :=
  emit (EvReadFooter fp) ;;;
  hp <- get heap ;;
  ret (match hp !! fp with
       | Some s => bak_ReadFooter (s_data s)
       | None => Err "invalid argument"
       end).

Definition call_ReadSegment (fp : handle) : M (result Segment) :=
  hp <- get heap ;;
  match hp !! fp with
  | Some s =>
      emit (EvReadSegment fp (s_pos s)) ;;;
      ret (bak_ReadSegment (s_data s) (s_pos s))
  | None => ret (Err "invalid argument")
  end.

Definition summary_row (withOffset : bool) (e : string * SegInfo) : list string :=
  if withOffset
  then [e.1; fmt_d (Num e.2); fmt_d (Offset e.2)]
  else [e.1; fmt_d (Num e.2)].

Definition print_row (withOffset : bool) (v : list string) : M unit :=
  Print (fmt_s10 (col v 0) +:+ "| " +:+ fmt_s10 (col v 1) +:+ "|") ;;;
  (if withOffset then Print (" " +:+ fmt_s10 (col v 2)) else ret tt) ;;;
  Print nl.

Fixpoint print_rows (withOffset : bool) (data : list (list string)) : M unit :=
  match data with
  | [] => ret tt
  | v :: rest => print_row withOffset v ;;; print_rows withOffset rest
  end.

(** [func showBakSummary(ctx, fp, withOffset bool) error] *)
Definition showBakSummary (fp : handle) (withOffset : bool) : M (result unit) :=
  try (fun e => "failed to read footer: " +:+ e) (call_ReadFooter fp)
    (fun footer =>
  Print ("Backup Version: " +:+ fmt_d (Version footer) +:+ nl) ;;;
  let data := sort_rows (summary_row withOffset <$> map_to_list (Infos footer)) in
  (if withOffset
   then Print (Repeat "-" 34 +:+ nl) ;;;
        Print (fmt_s10 "Name" +:+ "| " +:+ fmt_s10 "Num" +:+ "| "
               +:+ fmt_s10 "Offset" +:+ nl) ;;;
        Print (Repeat "-" 34 +:+ nl)
   else Print (Repeat "-" 23 +:+ nl) ;;;
        Print (fmt_s10 "Name" +:+ "| " +:+ fmt_s10 "Num" +:+ nl) ;;;
        Print (Repeat "-" 23 +:+ nl)) ;;;
  print_rows withOffset data ;;;
  ret (Ok tt)).

(** [func showBakDetail(ctx, fp, offset int64) error] *)
Definition showBakDetail (fp : handle) (offset : Z) : M (result unit) :=
  serr <- Seek fp offset ;;
  match serr with
  | Some e => ret (Err e)
  | None =>
      try (fun e => "failed to read segment: " +:+ e) (call_ReadSegment fp)
        (fun seg =>
      Print ("Segment: " +:+ seg_Name seg +:+ nl) ;;;
      Print ("Value: " +:+ seg_String seg +:+ nl) ;;;
      ret (Ok tt))
  end.

(** [func statBak(ctx *cli.Context, path string) error]; the deferred
    [fp.Close()] runs on every return after the file was opened. *)
Definition statBak (ctx : Context) (path : string) : M (result unit) :=
  Infof ("load backup from " +:+ path) ;;;
  try (fun e => "failed to open file " +:+ path +:+ ": " +:+ e) (os_Open path)
    (fun fp =>
  r <- (if negb (IsSet_offset ctx) then showBakSummary fp false
        else
          let offset := Int64_offset ctx in
          if (offset =? -1)%Z then showBakSummary fp true
          else showBakDetail fp offset) ;;
  _ <- Close fp ;;
  ret r).

End Load.

(** ** [load]: the command itself *)

(** [meta.Format], as far as [load] reads it. *)
Record Format : Type := mkFormat {
  fmt_Name : string;
  fmt_SecretKey : string
}.

(** The calls [load] makes on the metadata client, oldest first. *)
Inductive MetaCall : Type :=
| CallLoad (checkVersion : bool)
| CallLoadMeta (data : string) (rerr : option string)
| CallLoadMetaV2 (threads : Z) (data : string) (rerr : option string).

(** What [load] calls outside [cmd/load.go] besides the collaborators of
    [open] and [statBak]: helpers of the [cmd] package and the metadata
    client of [pkg/meta], whose state is the database [DB]. *)
Class MetaExternals : Type := {
  DB : Type;
  (* setup0(ctx, 1, 2), given the arguments *)
  setup0 : list string -> M unit;
  (* removePassword(metaUri) *)
  removePassword : string -> M unit;
  (* utils.RemovePassword(metaUri) *)
  utils_RemovePassword : string -> string;
  (* meta.NewClient(metaUri, nil).Load(checkVersion) *)
  meta_Load : string -> bool -> DB -> result Format * DB;
  (* m.LoadMeta(r), given what r delivers *)
  meta_LoadMeta : string -> string -> option string -> DB -> option string * DB;
  (* m.LoadMetaV2(ctx, r, opt), given opt.Threads and what r delivers *)
  meta_LoadMetaV2 : string -> Z -> string -> option string -> DB
                    -> option string * DB
}.

(** The database together with the record of the calls made on it. *)
Record Engine `{MetaExternals} : Type := mkEngine {
  db : DB;
  calls : list MetaCall
}.
Arguments mkEngine {_} db calls.

(** The command line: [ctx.Args()], the flags [load] reads, the queries on
    [offset] that [statBak] makes, and the stream object [os.Stdin]. *)
Record Command : Type := mkCommand {
  cli_Args : list string;
  cli_key : string;                (* ctx.String("encrypt-rsa-key") *)
  cli_algo : string;               (* ctx.String("encrypt-algo") *)
  cli_binary : bool;               (* ctx.Bool("binary") *)
  cli_stat : bool;                 (* ctx.Bool("stat") *)
  cli_threads : Z;                 (* ctx.Int("threads") *)
  cli_offset : Context;
  cli_stdin : handle
}.

(** [ctx.Args().Get(n)]: the empty string when there is no such argument. *)
Definition Args_Get (c : Command) (n : nat) : string := nth n (cli_Args c) "".

(** [var r io.ReadCloser]: [os.Stdin] or what [open] returned. *)
Inductive Input : Type :=
| FromStdin
| FromReader (r : reader).

Section LoadCommand.
Context `{Ext : Externals} `{MExt : MetaExternals}.

Definition call_meta_Load (uri : string) (check : bool) (e : Engine)
  : result Format * Engine :=
  let (f, d) := meta_Load uri check (db e) in
  (f, mkEngine d (calls e ++ [CallLoad check])).

Definition call_LoadMeta (uri data : string) (rerr : option string) (e : Engine)
  : option string * Engine :=
  let (err, d) := meta_LoadMeta uri data rerr (db e) in
  (err, mkEngine d (calls e ++ [CallLoadMeta data rerr])).

Definition call_LoadMetaV2 (uri : string) (threads : Z) (data : string)
    (rerr : option string) (e : Engine) : option string * Engine :=
  let (err, d) := meta_LoadMetaV2 uri threads data rerr (db e) in
  (err, mkEngine d (calls e ++ [CallLoadMetaV2 threads data rerr])).

(** What the loader reads from [r]. *)
Definition input_Read (c : Command) (i : Input) : M (string * option string) :=
  match i with
  | FromStdin => read_all (cli_stdin c)
  | FromReader r => reader_Read r
  end.

(** [logger.Warnf] *)
Definition Warnf (msg : string) : M unit := emit (EvLog msg).

(** Lines 230-265 of [load]: the client is made and asked whether the
    database is in use, the loader runs on [r], the format is read back.
    The progress bars of the binary mode have no state here. *)
Definition load_into (c : Command) (metaUri src : string) (i : Input)
    (e : Engine) : M (result unit * Engine) :=
  let (f, e1) := call_meta_Load metaUri false e in
  match f with
  | Ok format =>
      ret (Err ("database " +:+ utils_RemovePassword metaUri
                +:+ " is used by volume " +:+ fmt_Name format), e1)
  | Panic msg => ret (Panic msg, e1)
  | Err _ =>
      de <- input_Read c i ;;
      let '(data, rerr) := de in
      let (lerr, e2) :=
        if cli_binary c
        then call_LoadMetaV2 metaUri (cli_threads c) data rerr e1
        else call_LoadMeta metaUri data rerr e1 in
      match lerr with
      | Some err => ret (Err err, e2)
      | None =>
          let (f2, e3) := call_meta_Load metaUri true e2 in
          match f2 with
          | Ok format =>
              (if fmt_SecretKey format =? "removed"
               then Warnf "secret key was removed; please correct it with `config` command"
               else ret tt) ;;;
              Infof ("load metadata from " +:+ src +:+ " succeed") ;;;
              ret (Ok tt, e3)
          | Err err => ret (Err err, e3)
          | Panic msg => ret (Panic msg, e3)
          end
      end
  end.

(** Lines 216-229 and the deferred [r.Close()]: the input is [os.Stdin]
    when there is one argument and the opened source otherwise. *)
Definition load_source (c : Command) (src : string) (e : Engine)
  : M (result unit * Engine) :=
  let metaUri := Args_Get c 0 in
  removePassword metaUri ;;;
  if (length (cli_Args c) =? 1)%nat
  then load_into c metaUri "STDIN" FromStdin e
  else
    o <- open src (cli_key c) (cli_algo c) ;;
    match o with
    | Err err => ret (Err err, e)
    | Panic msg => ret (Panic msg, e)
    | Ok r =>
        res <- load_into c metaUri src (FromReader r) e ;;
        _ <- reader_Close r ;;
        ret res
    end.

(** [func load(ctx *cli.Context) error] *)
Definition load (c : Command) (e : Engine) : M (result unit * Engine) :=
  setup0 (cli_Args c) ;;;
  let key := cli_key c in
  let algo := cli_algo c in
  let src := Args_Get c 1 in
  if cli_binary c
  then
    let src := if cli_stat c then Args_Get c 0 else src in
    cv <- convert src key algo ;;
    match cv with
    | Err err => ret (Err err, e)
    | Panic msg => ret (Panic msg, e)
    | Ok src =>
        if cli_stat c
        then r <- statBak (cli_offset c) src ;; ret (r, e)
        else load_source c src e
    end
  else load_source c src e.

End LoadCommand.

(** ** Sample collaborators and worlds, used to run the embedding *)

Module Sample.

Definition encrypted_block : PemBlock :=
  mkPemBlock "RSA PRIVATE KEY"
    (<["Proc-Type" := "4,ENCRYPTED"]>
       (<["DEK-Info" := "AES-256-CBC,0011"]> ∅)) "".

Definition plain_block : PemBlock := mkPemBlock "RSA PRIVATE KEY" ∅ "".

(** A toy codec: a compressed stream is one magic byte followed by the
    plain bytes; a ['!'] in the body is a corruption that stops the
    decoder and stays as the error of its [Close]. *)
Definition toy_decode (d : string) : string * option string * option string :=
  let body := String.substring 1 (String.length d - 1) d in
  match String.index 0 "!" body with
  | Some n => (String.substring 0 n body, Some "corrupt input", Some "corrupt input")
  | None => (body, None, None)
  end.

Definition toy_segment (d : string) (pos : Z) : result Segment :=
  if ((0 <=? pos) && (pos <? len d))%Z
  then Ok (mkSegment "inode" (String.substring (Z.to_nat pos) 4 d))
  else Err "unexpected EOF".

Definition toy_footer (d : string) : result Footer :=
  if HasSuffix d "JFS"
  then Ok (mkFooter 1 (<["inode" := mkSegInfo 100 0]>
                        (<["edge" := mkSegInfo 250 4096]> ∅)))
  else Err "bad magic".

Definition ext : Externals := {|
  PrivateKey := string;
  DataEncryptor := string;
  loadEncrypt := fun key => key;
  pem_Decode := fun text =>
    if String.prefix "ENC:" text then Some encrypted_block
    else if String.prefix "PEM:" text then Some plain_block
    else None;
  ParseRsaPrivateKeyFromPem := fun text passphrase =>
    if String.prefix "PEM:" text then Ok text else Err "invalid key";
  NewDataEncryptor := fun k algo => Ok algo;
  filepath_Abs := fun p => Ok p;
  filepath_Base := fun p => p;
  CreateStorage_file := fun _ => None;
  Decrypt := fun _ d => Ok d;
  gzip_header := fun d =>
    if String.prefix "G" d then None else Some "gzip: invalid header";
  gzip_decode := toy_decode;
  zstd_decode := toy_decode;
  bak_ReadFooter := toy_footer;
  bak_ReadSegment := toy_segment;
  seek_max := 17592186040320
|}.

Definition empty_world : World := mkWorld ∅ ∅ ∅ ∅ [].

Definition with_files (files : list (string * Node)) : World :=
  mkWorld (list_to_map files) ∅ ∅ ∅ [].

(** An encrypted, uncompressed dump whose plain sibling is already there. *)
Definition w_cached : World :=
  with_files [("meta.bak", RegFile "cipher" true true);
              ("meta", RegFile "plain" true true)].

(** A gzip dump, not yet converted. *)
Definition w_gz : World :=
  with_files [("dump.json.gz", RegFile "G{}" true true)].

(** A gzip dump whose body is corrupt. *)
Definition w_gz_corrupt : World :=
  with_files [("dump.json.gz", RegFile "G{!" true true)].

(** A file named [.gz] that does not start with the gzip magic. *)
Definition w_gz_badheader : World :=
  with_files [("dump.json.gz", RegFile "{}" true true)].

(** A composed stream over two distinct objects, the outer one failing
    to close. *)
Definition w_two_layers : World :=
  mkWorld ∅ ∅ ∅
    (<[0 := mkStream (LFile "dump.json.gz") "G{!" None None 0 0]>
       (<[1 := mkStream (LGzip 0) "{" (Some "corrupt input")
                 (Some "corrupt input") 0 0]> ∅))
    [].

(** The target appears after the existence check and before the
    creation. *)
Definition w_race : World :=
  with_files [("dump.json.gz", RegFile "G{}" true true);
              ("dump.json", RegFile "written by someone else" true true)].

(** An encrypted dump that carries no compression suffix. *)
Definition w_encrypted : World :=
  with_files [("meta.bak", RegFile "cipher" true true)].

Definition w_bak : World :=
  with_files [("meta.bin", RegFile "seg0seg1JFS" true true)].

(** A zstd dump. *)
Definition w_zstd : World :=
  with_files [("dump.json.zstd", RegFile "Z{}" true true)].

(** An encrypted zstd dump. *)
Definition w_encrypted_zstd : World :=
  with_files [("meta.bin.zstd", RegFile "Zcipher" true true)].

(** A file that does not end with the footer of a container. *)
Definition w_not_bak : World :=
  with_files [("notes.txt", RegFile "hello" true true)].


(** A toy metadata engine: the database holds the name of its volume, if
    any; loading stores the first four bytes of the dump as that name and
    fails on an input that ends in an error. *)
Definition toy_load (data : string) (rerr : option string) (d : option string)
  : option string * option string :=
  match rerr with
  | Some e => (Some e, d)
  | None => (None, Some (String.substring 0 4 data))
  end.

Definition mext : MetaExternals := {|
  DB := option string;
  setup0 := fun _ => ret tt;
  removePassword := fun _ => ret tt;
  utils_RemovePassword := fun uri => uri;
  meta_Load := fun _ _ d =>
    match d with
    | Some name => (Ok (mkFormat name ""), d)
    | None => (Err "database is not formatted", d)
    end;
  meta_LoadMeta := fun _ => toy_load;
  meta_LoadMetaV2 := fun _ _ => toy_load
|}.

Definition empty_engine : @Engine mext := @mkEngine mext None [].

Definition used_engine : @Engine mext := @mkEngine mext (Some "vol1") [].

(** [juicefs load redis://h/1 dump.json.gz] *)
Definition cmd_json : Command :=
  mkCommand ["redis://h/1"; "dump.json.gz"] "" "aes256gcm-rsa" false false 10
    (mkContext false 0) 0.

(** [juicefs load redis://h/1 dump.json.gz --binary] *)
Definition cmd_binary : Command :=
  mkCommand ["redis://h/1"; "dump.json.gz"] "" "aes256gcm-rsa" true false 10
    (mkContext false 0) 0.

(** [juicefs load meta.bin --binary --stat --offset 4] *)
Definition cmd_stat : Command :=
  mkCommand ["meta.bin"] "" "aes256gcm-rsa" true true 10 (mkContext true 4) 0.

(** [juicefs load redis://h/1 --binary --encrypt-rsa-key PEM:k], the dump
    on standard input. *)
Definition cmd_binary_key_stdin : Command :=
  mkCommand ["redis://h/1"] "PEM:k" "aes256gcm-rsa" true false 10
    (mkContext false 0) 0.

(** [juicefs load redis://h/1], the dump on standard input. *)
Definition cmd_stdin : Command :=
  mkCommand ["redis://h/1"] "" "aes256gcm-rsa" false false 10
    (mkContext false 0) 0.

(** Standard input is stream object 0 and holds a JSON dump. *)
Definition w_stdin : World :=
  mkWorld ∅ ∅ ∅ (<[0 := mkStream (LFile "/dev/stdin") "{..}" None None 0 0]> ∅) [].

End Sample.

(** ** The wording of the specification, for comparison with the code *)

Module Spec.

(** "needsDecode = isEncrypted OR hasCompressionSuffix(sourcePath)" *)
Definition needs_decode (path key : string) : bool :=
  negb (key =? "") || (HasSuffix path ".gz" || HasSuffix path ".zstd").

(** "named by stripping the outermost suffix (.gz/.zstd) from the source
    path ... No other suffix is treated as compression." *)
Definition plain_path (path : string) : string :=
  if HasSuffix path ".gz" then TrimSuffix path ".gz"
  else if HasSuffix path ".zstd" then TrimSuffix path ".zstd"
  else path.

(** "the PEM header marks the key as passphrase-encrypted": the RFC 1421
    marking, a [Proc-Type] header carrying [ENCRYPTED] together with a
    [DEK-Info] header. *)
Definition marked_encrypted (b : PemBlock) : bool :=
  Contains (header b "Proc-Type") "ENCRYPTED" && IsEncryptedPEMBlock b.

(** "the passphrase environment variable is empty or unset" *)
Definition no_passphrase (w : World) : Prop :=
  environ w !! "JFS_RSA_PASSPHRASE" = None
  \/ environ w !! "JFS_RSA_PASSPHRASE" = Some "".

(** How often [Close] has reached the stream object at [h]. *)
Definition times_closed (w : World) (h : handle) : nat :=
  match heap w !! h with
  | Some s => s_nclose s
  | None => 0
  end.

(** The world after more events. *)
Definition logged (w : World) (evs : list Event) : World :=
  mkWorld (fs w) (nocreate w) (environ w) (heap w) (trace w ++ evs).


(** "a summary table of {name, count} or {name, count, offset} rows,
    sorted by name ascending" *)
Definition summary_table (withOffset : bool) (footer : Footer) : list (list string) :=
  sort_rows (summary_row withOffset <$> map_to_list (Infos footer)).




End Spec.
Import Spec.

(** ** Predicates on monadic computations *)

(** A relation that holds between the world before and after [m]. *)
Definition frame {A} (R : World -> World -> Prop) (m : M A) : Prop :=
  forall w, R w (m w).2.

Definition same_fs (w w' : World) : Prop := fs w' = fs w.

Definition keeps_files (w w' : World) : Prop :=
  forall q, is_Some (fs w !! q) -> is_Some (fs w' !! q).

(** What holds of the value and the world whenever [m] returns normally. *)
Definition ensures {A} (m : M (result A)) (Q : A -> World -> Prop) : Prop :=
  forall w a w', m w = (Ok a, w') -> Q a w'.

(** ** Names for what the operations allocate and return *)

(** The object [os.Open], [os.Create] or a decoder allocates next. *)
Definition base_handle (w : World) : handle := fresh (dom (heap w)).

(** The [*os.File] behind a freshly opened readable file. *)
Definition base_stream (src d : string) : Stream :=
  mkStream (LFile src) d None None 0 0.

(** The decoder allocated right after the file. *)
Definition over_handle (w : World) (src d : string) : handle :=
  fresh (dom (<[base_handle w := base_stream src d]> (heap w))).

(** The first half of [open] (load.go:110-148), which yields the base
    stream [fp]: the stream of the decrypting accessor when a key is
    given, the file itself otherwise. *)
Definition open_base `{Externals} (src key algo : string) : M (result handle) :=
  if negb (key =? "")
  then
    passphrase <- os_Getenv "JFS_RSA_PASSPHRASE" ;;
    encryptKey <- call_loadEncrypt key ;;
    refuse <- (if passphrase =? ""
               then block <- call_pem_Decode encryptKey ;;
                    ret (match block with
                         | Some b =>
                             Contains (header b "Proc-Type") "ENCRYPTED"
                             && IsEncryptedPEMBlock b
                         | None => false
                         end)
               else ret false) ;;
    if refuse : bool then ret (Err passphrase_required)
    else
      try (fun e => "parse rsa: " +:+ e)
        (call_ParseRsaPrivateKeyFromPem encryptKey passphrase)
        (fun privKey =>
      try id (call_NewDataEncryptor privKey algo) (fun encryptor =>
      serr <- os_Stat src ;;
      match serr with
      | Some e => ret (Err ("failed to stat " +:+ src +:+ ": " +:+ e))
      | None =>
          try (fun e => "failed to get absolute path of " +:+ src +:+ ": " +:+ e)
            (call_Abs src) (fun srcAbsPath =>
          try id
            (call_CreateStorage (TrimSuffix src (filepath_Base srcAbsPath)))
            (fun fileBlob =>
          blob_Get encryptor fileBlob (filepath_Base srcAbsPath)))
      end))
  else os_Open src.

(** The stream object of a decoder over the stream [under]: it delivers
    the decoded bytes, and it ends with the decoder's error or else with
    the error the stream under it ends with. *)
Definition decoder_over (layer : Layer)
    (dec : string * option string * option string) (under : Stream) : Stream :=
  let '(plain, rerr, cerr) := dec in
  mkStream layer plain
    (match rerr with Some x => Some x | None => s_rerr under end) cerr 0 0.

(** The world after the event [e] and the allocation of the stream [s]. *)
Definition with_stream (w : World) (s : Stream) (e : Event) : World :=
  mkWorld (fs w) (nocreate w) (environ w) (<[base_handle w := s]> (heap w))
    (trace w ++ [e]).

(** What [Close] returns for a stream object in its current state. *)
Definition close_result (s : Stream) : option string :=
  match s_layer s with
  | LFile _ | LWriter _ =>
      if (0 <? s_nclose s)%nat then Some "file already closed" else s_cerr s
  | _ => s_cerr s
  end.

(** The file-system entry at one path is the same before and after. *)
Definition same_at (q : string) (w w' : World) : Prop := fs w' !! q = fs w !! q.

(** The world after differs from the world before by new stream objects
    and new trace entries only. *)
Definition extends (w w' : World) : Prop :=
  fs w' = fs w /\ nocreate w' = nocreate w /\ environ w' = environ w
  /\ (forall h s, heap w !! h = Some s -> heap w' !! h = Some s)
  /\ exists evs, trace w' = (trace w ++ evs)%list.

(** What [open] does with a key before it looks at the source, when the
    passphrase check lets it pass: the PEM text is inspected only if the
    passphrase is empty. *)
Definition key_checked (key passphrase : string) : list Event :=
  [EvGetenv "JFS_RSA_PASSPHRASE"; EvLoadEncrypt key]
    ++ (if passphrase =? "" then [EvPemDecode] else [])
    ++ [EvParseRsaPrivateKey].

(** The name column of a table, top to bottom. *)
Definition names (table : list (list string)) : list string :=
  (fun v => col v 0) <$> table.

(** The stream object at [h] keeps the number of [Close] calls it has seen. *)
Definition keeps_open (h : handle) (w w' : World) : Prop :=
  forall s, heap w !! h = Some s ->
            exists s', heap w' !! h = Some s' /\ s_nclose s' = s_nclose s.

(** The log lines [load] ends with when the dump has been loaded. *)
Definition load_done (src : string) (format : Format) : list Event :=
  (if fmt_SecretKey format =? "removed"
   then [EvLog "secret key was removed; please correct it with `config` command"]
   else [])
    ++ [EvLog ("load metadata from " +:+ src +:+ " succeed")].

(** The call of the loader that [load] makes in the mode of the command. *)
Definition loader_call (c : Command) (data : string) (rerr : option string)
  : MetaCall :=
  if cli_binary c then CallLoadMetaV2 (cli_threads c) data rerr
  else CallLoadMeta data rerr.

(** * Properties *)

(** ** Byte strings *)

Lemma append_cons (c : ascii) (s t : string) :
  String c s +:+ t = String c (s +:+ t).
Proof. reflexivity. Qed.

Lemma length_append (s t : string) :
  String.length (s +:+ t) = (String.length s + String.length t)%nat.
Proof. induction s as [|c s IH]; simpl; [reflexivity | now rewrite IH]. Qed.

Lemma substring_whole (s : string) : String.substring 0 (String.length s) s = s.
Proof. induction s as [|c s IH]; simpl; [reflexivity | now rewrite IH]. Qed.

Lemma substring_head (pre rest : string) :
  String.substring 0 (String.length pre) (pre +:+ rest) = pre.
Proof.
  induction pre as [|c pre IH]; simpl; [now destruct rest | now rewrite IH].
Qed.

Lemma substring_split (s : string) : forall n : nat,
  (n <= String.length s)%nat ->
  s = String.substring 0 n s +:+ String.substring n (String.length s - n) s.
Proof.
  induction s as [|c s IH]; intros [|n] Hn; simpl in *; try lia.
  - reflexivity.
  - now rewrite substring_whole.
  - rewrite append_cons. f_equal. apply IH. lia.
Qed.

Lemma slice_head (pre rest : string) :
  slice (pre +:+ rest) 0 (len pre) = Some pre.
Proof.
  unfold slice, len. rewrite length_append.
  replace ((0 <=? 0) && (0 <=? Z.of_nat (String.length pre))
           && (Z.of_nat (String.length pre)
               <=? Z.of_nat (String.length pre + String.length rest)))%Z
    with true by (symmetry; rewrite !andb_true_iff, !Z.leb_le; lia).
  rewrite Z.sub_0_r, Nat2Z.id. simpl Z.to_nat.
  now rewrite substring_head.
Qed.

Lemma HasSuffix_split (s suffix : string) :
  HasSuffix s suffix = true -> exists pre, s = pre +:+ suffix.
Proof.
  unfold HasSuffix, slice, len. intros H.
  apply andb_true_iff in H as [Hle H]. apply Z.leb_le in Hle.
  destruct (_ && _)%bool in H; [|discriminate].
  apply String.eqb_eq in H.
  exists (String.substring 0 (String.length s - String.length suffix) s).
  rewrite <- H at 2.
  replace (Z.to_nat (Z.of_nat (String.length s) - Z.of_nat (String.length suffix)))
    with (String.length s - String.length suffix)%nat by lia.
  replace (Z.to_nat (Z.of_nat (String.length s)
             - (Z.of_nat (String.length s) - Z.of_nat (String.length suffix))))
    with (String.length s - (String.length s - String.length suffix))%nat by lia.
  apply substring_split. lia.
Qed.

Lemma prefix_dot (s : string) :
  String.prefix "." s = true -> exists rest, s = String "." rest.
Proof.
  destruct s as [|c s]; cbn [String.prefix]; [discriminate|].
  destruct (ascii_dec _ c) as [<-|]; [eauto | discriminate].
Qed.

Lemma prefix_dot_cons (rest : string) : String.prefix "." (String "." rest) = true.
Proof. simpl. destruct rest; reflexivity. Qed.

Lemma Index_from_shift (s sep : string) : forall i j : Z,
  (0 <= i)%Z -> (0 <= j)%Z ->
  (Index_from s sep i < 0)%Z -> (Index_from s sep j < 0)%Z.
Proof.
  induction s as [|c s IH]; intros i j Hi Hj; cbn [Index_from].
  - destruct (String.prefix sep ""); lia.
  - destruct (String.prefix sep (String c s)); [lia|].
    apply IH; lia.
Qed.

Lemma Contains_false (s sep : string) :
  Contains s sep = false <-> (Index_from s sep 0 < 0)%Z.
Proof. unfold Contains, Index. rewrite Z.leb_gt. reflexivity. Qed.

Lemma LastIndex_from_no_dot (s : string) : forall i acc : Z,
  (0 <= i)%Z -> (Index_from s "." i < 0)%Z -> LastIndex_from s "." i acc = acc.
Proof.
  induction s as [|c s IH]; intros i acc Hi H.
  - reflexivity.
  - cbn [LastIndex_from Index_from] in *.
    destruct (String.prefix "." (String c s)); [lia|].
    apply IH; [lia | assumption].
Qed.

Lemma LastIndex_from_app_dot (pre ext : string) : forall i acc : Z,
  (0 <= i)%Z -> Contains ext "." = false ->
  LastIndex_from (pre +:+ "." +:+ ext) "." i acc = (i + len pre)%Z.
Proof.
  induction pre as [|c pre IH]; intros i acc Hi Hext.
  - change ("" +:+ "." +:+ ext) with (String "." ext).
    cbn [LastIndex_from]. rewrite prefix_dot_cons.
    rewrite LastIndex_from_no_dot; [unfold len; simpl; lia | lia |].
    apply Contains_false in Hext.
    apply (Index_from_shift ext "." 0); [lia | lia | assumption].
  - change (String c pre +:+ "." +:+ ext) with (String c (pre +:+ "." +:+ ext)).
    cbn [LastIndex_from]. rewrite IH by (lia || assumption).
    unfold len. simpl String.length. lia.
Qed.

Lemma LastIndex_from_spec (s : string) : forall i acc : Z,
  (0 <= i)%Z ->
  (LastIndex_from s "." i acc = acc /\ Contains s "." = false)
  \/ (exists pre ext, s = pre +:+ "." +:+ ext /\ Contains ext "." = false
        /\ LastIndex_from s "." i acc = (i + len pre)%Z).
Proof.
  induction s as [|c s IH]; intros i acc Hi.
  - left. split; reflexivity.
  - cbn [LastIndex_from].
    destruct (String.prefix "." (String c s)) eqn:Hp.
    + destruct (IH (i + 1)%Z i ltac:(lia)) as [[Hr Hn]|(pre & ext & -> & Hn & Hr)].
      * right. apply prefix_dot in Hp as [rest Hp]. injection Hp as -> ->.
        exists "", rest. rewrite Hr. repeat split; [assumption | unfold len; simpl; lia].
      * right. exists (String c pre), ext. rewrite Hr.
        repeat split; [assumption | unfold len; simpl String.length; lia].
    + destruct (IH (i + 1)%Z acc ltac:(lia)) as [[Hr Hn]|(pre & ext & -> & Hn & Hr)].
      * left. split; [assumption|].
        apply Contains_false. cbn [Index_from]. rewrite Hp.
        apply Contains_false in Hn.
        apply (Index_from_shift s "." 0); [lia | lia | assumption].
      * right. exists (String c pre), ext. rewrite Hr.
        repeat split; [assumption | unfold len; simpl String.length; lia].
Qed.

(** A path without ['.'] has no last ['.']. *)
Lemma LastIndex_no_dot (s : string) :
  Contains s "." = false -> LastIndex s "." = (-1)%Z.
Proof.
  intros H. apply LastIndex_from_no_dot; [lia | now apply Contains_false].
Qed.

(** [path[:strings.LastIndex(path, ".")]], when it does not panic, cuts the
    path just before its last ['.']. *)
Lemma slice_LastIndex_split (path nPath : string) :
  slice path 0 (LastIndex path ".") = Some nPath ->
  exists ext, path = nPath +:+ "." +:+ ext /\ Contains ext "." = false.
Proof.
  intros H. unfold LastIndex in H.
  destruct (LastIndex_from_spec path 0 (-1) ltac:(lia))
    as [[Hr _]|(pre & ext & -> & Hn & Hr)].
  - rewrite Hr in H. discriminate.
  - rewrite Hr, Z.add_0_l, slice_head in H. injection H as <-. eauto.
Qed.

Lemma slice_LastIndex_suffix (pre ext : string) :
  Contains ext "." = false ->
  slice (pre +:+ "." +:+ ext) 0 (LastIndex (pre +:+ "." +:+ ext) ".") = Some pre.
Proof.
  intros H. unfold LastIndex.
  rewrite LastIndex_from_app_dot by (lia || assumption).
  rewrite Z.add_0_l. apply slice_head.
Qed.

(** ** Running the state monad *)

Lemma bind_run {A B} (m : M A) (k : A -> M B) (w : World) :
  bind m k w = k (m w).1 (m w).2.
Proof. unfold bind. destruct (m w); reflexivity. Qed.

Lemma bind_eq {A B} (m : M A) (k : A -> M B) (w w' : World) (a : A) :
  m w = (a, w') -> bind m k w = k a w'.
Proof. intros H. unfold bind. now rewrite H. Qed.

Ltac unfold_m :=
  unfold try, alloc, Infof, Print in *;
  unfold ret, get, emit, set_fs, set_heap in *.

(** Reduce binds whose first computation has run to a pair. *)
Ltac mred :=
  lazy beta iota zeta delta
    [bind ret get emit set_fs set_heap alloc try Infof Print];
  cbn [fst snd fs nocreate environ heap trace].

(** Case analysis on an innermost scrutinee the computation is stuck on. *)
Ltac mcase :=
  match goal with
  | |- context [match ?x with _ => _ end] =>
      lazymatch x with
      | context [match _ with _ => _ end] => fail
      | _ => destruct x eqn:?
      end
  end.

Ltac mcases := mred; repeat (mcase; mred).

(** *** Frame conditions: a relation between the world before and after *)

Create HintDb frame discriminated.

Section Frame.
Variable R : World -> World -> Prop.
Hypothesis R_refl : forall w, R w w.
Hypothesis R_trans : forall w1 w2 w3, R w1 w2 -> R w2 w3 -> R w1 w3.
Hypothesis R_emit : forall e w, R w (emit e w).2.
Hypothesis R_heap : forall h w, R w (set_heap h w).2.

Lemma frame_ret {A} (a : A) : frame R (ret a).
Proof. intros w. apply R_refl. Qed.

Lemma frame_get {A} (f : World -> A) : frame R (get f).
Proof. intros w. apply R_refl. Qed.

Lemma frame_emit (e : Event) : frame R (emit e).
Proof. intros w. apply R_emit. Qed.

Lemma frame_set_heap (h : gmap handle Stream) : frame R (set_heap h).
Proof. intros w. apply R_heap. Qed.

Lemma frame_bind {A B} (m : M A) (k : A -> M B) :
  frame R m -> (forall a, frame R (k a)) -> frame R (bind m k).
Proof.
  intros Hm Hk w. rewrite bind_run.
  eapply R_trans; [apply Hm | apply Hk].
Qed.

Hint Resolve frame_ret frame_get frame_emit frame_set_heap : frame.

Ltac frame_tac :=
  unfold try;
  repeat first
    [ apply frame_bind; [|intros ?]
    | solve [auto with frame nocore]
    | case_match ].

Lemma frame_alloc (s : Stream) : frame R (alloc s).
Proof. unfold alloc. frame_tac. Qed.

Lemma frame_Infof (msg : string) : frame R (Infof msg).
Proof. apply frame_emit. Qed.

Lemma frame_Print (text : string) : frame R (Print text).
Proof. apply frame_emit. Qed.

Hint Resolve frame_alloc frame_Infof frame_Print : frame.

Lemma frame_os_Getenv (name : string) : frame R (os_Getenv name).
Proof. unfold os_Getenv. frame_tac. Qed.

Lemma frame_utils_Exists (path : string) : frame R (utils_Exists path).
Proof. unfold utils_Exists. frame_tac. Qed.

Lemma frame_os_Stat (name : string) : frame R (os_Stat name).
Proof. unfold os_Stat. frame_tac. Qed.

Lemma frame_os_Open (name : string) : frame R (os_Open name).
Proof. unfold os_Open. frame_tac. Qed.

Lemma frame_Close (h : handle) : frame R (Close h).
Proof. unfold Close. frame_tac. Qed.

Lemma frame_read_all (h : handle) : frame R (read_all h).
Proof. unfold read_all. frame_tac. Qed.

Hint Resolve frame_os_Getenv frame_utils_Exists frame_os_Stat frame_os_Open
  frame_Close frame_read_all : frame.

Context `{Ext : Externals}.

Lemma frame_Seek (h : handle) (offset : Z) : frame R (Seek h offset).
Proof. unfold Seek. frame_tac. Qed.

Hint Resolve frame_Seek : frame.

Lemma frame_blob_Get (enc : DataEncryptor) (root name : string) :
  frame R (blob_Get enc root name).
Proof. unfold blob_Get. frame_tac. Qed.

Lemma frame_gzip_NewReader (fp : handle) : frame R (gzip_NewReader fp).
Proof. unfold gzip_NewReader. frame_tac. Qed.

Lemma frame_zstd_NewReader (fp : handle) : frame R (zstd_NewReader fp).
Proof. unfold zstd_NewReader. frame_tac. Qed.

Lemma frame_reader_Close (r : reader) : frame R (reader_Close r).
Proof. unfold reader_Close. frame_tac. Qed.

Hint Resolve frame_blob_Get frame_gzip_NewReader frame_zstd_NewReader
  frame_reader_Close : frame.

Lemma frame_open (src key algo : string) : frame R (open src key algo).
Proof.
  unfold open, call_loadEncrypt, call_pem_Decode,
    call_ParseRsaPrivateKeyFromPem, call_NewDataEncryptor, call_Abs,
    call_CreateStorage.
  frame_tac.
Qed.

End Frame.

(** *** Postconditions of the normal return *)

Lemma ensures_bind {A B} (m : M A) (k : A -> M (result B)) Q :
  (forall a, ensures (k a) Q) -> ensures (bind m k) Q.
Proof. intros H w b w'. rewrite bind_run. apply H. Qed.

Lemma ensures_Err {A} (e : string) (Q : A -> World -> Prop) : ensures (ret (Err e)) Q.
Proof. intros w a w'. discriminate. Qed.

Lemma ensures_Panic {A} (msg : string) (Q : A -> World -> Prop) :
  ensures (ret (Panic msg)) Q.
Proof. intros w a w'. discriminate. Qed.

Lemma alloc_run (s : Stream) (w : World) :
  alloc s w
  = (fresh (dom (heap w)),
     mkWorld (fs w) (nocreate w) (environ w)
       (<[fresh (dom (heap w)) := s]> (heap w)) (trace w)).
Proof. reflexivity. Qed.

Lemma ensures_alloc (s : Stream) :
  ensures (fp <- alloc s ;; ret (Ok fp)) (fun fp w' => is_Some (heap w' !! fp)).
Proof.
  intros w a w'. rewrite bind_run, alloc_run. intros [= <- <-].
  cbn [heap]. rewrite lookup_insert_eq. eauto.
Qed.

Lemma ensures_os_Open (name : string) :
  ensures (os_Open name) (fun fp w' => is_Some (heap w' !! fp)).
Proof.
  unfold os_Open.
  repeat first [ apply ensures_alloc | apply ensures_bind; intros ?
               | apply ensures_Err | case_match ].
Qed.

(** ** The decode pipeline *)

Section LoadFacts.
Context `{Ext : Externals}.

Lemma same_fs_refl w : same_fs w w.
Proof. reflexivity. Qed.

Lemma same_fs_trans w1 w2 w3 : same_fs w1 w2 -> same_fs w2 w3 -> same_fs w1 w3.
Proof. unfold same_fs. congruence. Qed.

Lemma keeps_files_refl w : keeps_files w w.
Proof. intros q Hq. exact Hq. Qed.

Lemma keeps_files_trans w1 w2 w3 :
  keeps_files w1 w2 -> keeps_files w2 w3 -> keeps_files w1 w3.
Proof. unfold keeps_files. auto. Qed.

Lemma same_fs_keeps w w' : same_fs w w' -> keeps_files w w'.
Proof. intros H q. now rewrite H. Qed.

(** [open] reads; it never writes to the file system. *)
Lemma open_fs (src key algo : string) (w : World) :
  fs (open src key algo w).2 = fs w.
Proof.
  apply (frame_open same_fs same_fs_refl same_fs_trans); reflexivity.
Qed.

Lemma Close_fs (h : handle) (w : World) : fs (Close h w).2 = fs w.
Proof.
  apply (frame_Close same_fs same_fs_refl same_fs_trans); reflexivity.
Qed.

Lemma reader_Close_fs (r : reader) (w : World) : fs (reader_Close r w).2 = fs w.
Proof.
  apply (frame_reader_Close same_fs same_fs_refl same_fs_trans); reflexivity.
Qed.

Lemma needs_decode_guard (path key : string) :
  (key =? "") && negb (HasSuffix path ".gz" || HasSuffix path ".zstd")
  = negb (needs_decode path key).
Proof.
  unfold needs_decode.
  destruct (key =? ""), (HasSuffix path ".gz"), (HasSuffix path ".zstd");
    reflexivity.
Qed.

(** C8.  With no key and neither a [.gz] nor a [.zstd] suffix, [convert]
    returns the source path itself and leaves the whole world as it was:
    no file is opened or created, no stream is allocated and nothing is
    recorded in the trace. *)
Theorem convert_plain_is_noop (path key algo : string) (w : World) :
  key = "" ->
  HasSuffix path ".gz" = false ->
  HasSuffix path ".zstd" = false ->
  convert path key algo w = (Ok path, w).
Proof.
  intros -> Hgz Hzstd. unfold convert. rewrite Hgz, Hzstd. reflexivity.
Qed.

(** C3.  When decoding is required and the path has no ['.'],
    [strings.LastIndex] yields [-1], the slice [path[:-1]] panics, and
    [convert] has done nothing before that: it is not total on the inputs
    that need decoding. *)
Theorem convert_panics_without_dot (path key algo : string) (w : World) :
  needs_decode path key = true ->
  Contains path "." = false ->
  convert path key algo w = (Panic "slice bounds out of range [:-1]", w).
Proof.
  intros Hneed Hdot. unfold convert.
  rewrite needs_decode_guard, Hneed. cbn [negb].
  rewrite (LastIndex_no_dot _ Hdot). reflexivity.
Qed.

Lemma os_Getenv_run (name : string) (w : World) :
  os_Getenv name w = (default "" (environ w !! name), logged w [EvGetenv name]).
Proof. reflexivity. Qed.

(** C4.  With a key supplied, the passphrase variable empty or unset and
    the key resolving to a PEM block marked as encrypted, [open] returns
    the passphrase-required error for every [src] and every [algo]; up to
    that return it has read the environment, resolved the key and decoded
    the PEM text, and nothing else: the trace holds no
    [EvParseRsaPrivateKey], no [EvNewDataEncryptor] and no access to the
    source. *)
Theorem open_requires_passphrase (src key algo : string) (w : World)
    (b : PemBlock) :
  key <> "" ->
  no_passphrase w ->
  pem_Decode (loadEncrypt key) = Some b ->
  marked_encrypted b = true ->
  open src key algo w
  = (Err passphrase_required,
     logged w [EvGetenv "JFS_RSA_PASSPHRASE"; EvLoadEncrypt key; EvPemDecode]).
Proof.
  intros Hkey Hpass Hblock Hmark.
  assert (Henv : default "" (environ w !! "JFS_RSA_PASSPHRASE") = "")
    by (destruct Hpass as [-> | ->]; reflexivity).
  apply String.eqb_neq in Hkey.
  unfold open, try. rewrite Hkey. cbn [negb].
  rewrite !bind_run, os_Getenv_run. cbn [fst snd].
  rewrite Henv. cbn [String.eqb].
  unfold call_loadEncrypt, call_pem_Decode.
  rewrite !bind_run. cbn [fst snd emit ret].
  rewrite Hblock. unfold marked_encrypted in Hmark. rewrite Hmark.
  unfold logged. cbn [fs nocreate environ heap trace].
  rewrite <- !app_assoc. reflexivity.
Qed.

Lemma utils_Exists_run (path : string) (w : World) :
  utils_Exists path w
  = (bool_decide (is_Some (fs w !! path)), logged w [EvExists path]).
Proof. reflexivity. Qed.

Lemma os_Create_Ok (name : string) (w w' : World) (h : handle) :
  os_Create name w = (Ok h, w') ->
  (exists rd wr, fs w' !! name = Some (RegFile "" rd wr))
  /\ heap w' !! h = Some (mkStream (LWriter name) "" None None 0 0).
Proof.
  unfold os_Create. unfold_m. mcases; intros [= <- <-];
    cbn [fs heap]; rewrite !lookup_insert_eq; eauto.
Qed.

Lemma write_all_keeps (h : handle) (d : string) : frame keeps_files (write_all h d).
Proof.
  intros w q Hq. unfold write_all. unfold_m. mcases; try assumption.
  rewrite lookup_insert. case_decide; [eauto | assumption].
Qed.

Lemma io_Copy_keeps (h : handle) (r : reader) : frame keeps_files (io_Copy h r).
Proof.
  intros w. unfold io_Copy. rewrite !bind_run.
  set (w1 := (emit (EvCopy h (compressR r)) w).2).
  destruct (reader_Read r w1).1 as [d rerr]. rewrite bind_run. cbn [ret snd].
  apply keeps_files_trans with (reader_Read r w1).2; [|apply write_all_keeps].
  apply same_fs_keeps. unfold same_fs, reader_Read, read_all. unfold_m.
  mred. reflexivity.
Qed.

(** What a successful [convert] on an input that needs decoding returns,
    and what it leaves behind. *)
Lemma convert_Ok_inv (path key algo p : string) (w w' : World) :
  needs_decode path key = true ->
  convert path key algo w = (Ok p, w') ->
  slice path 0 (LastIndex path ".") = Some p /\ is_Some (fs w' !! p).
Proof.
  intros Hneed. unfold convert.
  rewrite needs_decode_guard, Hneed. cbn [negb].
  destruct (slice path 0 (LastIndex path ".")) as [nPath|] eqn:Hslice;
    [|discriminate].
  rewrite bind_run, utils_Exists_run. cbn [fst snd].
  case_bool_decide as Hex.
  - intros [= <- <-]. split; [reflexivity | exact Hex].
  - unfold convert_miss, try.
    set (w1 := logged w [EvExists nPath]).
    destruct (open path key algo w1) as [[r|e|msg] w2] eqn:Hopen;
      rewrite (bind_eq _ _ _ _ _ Hopen); try discriminate.
    destruct (os_Create nPath w2) as [[h|e|msg] w3] eqn:Hcreate;
      rewrite (bind_eq _ _ _ _ _ Hcreate);
      try (rewrite bind_run; discriminate).
    destruct (io_Copy h r w3) as [[e|] w4] eqn:Hcopy;
      rewrite (bind_eq _ _ _ _ _ Hcopy);
      try (rewrite !bind_run; discriminate).
    rewrite !bind_run. cbn [ret fst snd]. intros [= <- <-].
    split; [reflexivity|].
    rewrite reader_Close_fs, Close_fs. cbn [Infof emit fs snd].
    apply os_Create_Ok in Hcreate as [(rd & wr & Hfile) _].
    pose proof (io_Copy_keeps h r w3 nPath) as Hkeep.
    rewrite Hcopy in Hkeep. apply Hkeep. rewrite Hfile. eauto.
Qed.

Lemma slice_LastIndex_shorter (path nPath : string) :
  slice path 0 (LastIndex path ".") = Some nPath -> nPath <> path.
Proof.
  intros H. apply slice_LastIndex_split in H as (ext & Hpath & _).
  intros ->. apply (f_equal String.length) in Hpath.
  rewrite !length_append in Hpath. cbn [String.length] in Hpath. lia.
Qed.

(** C7.  Let [nPath] be the path derived from a source that needs
    decoding.  (1) In every world that has a file at [nPath], [convert]
    returns [nPath] after the existence check and one log line: the source
    is neither opened nor read, nothing is compared, and the file system
    and the streams are as before.  (2) After any successful call, a
    second call with the same arguments returns the same path in that
    same immediate way, whatever has become of the source in between. *)
Theorem convert_cache_hit (path key algo nPath : string) :
  needs_decode path key = true ->
  slice path 0 (LastIndex path ".") = Some nPath ->
  (forall w, is_Some (fs w !! nPath) ->
     convert path key algo w
     = (Ok nPath, logged w [EvExists nPath; EvLog (skip_message nPath)]))
  /\ (forall w p w1 w2,
        convert path key algo w = (Ok p, w1) ->
        (forall q, q <> path -> fs w2 !! q = fs w1 !! q) ->
        convert path key algo w2
        = (Ok p, logged w2 [EvExists p; EvLog (skip_message p)])).
Proof.
  intros Hneed Hslice.
  assert (Hhit : forall w, is_Some (fs w !! nPath) ->
     convert path key algo w
     = (Ok nPath, logged w [EvExists nPath; EvLog (skip_message nPath)])).
  { intros w Hex. unfold convert.
    rewrite needs_decode_guard, Hneed, Hslice. cbn [negb].
    rewrite bind_run, utils_Exists_run. cbn [fst snd].
    rewrite bool_decide_eq_true_2 by exact Hex.
    unfold Infof, logged. rewrite bind_run. cbn [emit ret fst snd fs nocreate environ heap trace].
    rewrite <- app_assoc. reflexivity. }
  split; [exact Hhit|].
  intros w p w1 w2 Hfirst Hsame.
  apply convert_Ok_inv in Hfirst as [Hp Hex]; [|exact Hneed].
  rewrite Hslice in Hp. injection Hp as <-.
  apply Hhit. rewrite Hsame; [exact Hex|].
  now apply slice_LastIndex_shorter.
Qed.

(** C1 (amended).  Whenever [convert] returns a path for a source that
    needs decoding, that path is the source path cut just before its last
    ['.']: the final extension is removed whatever it is.  For a source
    ending in [.gz] or [.zstd] this is exactly that suffix removed. *)
Theorem convert_strips_last_extension (path key algo p : string) (w w' : World) :
  needs_decode path key = true ->
  convert path key algo w = (Ok p, w') ->
  (exists ext, path = p +:+ "." +:+ ext /\ Contains ext "." = false)
  /\ (HasSuffix path ".gz" = true -> path = p +:+ ".gz")
  /\ (HasSuffix path ".zstd" = true -> path = p +:+ ".zstd").
Proof.
  intros Hneed Hconv.
  apply convert_Ok_inv in Hconv as [Hslice _]; [|exact Hneed].
  split; [now apply slice_LastIndex_split|].
  split; intros Hsuf; apply HasSuffix_split in Hsuf as [pre ->].
  - change ".gz" with ("." +:+ "gz") in Hslice.
    rewrite slice_LastIndex_suffix in Hslice by reflexivity.
    now injection Hslice as ->.
  - change ".zstd" with ("." +:+ "zstd") in Hslice.
    rewrite slice_LastIndex_suffix in Hslice by reflexivity.
    now injection Hslice as ->.
Qed.

(** *** Closing a composed stream *)

(** The compression layer is closed first, whatever follows. *)
Lemma reader_Close_first (r : reader) (w : World) :
  exists rest,
    trace (reader_Close r w).2 = (trace w ++ EvClose (compressR r) :: rest)%list.
Proof.
  unfold reader_Close, Close. unfold_m. mcases;
    rewrite <- ?app_assoc; eexists; reflexivity.
Qed.

(** When the two layers are one object, [Close] reaches it exactly once. *)
Lemma reader_Close_alias (r : reader) (w : World) (s : Stream) :
  encryptR r = compressR r ->
  heap w !! compressR r = Some s ->
  heap (reader_Close r w).2 !! compressR r = Some (bump_close s).
Proof.
  intros Halias Hs. unfold reader_Close, Close. unfold_m.
  rewrite Halias, Nat.eqb_refl. cbn [negb]. mred. rewrite Hs. mcases;
    cbn [heap]; apply lookup_insert_eq.
Qed.

(** When closing the compression layer fails, [Close] returns at once and
    the other layer is not touched. *)
Lemma reader_Close_error_skips_base (r : reader) (w : World) (e : string) :
  (Close (compressR r) w).1 = Some e ->
  reader_Close r w = (Some e, (Close (compressR r) w).2).
Proof.
  intros H. unfold reader_Close. rewrite bind_run, H. reflexivity.
Qed.

(** When it succeeds and the layers are distinct, the other layer is
    closed next. *)
Lemma reader_Close_ok_distinct (r : reader) (w : World) :
  (Close (compressR r) w).1 = None ->
  encryptR r <> compressR r ->
  reader_Close r w = Close (encryptR r) (Close (compressR r) w).2.
Proof.
  intros H Hne. unfold reader_Close. rewrite bind_run, H.
  apply Nat.eqb_neq in Hne. rewrite Hne. reflexivity.
Qed.

(** *** The layers [open] builds *)

Lemma ensures_blob_Get (enc : DataEncryptor) (root name : string) :
  ensures (blob_Get enc root name) (fun fp w' => is_Some (heap w' !! fp)).
Proof.
  unfold blob_Get.
  repeat first [ apply ensures_alloc | apply ensures_bind; intros ?
               | apply ensures_Err | apply ensures_Panic | case_match ].
Qed.

Lemma suffixes_exclusive (s : string) :
  HasSuffix s ".gz" = true -> HasSuffix s ".zstd" = false.
Proof.
  intros Hgz. destruct (HasSuffix s ".zstd") eqn:Hzstd; [|reflexivity].
  apply HasSuffix_split in Hgz as [a Ha].
  apply HasSuffix_split in Hzstd as [b Hb].
  assert (Hlen : (2 + String.length a = 4 + String.length b)%nat).
  { apply (f_equal String.length) in Ha, Hb.
    rewrite length_append in Ha, Hb. cbn [String.length] in Ha, Hb. lia. }
  pose proof (String.append_correct2 a ".gz" 2) as Hz.
  pose proof (String.append_correct2 b ".zstd" 4) as Hd.
  rewrite <- Ha in Hz. rewrite <- Hb, <- Hlen, <- Hz in Hd. discriminate.
Qed.

(** The shape of every stream [open] returns. *)
Lemma open_Ok_layers (src key algo : string) (w w' : World) (r : reader) :
  open src key algo w = (Ok r, w') ->
  (HasSuffix src ".gz" = true ->
     compressR r <> encryptR r
     /\ exists s, heap w' !! compressR r = Some s
                  /\ s_layer s = LGzip (encryptR r))
  /\ (HasSuffix src ".zstd" = true ->
        compressR r <> encryptR r
        /\ exists s, heap w' !! compressR r = Some s
                     /\ s_layer s = LZstd (encryptR r))
  /\ (HasSuffix src ".gz" = false -> HasSuffix src ".zstd" = false ->
        compressR r = encryptR r).
Proof.
  unfold open. unfold try at 1. intros Hopen.
  match type of Hopen with
  | bind ?m ?k w = _ =>
      assert (Hbase : ensures m (fun fp w1 => is_Some (heap w1 !! fp)));
      [| destruct (m w) as [[fp|e|msg] w1] eqn:Hrun;
         rewrite (bind_eq _ _ _ _ _ Hrun) in Hopen;
         [apply Hbase in Hrun | discriminate..] ]
  end.
  { unfold try, call_loadEncrypt, call_pem_Decode,
      call_ParseRsaPrivateKeyFromPem, call_NewDataEncryptor, call_Abs,
      call_CreateStorage.
    repeat first [ apply ensures_os_Open | apply ensures_blob_Get
                 | apply ensures_bind; intros ? | apply ensures_Err
                 | apply ensures_Panic | case_match ]. }
  assert (Hfresh : fresh (dom (heap w1)) <> fp).
  { intros Heq. apply (is_fresh (dom (heap w1))).
    rewrite Heq. now apply elem_of_dom. }
  clear Hbase.
  destruct (HasSuffix src ".gz") eqn:Hgz.
  - rewrite (suffixes_exclusive _ Hgz).
    unfold try, gzip_NewReader, read_all in Hopen. unfold_m.
    revert Hopen. mcases; intros [= <- <-]; cbn [compressR encryptR heap];
      (split; [|split]; [intros _ | discriminate..]);
      (split; [exact Hfresh | rewrite lookup_insert_eq; eauto]).
  - destruct (HasSuffix src ".zstd") eqn:Hzstd.
    + unfold zstd_NewReader, read_all in Hopen. unfold_m.
      revert Hopen. mcases; intros [= <- <-]; cbn [compressR encryptR heap];
        (split; [|split]; [discriminate | intros _ | discriminate]);
        (split; [exact Hfresh | rewrite lookup_insert_eq; eauto]).
    + injection Hopen as <- <-. cbn [compressR encryptR].
      split; [|split]; try discriminate. reflexivity.
Qed.

End LoadFacts.

(** ** The inspector *)

Section InspectFacts.
Context `{Ext : Externals}.

Lemma logged_logged (w : World) (a b : list Event) :
  logged (logged w a) b = logged w (a ++ b)%list.
Proof. unfold logged. cbn. now rewrite app_assoc. Qed.


Lemma os_Open_file_run (name d : string) (wr : bool) (w : World) :
  fs w !! name = Some (RegFile d true wr) ->
  os_Open name w
  = (Ok (fresh (dom (heap w))),
     mkWorld (fs w) (nocreate w) (environ w)
       (<[fresh (dom (heap w)) := mkStream (LFile name) d None None 0 0]> (heap w))
       (trace w ++ [EvOpen name])).
Proof. intros H. unfold os_Open. mred. rewrite H. reflexivity. Qed.

Lemma close_after_run {A} (m : M A) (fp : handle) (w : World) :
  (r <- m ;; _ <- Close fp ;; ret r) w = ((m w).1, (Close fp (m w).2).2).
Proof. rewrite !bind_run. reflexivity. Qed.

Lemma Close_trace (h : handle) (w : World) :
  trace (Close h w).2 = (trace w ++ [EvClose h])%list.
Proof. unfold Close. mcases; reflexivity. Qed.




(** What [Seek] on an open file does with a position it accepts, and with
    one it refuses. *)
Lemma Seek_accepted (fp : handle) (offset : Z) (w : World) (s : Stream)
    (name : string) :
  heap w !! fp = Some s ->
  file_name (s_layer s) = Some name ->
  s_nclose s = 0 ->
  (0 <= offset <= seek_max)%Z ->
  Seek fp offset w
  = (None, mkWorld (fs w) (nocreate w) (environ w)
             (<[fp := move_to s offset]> (heap w))
             (trace w ++ [EvSeek fp offset])).
Proof.
  intros Hs Hname Hopen [Hlo Hhi]. unfold Seek. mred.
  rewrite Hs, Hname, Hopen. cbn [Nat.ltb Nat.leb].
  apply Z.ltb_ge in Hlo, Hhi. rewrite Hlo, Hhi. reflexivity.
Qed.

Lemma Seek_refused (fp : handle) (offset : Z) (w : World) (s : Stream)
    (name : string) :
  heap w !! fp = Some s ->
  file_name (s_layer s) = Some name ->
  s_nclose s = 0 ->
  (offset < 0 \/ seek_max < offset)%Z ->
  Seek fp offset w
  = (Some ("seek " +:+ name +:+ ": invalid argument"), logged w [EvSeek fp offset]).
Proof.
  intros Hs Hname Hopen Hoff. unfold Seek. mred.
  rewrite Hs, Hname, Hopen. cbn [Nat.ltb Nat.leb].
  assert (Hbad : ((offset <? 0) || (seek_max <? offset))%Z = true).
  { apply orb_true_iff. destruct Hoff as [H|H]; [left|right]; now apply Z.ltb_lt. }
  rewrite Hbad. reflexivity.
Qed.



Lemma showBakDetail_refused (fp : handle) (offset : Z) (w : World) (s : Stream)
    (name : string) :
  heap w !! fp = Some s ->
  file_name (s_layer s) = Some name ->
  s_nclose s = 0 ->
  (offset < 0 \/ seek_max < offset)%Z ->
  showBakDetail fp offset w
  = (Err ("seek " +:+ name +:+ ": invalid argument"), logged w [EvSeek fp offset]).
Proof.
  intros Hs Hname Hopen Hoff. unfold showBakDetail.
  erewrite bind_eq; [|apply (Seek_refused fp offset w s name); assumption].
  reflexivity.
Qed.

(** The world in which [statBak] makes its choice: the log line is
    written and the file is open at a fresh handle. *)
Lemma statBak_run (ctx : Context) (path d : string) (wr : bool) (w : World) :
  fs w !! path = Some (RegFile d true wr) ->
  let fp := fresh (dom (heap w)) in
  let w1 := mkWorld (fs w) (nocreate w) (environ w)
              (<[fp := mkStream (LFile path) d None None 0 0]> (heap w))
              (trace w ++ [EvLog ("load backup from " +:+ path); EvOpen path]) in
  statBak ctx path w
  = (r <- (if negb (IsSet_offset ctx) then showBakSummary fp false
           else if (Int64_offset ctx =? -1)%Z then showBakSummary fp true
                else showBakDetail fp (Int64_offset ctx)) ;;
     _ <- Close fp ;; ret r) w1.
Proof.
  intros Hfile fp w1. unfold statBak, try at 1.
  rewrite bind_run. cbn [Infof emit fst snd].
  erewrite bind_eq; [|apply (os_Open_file_run path d wr); exact Hfile].
  cbn [fs nocreate environ heap trace]. rewrite <- app_assoc. reflexivity.
Qed.


End InspectFacts.

(** * The embedding at work *)

Section Runs.
Import Sample.

Example HasSuffix_gz : HasSuffix "meta-dump.json.gz" ".gz" = true.
Proof. reflexivity. Qed.

Example HasSuffix_short : HasSuffix "gz" ".gz" = false.
Proof. reflexivity. Qed.

Example LastIndex_two_dots : LastIndex "meta-dump.json.gz" "." = 14%Z.
Proof. reflexivity. Qed.

Example LastIndex_none : LastIndex "backup" "." = (-1)%Z.
Proof. reflexivity. Qed.

Example slice_minus_one : slice "backup" 0 (-1) = None.
Proof. reflexivity. Qed.

(** "source backup.json.gz, decryption disabled: materialize writes
    backup.json containing the decompressed JSON" *)
Example convert_gz_run :
  let r := @convert ext "dump.json.gz" "" "" w_gz in
  r.1 = Ok "dump.json"
  /\ fs r.2 !! "dump.json" = Some (RegFile "{}" true true)
  /\ trace r.2
     = [EvExists "dump.json"; EvOpen "dump.json.gz"; EvGzipNewReader 0;
        EvCreate "dump.json"; EvCopy 2 1;
        EvLog "converted backup dump.json.gz to dump.json";
        EvClose 2; EvClose 1; EvClose 0].
Proof. vm_compute. repeat split. Qed.

(** "renders two rows sorted as edge before inode" *)
Example summary_sorted :
  summary_table true
    (mkFooter 1 (<["inode" := mkSegInfo 100 0]>
                  (<["edge" := mkSegInfo 250 4096]> ∅)))
  = [["edge"; "250"; "4096"]; ["inode"; "100"; "0"]].
Proof. vm_compute. reflexivity. Qed.

(** C8 at a plain binary dump. *)
Lemma convert_plain_is_noop_witness :
  HasSuffix "meta.bin" ".gz" = false
  /\ HasSuffix "meta.bin" ".zstd" = false
  /\ @convert ext "meta.bin" "" "aes256gcm-rsa" w_bak = (Ok "meta.bin", w_bak).
Proof.
  split; [reflexivity|]. split; [reflexivity|].
  apply (@convert_plain_is_noop ext); reflexivity.
Defined.

(** C3 at an encrypted dump named [backup]. *)
Lemma convert_panics_without_dot_witness :
  needs_decode "backup" "PEM:k" = true
  /\ Contains "backup" "." = false
  /\ @convert ext "backup" "PEM:k" "aes256gcm-rsa" empty_world
     = (Panic "slice bounds out of range [:-1]", empty_world).
Proof.
  split; [reflexivity|]. split; [reflexivity|].
  apply (@convert_panics_without_dot ext); reflexivity.
Defined.

(** C4 at a passphrase-protected key and an empty environment. *)
Lemma open_requires_passphrase_witness :
  no_passphrase empty_world
  /\ marked_encrypted encrypted_block = true
  /\ @open ext "meta.bak" "ENC:k" "chacha20-rsa" empty_world
     = (Err passphrase_required,
        logged empty_world
          [EvGetenv "JFS_RSA_PASSPHRASE"; EvLoadEncrypt "ENC:k"; EvPemDecode]).
Proof.
  assert (Henv : no_passphrase empty_world) by (left; reflexivity).
  assert (Hmark : marked_encrypted encrypted_block = true)
    by (vm_compute; reflexivity).
  split; [exact Henv|]. split; [exact Hmark|].
  apply (@open_requires_passphrase ext "meta.bak" "ENC:k" "chacha20-rsa"
           empty_world encrypted_block);
    [discriminate | exact Henv | reflexivity | exact Hmark].
Defined.

(** C7 at an encrypted dump whose plain sibling exists. *)
Lemma convert_cache_hit_witness :
  needs_decode "meta.bak" "PEM:k" = true
  /\ slice "meta.bak" 0 (LastIndex "meta.bak" ".") = Some "meta"
  /\ is_Some (fs w_cached !! "meta")
  /\ @convert ext "meta.bak" "PEM:k" "aes256gcm-rsa" w_cached
     = (Ok "meta",
        logged w_cached [EvExists "meta"; EvLog (skip_message "meta")]).
Proof.
  assert (Hex : is_Some (fs w_cached !! "meta"))
    by (exists (RegFile "plain" true true); vm_compute; reflexivity).
  split; [reflexivity|]. split; [reflexivity|]. split; [exact Hex|].
  apply (proj1 (@convert_cache_hit ext "meta.bak" "PEM:k" "aes256gcm-rsa"
                  "meta" eq_refl eq_refl)).
  exact Hex.
Defined.

(** C1: an encrypted dump without a compression suffix loses its
    extension, which the wording of the specification would keep. *)
Lemma plain_path_not_returned :
  needs_decode "meta.bak" "PEM:k" = true
  /\ (@convert ext "meta.bak" "PEM:k" "aes256gcm-rsa" w_encrypted).1 = Ok "meta"
  /\ plain_path "meta.bak" = "meta.bak"
  /\ "meta" <> plain_path "meta.bak".
Proof. vm_compute. repeat split. discriminate. Qed.

(** C1 (amended) at a gzip dump. *)
Lemma convert_strips_last_extension_witness :
  needs_decode "dump.json.gz" "" = true
  /\ (exists ext0, "dump.json.gz" = "dump.json" +:+ "." +:+ ext0
                   /\ Contains ext0 "." = false)
  /\ (HasSuffix "dump.json.gz" ".gz" = true ->
      "dump.json.gz" = "dump.json" +:+ ".gz")
  /\ (HasSuffix "dump.json.gz" ".zstd" = true ->
      "dump.json.gz" = "dump.json" +:+ ".zstd").
Proof.
  split; [reflexivity|].
  apply (@convert_strips_last_extension ext "dump.json.gz" "" "" "dump.json"
           w_gz (@convert ext "dump.json.gz" "" "" w_gz).2);
    [reflexivity | vm_compute; reflexivity].
Defined.

(** C2: the creation succeeds on a target that is already there, and the
    copy replaces what the file held. *)
Lemma create_overwrites_existing_target :
  fs w_race !! "dump.json" = Some (RegFile "written by someone else" true true)
  /\ (@convert_miss ext "dump.json.gz" "dump.json" "" "" w_race).1
     = Ok "dump.json"
  /\ fs (@convert_miss ext "dump.json.gz" "dump.json" "" "" w_race).2
       !! "dump.json"
     = Some (RegFile "{}" true true).
Proof. vm_compute. repeat split. Qed.

(** C5.  Two error paths on which an opened stream is not released.
    (1) A gzip dump with a corrupt body: the copy fails, [convert] returns
    the error, the writer (handle 2) and the gzip reader (handle 1) have
    been closed once, and the source file (handle 0) has not been closed at
    all, because closing the gzip reader failed first.  (2) A [.gz] file
    with a bad header: [open] fails in [gzip.NewReader] and the source file
    it had opened (handle 0) is never closed. *)
Theorem convert_leaves_source_open_on_corrupt_stream :
  let r := @convert ext "dump.json.gz" "" "" w_gz_corrupt in
  let o := @open ext "dump.json.gz" "" "" w_gz_badheader in
  (r.1 = Err "failed to convert dump.json.gz to dump.json: corrupt input"
   /\ heap r.2 !! 0 = Some (mkStream (LFile "dump.json.gz") "G{!" None None 0 0)
   /\ times_closed r.2 0 = 0
   /\ times_closed r.2 1 = 1
   /\ times_closed r.2 2 = 1
   /\ trace r.2
      = [EvExists "dump.json"; EvOpen "dump.json.gz"; EvGzipNewReader 0;
         EvCreate "dump.json"; EvCopy 2 1; EvClose 2; EvClose 1])
  /\ (o.1 = Err "gzip: invalid header"
      /\ heap o.2 !! 0 = Some (mkStream (LFile "dump.json.gz") "{}" None None 0 0)
      /\ trace o.2 = [EvOpen "dump.json.gz"; EvGzipNewReader 0]).
Proof. vm_compute. repeat split. Qed.

(** C6.  A composed stream over two distinct objects whose compression
    layer fails to close: [Close] returns that error after the one call,
    and the base layer, although a different object, is not closed. *)
Theorem reader_Close_skips_distinct_base_on_error :
  let r := mkReader 0 1 in
  let c := reader_Close r w_two_layers in
  encryptR r <> compressR r
  /\ c.1 = Some "corrupt input"
  /\ trace c.2 = [EvClose 1]
  /\ times_closed c.2 (compressR r) = 1
  /\ times_closed c.2 (encryptR r) = 0.
Proof. vm_compute. repeat split. discriminate. Qed.



End Runs.

(** * Further properties of [cmd/load.go] *)

Lemma fresh_ne (m : gmap handle Stream) (h : handle) :
  is_Some (m !! h) -> fresh (dom m) <> h.
Proof.
  intros Hh Heq. apply (is_fresh (dom m)). rewrite Heq. now apply elem_of_dom.
Qed.

Lemma substring_tail (pre suf : string) :
  String.substring (String.length pre) (String.length suf) (pre +:+ suf) = suf.
Proof.
  induction pre as [|c pre IH]; [apply substring_whole | exact IH].
Qed.

Lemma HasSuffix_app (pre suf : string) : HasSuffix (pre +:+ suf) suf = true.
Proof.
  unfold HasSuffix, slice, len. rewrite length_append.
  replace (Z.of_nat (String.length suf) <=? Z.of_nat (String.length pre + String.length suf))%Z
    with true by (symmetry; apply Z.leb_le; lia).
  replace ((0 <=? Z.of_nat (String.length pre + String.length suf) - Z.of_nat (String.length suf))
           && (Z.of_nat (String.length pre + String.length suf) - Z.of_nat (String.length suf)
               <=? Z.of_nat (String.length pre + String.length suf))
           && (Z.of_nat (String.length pre + String.length suf)
               <=? Z.of_nat (String.length pre + String.length suf)))%Z
    with true by (symmetry; rewrite !andb_true_iff, !Z.leb_le; lia).
  replace (Z.to_nat (Z.of_nat (String.length pre + String.length suf) - Z.of_nat (String.length suf)))
    with (String.length pre) by lia.
  replace (Z.to_nat (Z.of_nat (String.length pre + String.length suf)
             - (Z.of_nat (String.length pre + String.length suf) - Z.of_nat (String.length suf))))
    with (String.length suf) by lia.
  rewrite substring_tail. apply String.eqb_refl.
Qed.

Lemma os_Create_new_run (name : string) (w : World) :
  fs w !! name = None ->
  name ∉ nocreate w ->
  os_Create name w
  = (Ok (base_handle w),
     mkWorld (<[name := RegFile "" true true]> (fs w)) (nocreate w) (environ w)
       (<[base_handle w := mkStream (LWriter name) "" None None 0 0]> (heap w))
       (trace w ++ [EvCreate name])).
Proof.
  intros Hnone Hnc. unfold os_Create. mred. rewrite Hnone.
  rewrite bool_decide_eq_false_2 by exact Hnc. reflexivity.
Qed.

Lemma Close_run (h : handle) (s : Stream) (w : World) :
  heap w !! h = Some s ->
  Close h w
  = (close_result s,
     mkWorld (fs w) (nocreate w) (environ w) (<[h := bump_close s]> (heap w))
       (trace w ++ [EvClose h])).
Proof. intros Hs. unfold Close. mred. rewrite Hs. reflexivity. Qed.

Section OpenRuns.
Context `{Ext : Externals}.

Lemma over_handle_ne (w : World) (src d : string) :
  over_handle w src d <> base_handle w.
Proof. apply fresh_ne. rewrite lookup_insert_eq. eauto. Qed.

Lemma open_plain_run (src algo d : string) (wr : bool) (w : World) :
  fs w !! src = Some (RegFile d true wr) ->
  HasSuffix src ".gz" = false ->
  HasSuffix src ".zstd" = false ->
  open src "" algo w
  = (Ok (mkReader (base_handle w) (base_handle w)),
     mkWorld (fs w) (nocreate w) (environ w)
       (<[base_handle w := base_stream src d]> (heap w))
       (trace w ++ [EvOpen src])).
Proof.
  intros Hfile Hgz Hzstd. unfold open, try. cbn [String.eqb negb].
  erewrite bind_eq; [|apply (os_Open_file_run src d wr); exact Hfile].
  rewrite Hgz, Hzstd. reflexivity.
Qed.

Lemma open_gz_run (src algo d plain : string) (wr : bool) (w : World)
    (rerr cerr : option string) :
  fs w !! src = Some (RegFile d true wr) ->
  HasSuffix src ".gz" = true ->
  gzip_header d = None ->
  gzip_decode d = (plain, rerr, cerr) ->
  open src "" algo w
  = (Ok (mkReader (base_handle w) (over_handle w src d)),
     mkWorld (fs w) (nocreate w) (environ w)
       (<[over_handle w src d := mkStream (LGzip (base_handle w)) plain rerr cerr 0 0]>
          (<[base_handle w := base_stream src d]> (heap w)))
       (trace w ++ [EvOpen src; EvGzipNewReader (base_handle w)])).
Proof.
  intros Hfile Hgz Hhdr Hdec. unfold open, try. cbn [String.eqb negb].
  erewrite bind_eq; [|apply (os_Open_file_run src d wr); exact Hfile].
  rewrite Hgz. unfold gzip_NewReader, read_all. mred.
  fold (base_handle w). rewrite lookup_insert_eq. cbn [s_data s_rerr base_stream].
  rewrite Hhdr, Hdec. mred. rewrite <- app_assoc.
  destruct rerr; reflexivity.
Qed.

Lemma open_zstd_run (src algo d plain : string) (wr : bool) (w : World)
    (rerr cerr : option string) :
  fs w !! src = Some (RegFile d true wr) ->
  HasSuffix src ".gz" = false ->
  HasSuffix src ".zstd" = true ->
  zstd_decode d = (plain, rerr, cerr) ->
  open src "" algo w
  = (Ok (mkReader (base_handle w) (over_handle w src d)),
     mkWorld (fs w) (nocreate w) (environ w)
       (<[over_handle w src d := mkStream (LZstd (base_handle w)) plain rerr cerr 0 0]>
          (<[base_handle w := base_stream src d]> (heap w)))
       (trace w ++ [EvOpen src; EvZstdNewReader (base_handle w)])).
Proof.
  intros Hfile Hgz Hzstd Hdec. unfold open, try. cbn [String.eqb negb].
  erewrite bind_eq; [|apply (os_Open_file_run src d wr); exact Hfile].
  rewrite Hgz, Hzstd. unfold zstd_NewReader, read_all. mred.
  fold (base_handle w). rewrite lookup_insert_eq. cbn [s_data s_rerr base_stream].
  rewrite Hdec. mred. rewrite <- app_assoc.
  destruct rerr; reflexivity.
Qed.

Lemma io_Copy_run (wh : handle) (r : reader) (w : World) (s sw : Stream)
    (p old : string) (rd wrt : bool) :
  heap w !! compressR r = Some s ->
  heap w !! wh = Some sw ->
  s_layer sw = LWriter p ->
  s_nclose sw = 0 ->
  fs w !! p = Some (RegFile old rd wrt) ->
  io_Copy wh r w
  = (s_rerr s,
     mkWorld (<[p := RegFile (old +:+ s_data s) rd wrt]> (fs w)) (nocreate w)
       (environ w) (heap w) (trace w ++ [EvCopy wh (compressR r)])).
Proof.
  intros Hs Hsw Hlayer Hopen Hfile.
  unfold io_Copy, reader_Read, read_all, write_all. mred.
  rewrite Hs. mred. rewrite Hsw. mred. rewrite Hlayer. mred.
  rewrite Hopen. cbn [Nat.ltb Nat.leb]. rewrite Hfile. mred.
  destruct (s_rerr s); reflexivity.
Qed.

(** The whole run of [convert] on an unencrypted [.gz] source whose target
    is absent and can be created. *)
Lemma convert_gz_full_run (nPath algo d plain : string) (wr : bool) (w : World)
    (rerr cerr : option string) :
  let path := nPath +:+ ".gz" in
  fs w !! path = Some (RegFile d true wr) ->
  fs w !! nPath = None ->
  nPath ∉ nocreate w ->
  gzip_header d = None ->
  gzip_decode d = (plain, rerr, cerr) ->
  exists fp gz wh w',
    convert path "" algo w
    = (match rerr with
       | Some e => Err ("failed to convert " +:+ path +:+ " to " +:+ nPath
                        +:+ ": " +:+ e)
       | None => Ok nPath
       end, w')
    /\ fp <> gz /\ fp <> wh /\ gz <> wh
    /\ heap w !! fp = None /\ heap w !! gz = None /\ heap w !! wh = None
    /\ fs w' = <[nPath := RegFile plain true true]> (fs w)
    /\ trace w'
       = (trace w
          ++ [EvExists nPath; EvOpen path; EvGzipNewReader fp; EvCreate nPath;
              EvCopy wh gz]
          ++ (if rerr is Some _ then []
              else [EvLog ("converted backup " +:+ path +:+ " to " +:+ nPath)])
          ++ [EvClose wh; EvClose gz]
          ++ (if cerr is Some _ then [] else [EvClose fp]))%list
    /\ times_closed w' wh = 1
    /\ times_closed w' gz = 1
    /\ times_closed w' fp = (if cerr is Some _ then 0 else 1).
Proof.
  intros path Hfile Hnone Hnc Hhdr Hdec.
  assert (Hsuf : HasSuffix path ".gz" = true) by apply HasSuffix_app.
  assert (Hslice : slice path 0 (LastIndex path ".") = Some nPath)
    by (apply (slice_LastIndex_suffix nPath "gz"); reflexivity).
  clearbody path.
  set (w1 := logged w [EvExists nPath]).
  set (fp := base_handle w1). set (gz := over_handle w1 path d).
  set (sfp := base_stream path d).
  set (sgz := mkStream (LGzip fp) plain rerr cerr 0 0).
  set (hp2 := <[gz := sgz]> (<[fp := sfp]> (heap w))).
  set (wh := fresh (dom hp2)).
  set (swh := mkStream (LWriter nPath) "" None None 0 0).
  assert (Hfg : gz <> fp) by apply over_handle_ne.
  assert (Hfp2 : hp2 !! fp = Some sfp).
  { unfold hp2. rewrite lookup_insert_ne by exact Hfg. apply lookup_insert_eq. }
  assert (Hgz2 : hp2 !! gz = Some sgz) by apply lookup_insert_eq.
  assert (Hwf : wh <> fp) by (apply fresh_ne; rewrite Hfp2; eauto).
  assert (Hwg : wh <> gz) by (apply fresh_ne; rewrite Hgz2; eauto).
  assert (Hfp0 : heap w !! fp = None).
  { apply not_elem_of_dom. apply (is_fresh (dom (heap w))). }
  assert (Hgz0 : heap w !! gz = None).
  { pose proof (is_fresh (dom (<[fp := sfp]> (heap w)))) as Hf.
    apply not_elem_of_dom in Hf. fold gz in Hf.
    rewrite lookup_insert_ne in Hf by (intros Heq; apply Hfg; now rewrite Heq).
    exact Hf. }
  assert (Hwh0 : heap w !! wh = None).
  { pose proof (is_fresh (dom hp2)) as Hf. apply not_elem_of_dom in Hf.
    fold wh in Hf. unfold hp2 in Hf.
    rewrite !lookup_insert_ne in Hf by congruence. exact Hf. }
  exists fp, gz, wh.
  (* the run, step by step *)
  unfold convert. rewrite Hsuf, Hslice. cbn [String.eqb orb negb andb].
  rewrite bind_run, utils_Exists_run. cbn [fst snd]. fold w1.
  rewrite bool_decide_eq_false_2
    by (cbn [fs logged]; rewrite Hnone; apply is_Some_None).
  unfold convert_miss, try.
  erewrite bind_eq;
    [|apply (open_gz_run path algo d plain wr w1 rerr cerr); assumption].
  fold fp gz sfp sgz. cbn [fs nocreate environ heap trace w1 logged]. fold hp2.
  erewrite bind_eq; [|apply os_Create_new_run; assumption].
  unfold base_handle. cbn [fs nocreate environ heap trace]. fold wh swh.
  erewrite bind_eq;
    [|eapply (io_Copy_run wh (mkReader fp gz) _ sgz swh nPath "" true true);
      cbn [fs heap compressR];
      [rewrite lookup_insert_ne by exact Hwg; exact Hgz2
      |apply lookup_insert_eq | reflexivity | reflexivity
      |apply lookup_insert_eq]].
  cbn [fs nocreate environ heap trace compressR s_rerr s_data sgz].
  rewrite insert_insert_eq.
  set (hp3 := <[wh := swh]> hp2).
  assert (Hwh3 : hp3 !! wh = Some swh) by apply lookup_insert_eq.
  set (hp4 := <[wh := bump_close swh]> hp3).
  assert (Hgz4 : hp4 !! gz = Some sgz).
  { unfold hp4, hp3. rewrite !lookup_insert_ne by congruence. exact Hgz2. }
  set (hp5 := <[gz := bump_close sgz]> hp4).
  assert (Hfp5 : hp5 !! fp = Some sfp).
  { unfold hp5, hp4, hp3. rewrite !lookup_insert_ne by congruence. exact Hfp2. }
  assert (Hne : negb (fp =? gz)%nat = true).
  { apply negb_true_iff, Nat.eqb_neq. congruence. }
  assert (Hclose : forall tr,
    (_ <- Close wh ;; _ <- reader_Close (mkReader fp gz) ;;
     ret (match rerr with
          | Some e => Err ("failed to convert " +:+ path +:+ " to " +:+ nPath
                           +:+ ": " +:+ e)
          | None => @Ok string nPath
          end))
      (mkWorld (<[nPath := RegFile ("" +:+ plain) true true]> (fs w))
         (nocreate w) (environ w) hp3 tr)
    = (match rerr with
       | Some e => Err ("failed to convert " +:+ path +:+ " to " +:+ nPath
                        +:+ ": " +:+ e)
       | None => Ok nPath
       end,
       mkWorld (<[nPath := RegFile plain true true]> (fs w)) (nocreate w) (environ w)
         (if cerr is Some _ then hp5 else <[fp := bump_close sfp]> hp5)
         (tr ++ [EvClose wh; EvClose gz] ++ (if cerr is Some _ then [] else [EvClose fp])))).
  { intros tr.
    erewrite bind_eq; [|apply Close_run; exact Hwh3].
    cbn [fs nocreate environ heap trace]. fold hp4.
    unfold reader_Close. cbn [compressR encryptR].
    erewrite (bind_eq (bind _ _)); [reflexivity|].
    erewrite bind_eq; [|apply Close_run; exact Hgz4].
    cbn [fs nocreate environ heap trace close_result sgz s_layer s_cerr].
    fold sgz hp5. rewrite Hne.
    destruct cerr as [ce|].
    - unfold ret. rewrite <- app_assoc. reflexivity.
    - erewrite Close_run by exact Hfp5.
      cbn [fs nocreate environ heap trace]. rewrite <- !app_assoc. reflexivity. }
  destruct rerr as [e|].
  - eexists. split; [apply Hclose|].
    cbn [fs heap trace]. unfold times_closed.
    repeat split; try congruence; try assumption.
    + rewrite <- !app_assoc. reflexivity.
    + destruct cerr; cbn [heap]; unfold hp5, hp4;
        rewrite ?lookup_insert_ne by congruence; rewrite lookup_insert_eq; reflexivity.
    + destruct cerr; cbn [heap]; unfold hp5;
        rewrite ?lookup_insert_ne by congruence; rewrite lookup_insert_eq; reflexivity.
    + destruct cerr; cbn [heap]; [rewrite Hfp5 | rewrite lookup_insert_eq]; reflexivity.
  - rewrite bind_run. cbn [Infof emit fst snd].
    eexists. split; [apply Hclose|].
    cbn [fs heap trace]. unfold times_closed.
    repeat split; try congruence; try assumption.
    + rewrite <- !app_assoc. reflexivity.
    + destruct cerr; cbn [heap]; unfold hp5, hp4;
        rewrite ?lookup_insert_ne by congruence; rewrite lookup_insert_eq; reflexivity.
    + destruct cerr; cbn [heap]; unfold hp5;
        rewrite ?lookup_insert_ne by congruence; rewrite lookup_insert_eq; reflexivity.
    + destruct cerr; cbn [heap]; [rewrite Hfp5 | rewrite lookup_insert_eq]; reflexivity.
Qed.

Lemma convert_hit_run (path key algo nPath : string) (w : World) :
  needs_decode path key = true ->
  slice path 0 (LastIndex path ".") = Some nPath ->
  is_Some (fs w !! nPath) ->
  convert path key algo w
  = (Ok nPath, logged w [EvExists nPath; EvLog (skip_message nPath)]).
Proof.
  intros Hneed Hslice Hex. unfold convert.
  rewrite needs_decode_guard, Hneed, Hslice. cbn [negb].
  rewrite bind_run, utils_Exists_run. cbn [fst snd].
  rewrite bool_decide_eq_true_2 by exact Hex.
  unfold Infof, logged. rewrite bind_run.
  cbn [emit ret fst snd fs nocreate environ heap trace].
  rewrite <- app_assoc. reflexivity.
Qed.

(** X1.  An unencrypted [.gz] source that decodes without error, with the
    target absent and creatable: [convert] returns the target path, the
    target holds exactly the decoded bytes, every other path of the file
    system is as before, and writer and decoder are closed once each.  An
    error from closing the decoder does not change the result; it only
    leaves the source file open. *)
Theorem convert_gz_writes_decoded (nPath algo d plain : string) (wr : bool)
    (w : World) (cerr : option string) :
  let path := nPath +:+ ".gz" in
  fs w !! path = Some (RegFile d true wr) ->
  fs w !! nPath = None ->
  nPath ∉ nocreate w ->
  gzip_header d = None ->
  gzip_decode d = (plain, None, cerr) ->
  exists fp gz wh w',
    convert path "" algo w = (Ok nPath, w')
    /\ fs w' = <[nPath := RegFile plain true true]> (fs w)
    /\ trace w'
       = (trace w
          ++ [EvExists nPath; EvOpen path; EvGzipNewReader fp; EvCreate nPath;
              EvCopy wh gz;
              EvLog ("converted backup " +:+ path +:+ " to " +:+ nPath);
              EvClose wh; EvClose gz]
          ++ (if cerr is Some _ then [] else [EvClose fp]))%list
    /\ times_closed w' wh = 1
    /\ times_closed w' gz = 1
    /\ times_closed w' fp = (if cerr is Some _ then 0 else 1).
Proof.
  intros path Hfile Hnone Hnc Hhdr Hdec.
  destruct (convert_gz_full_run nPath algo d plain wr w None cerr
              Hfile Hnone Hnc Hhdr Hdec)
    as (fp & gz & wh & w' & Hrun & _ & _ & _ & _ & _ & _ & Hfs & Htr & Hc).
  exists fp, gz, wh, w'. repeat split; try assumption; try apply Hc.
Qed.

(** X2.  The same source with a body that fails to decode after [plain]
    has been produced: [convert] returns the wrapped copy error and leaves
    the target on disk holding [plain]; a second call with the same
    arguments then finds that target and returns it as a success, without
    opening the source again. *)
Theorem convert_failed_copy_is_cached (nPath algo d plain e : string)
    (wr : bool) (w : World) (cerr : option string) :
  let path := nPath +:+ ".gz" in
  fs w !! path = Some (RegFile d true wr) ->
  fs w !! nPath = None ->
  nPath ∉ nocreate w ->
  gzip_header d = None ->
  gzip_decode d = (plain, Some e, cerr) ->
  exists w',
    convert path "" algo w
    = (Err ("failed to convert " +:+ path +:+ " to " +:+ nPath +:+ ": " +:+ e), w')
    /\ fs w' !! nPath = Some (RegFile plain true true)
    /\ convert path "" algo w'
       = (Ok nPath, logged w' [EvExists nPath; EvLog (skip_message nPath)]).
Proof.
  intros path Hfile Hnone Hnc Hhdr Hdec.
  destruct (convert_gz_full_run nPath algo d plain wr w (Some e) cerr
              Hfile Hnone Hnc Hhdr Hdec)
    as (fp & gz & wh & w' & Hrun & _ & _ & _ & _ & _ & _ & Hfs & _).
  exists w'. split; [exact Hrun|].
  assert (Hin : fs w' !! nPath = Some (RegFile plain true true))
    by (rewrite Hfs; apply lookup_insert_eq).
  split; [exact Hin|].
  apply convert_hit_run.
  - unfold needs_decode, path. rewrite HasSuffix_app. reflexivity.
  - apply (slice_LastIndex_suffix nPath "gz"). reflexivity.
  - rewrite Hin. eauto.
Qed.

(** *** What [convert] may touch *)

Lemma same_at_refl q w : same_at q w w.
Proof. reflexivity. Qed.

Lemma same_at_trans q w1 w2 w3 : same_at q w1 w2 -> same_at q w2 w3 -> same_at q w1 w3.
Proof. unfold same_at. congruence. Qed.

Lemma same_at_emit q e w : same_at q w (emit e w).2.
Proof. reflexivity. Qed.

Lemma same_at_heap q h w : same_at q w (set_heap h w).2.
Proof. reflexivity. Qed.

Lemma os_Create_same_at (name q : string) : q <> name -> frame (same_at q) (os_Create name).
Proof.
  intros Hne w. unfold same_at, os_Create. mcases;
    try reflexivity; apply lookup_insert_ne; congruence.
Qed.

Lemma os_Create_keeps (name : string) : frame keeps_files (os_Create name).
Proof.
  intros w q Hq. unfold os_Create. mcases; try assumption;
    (rewrite lookup_insert; destruct (decide (name = q)); [eauto | assumption]).
Qed.

Lemma io_Copy_same_at (h : handle) (r : reader) (w : World) (s : Stream)
    (p q : string) :
  heap w !! h = Some s -> s_layer s = LWriter p -> q <> p ->
  same_at q w (io_Copy h r w).2.
Proof.
  intros Hs Hlayer Hne. unfold same_at, io_Copy, reader_Read, read_all, write_all.
  mcases; try reflexivity; simplify_eq; apply lookup_insert_ne; congruence.
Qed.

(** X3.  Whatever its arguments and its outcome, [convert] leaves every
    path other than the derived target as it was and removes no file: the
    source itself is never modified, and nothing is deleted when the
    conversion fails. *)
Theorem convert_footprint (path key algo : string) (w : World) :
  (forall q, slice path 0 (LastIndex path ".") <> Some q ->
     fs (convert path key algo w).2 !! q = fs w !! q)
  /\ fs (convert path key algo w).2 !! path = fs w !! path
  /\ (forall q, is_Some (fs w !! q) ->
        is_Some (fs (convert path key algo w).2 !! q)).
Proof.
  assert (Hat : forall q, slice path 0 (LastIndex path ".") <> Some q ->
            same_at q w (convert path key algo w).2).
  { intros q Hq. unfold convert.
    destruct (_ && _); [reflexivity|].
    destruct (slice path 0 (LastIndex path ".")) as [nPath|]; [|reflexivity].
    assert (Hne : q <> nPath) by congruence.
    rewrite bind_run, utils_Exists_run. cbn [fst snd].
    case_bool_decide; [reflexivity|].
    set (w1 := logged w [EvExists nPath]).
    unfold convert_miss, try. rewrite bind_run.
    pose proof (frame_open (same_at q) (same_at_refl q) (same_at_trans q)
                  (same_at_emit q) (same_at_heap q) path key algo w1) as Hopen.
    destruct (open path key algo w1) as [[r|e|msg] w2]; cbn [fst snd] in *;
      try exact Hopen.
    apply (same_at_trans q _ w2); [exact Hopen|].
    pose proof (os_Create_same_at nPath q Hne w2) as Hcreate.
    destruct (os_Create nPath w2) as [[h|e|msg] w3] eqn:Hc;
      rewrite (bind_eq _ _ _ _ _ Hc); cbn [snd] in Hcreate;
      apply (same_at_trans q _ w3); try exact Hcreate.
    - apply os_Create_Ok in Hc as [_ Hh].
      pose proof (io_Copy_same_at h r w3 _ nPath q Hh eq_refl Hne) as Hcopy.
      destruct (io_Copy h r w3) as [[e|] w4] eqn:Hcp;
        rewrite (bind_eq _ _ _ _ _ Hcp); cbn [snd] in Hcopy;
        apply (same_at_trans q _ w4); try exact Hcopy;
        rewrite !bind_run; cbn [ret snd]; unfold same_at;
        rewrite reader_Close_fs, Close_fs; reflexivity.
    - rewrite bind_run. cbn [ret snd]. unfold same_at.
      now rewrite reader_Close_fs.
    - rewrite bind_run. cbn [ret snd]. unfold same_at.
      now rewrite reader_Close_fs. }
  split; [exact Hat|]. split.
  - apply Hat. intros H. now apply slice_LastIndex_shorter in H.
  - intros q Hq. unfold convert.
    destruct (_ && _); [exact Hq|].
    destruct (slice path 0 (LastIndex path ".")) as [nPath|]; [|exact Hq].
    rewrite bind_run, utils_Exists_run. cbn [fst snd].
    case_bool_decide; [exact Hq|].
    set (w1 := logged w [EvExists nPath]).
    unfold convert_miss, try. rewrite bind_run.
    assert (Hq2 : is_Some (fs (open path key algo w1).2 !! q))
      by (rewrite open_fs; exact Hq).
    destruct (open path key algo w1) as [[r|e|msg] w2]; cbn [fst snd] in *;
      try exact Hq2.
    pose proof (os_Create_keeps nPath w2 q Hq2) as Hq3.
    destruct (os_Create nPath w2) as [[h|e|msg] w3] eqn:Hc;
      rewrite (bind_eq _ _ _ _ _ Hc); cbn [snd] in Hq3.
    + pose proof (io_Copy_keeps h r w3 q Hq3) as Hq4.
      destruct (io_Copy h r w3) as [[e|] w4] eqn:Hcp;
        rewrite (bind_eq _ _ _ _ _ Hcp); cbn [snd] in Hq4;
        rewrite !bind_run; cbn [ret snd Infof emit fst];
        rewrite reader_Close_fs, Close_fs; exact Hq4.
    + rewrite bind_run. cbn [ret snd]. now rewrite reader_Close_fs.
    + rewrite bind_run. cbn [ret snd]. now rewrite reader_Close_fs.
Qed.

End OpenRuns.

(** *** Computations that only allocate *)

Section Allocating.
Variable R : World -> World -> Prop.
Hypothesis R_refl : forall w, R w w.
Hypothesis R_trans : forall w1 w2 w3, R w1 w2 -> R w2 w3 -> R w1 w3.
Hypothesis R_emit : forall e w, R w (emit e w).2.
Hypothesis R_alloc : forall s w, R w (alloc s w).2.

Lemma alloc_frame (s : Stream) : frame R (alloc s).
Proof. intros w. apply R_alloc. Qed.

Ltac alloc_tac :=
  unfold try;
  repeat first
    [ apply alloc_frame
    | apply frame_os_Getenv; assumption
    | apply frame_os_Stat; assumption
    | apply frame_read_all; assumption
    | apply frame_emit; assumption
    | apply frame_ret; assumption
    | apply frame_get; assumption
    | apply frame_bind; [assumption | | intros ?]
    | case_match ].

Lemma os_Open_allocates (name : string) : frame R (os_Open name).
Proof. unfold os_Open. alloc_tac. Qed.

Context `{Ext : Externals}.

Lemma blob_Get_allocates (enc : DataEncryptor) (root name : string) :
  frame R (blob_Get enc root name).
Proof. unfold blob_Get. alloc_tac. Qed.

Lemma gzip_NewReader_allocates (fp : handle) : frame R (gzip_NewReader fp).
Proof. unfold gzip_NewReader, read_all. alloc_tac. Qed.

Lemma zstd_NewReader_allocates (fp : handle) : frame R (zstd_NewReader fp).
Proof. unfold zstd_NewReader, read_all. alloc_tac. Qed.

Lemma open_allocates (src key algo : string) : frame R (open src key algo).
Proof.
  unfold open, call_loadEncrypt, call_pem_Decode,
    call_ParseRsaPrivateKeyFromPem, call_NewDataEncryptor, call_Abs,
    call_CreateStorage.
  unfold try.
  repeat first
    [ apply os_Open_allocates | apply blob_Get_allocates
    | apply gzip_NewReader_allocates | apply zstd_NewReader_allocates
    | apply frame_os_Getenv; assumption
    | apply frame_os_Stat; assumption
    | apply frame_emit; assumption
    | apply frame_ret; assumption
    | apply frame_bind; [assumption | | intros ?]
    | case_match ].
Qed.

End Allocating.

Lemma extends_refl w : extends w w.
Proof.
  repeat split; auto. exists []. now rewrite app_nil_r.
Qed.

Lemma extends_trans w1 w2 w3 : extends w1 w2 -> extends w2 w3 -> extends w1 w3.
Proof.
  intros (Hf & Hn & He & Hh & evs & Ht) (Hf' & Hn' & He' & Hh' & evs' & Ht').
  repeat split; try congruence; auto.
  exists (evs ++ evs')%list. now rewrite Ht', Ht, app_assoc.
Qed.

Lemma extends_emit e w : extends w (emit e w).2.
Proof. repeat split; auto. now exists [e]. Qed.

Lemma extends_alloc s w : extends w (alloc s w).2.
Proof.
  rewrite alloc_run. repeat split; cbn [fs nocreate environ heap trace snd].
  - intros h s' Hh. rewrite lookup_insert_ne; [exact Hh|].
    apply fresh_ne. rewrite Hh. eauto.
  - exists []. now rewrite app_nil_r.
Qed.

(** X4.  For every source, key, algorithm and outcome, [open] leaves the
    file system and the environment as they were and every stream object
    that existed before in the state it had: it adds stream objects and
    trace entries and does nothing else.  In particular it closes
    nothing. *)
Theorem open_only_allocates `{Ext : Externals} (src key algo : string) (w : World) :
  extends w (open src key algo w).2.
Proof.
  apply (open_allocates extends extends_refl extends_trans extends_emit
           extends_alloc).
Qed.

Section OpenFacts.
Context `{Ext : Externals}.

(** X17.  When [open] fails, [convert] returns that error as it is and
    stops there: the target is not created, so a failed attempt leaves no
    empty file that a later call would take for a finished conversion. *)
Theorem convert_open_failure (path key algo nPath e : string) (w w' : World) :
  needs_decode path key = true ->
  slice path 0 (LastIndex path ".") = Some nPath ->
  fs w !! nPath = None ->
  open path key algo (logged w [EvExists nPath]) = (Err e, w') ->
  convert path key algo w = (Err e, w')
  /\ fs w' = fs w
  /\ fs w' !! nPath = None.
Proof.
  intros Hneed Hslice Hnone Hopen.
  assert (Hfs : fs w' = fs w).
  { pose proof (open_fs path key algo (logged w [EvExists nPath])) as H.
    now rewrite Hopen in H. }
  split; [|split; [exact Hfs | now rewrite Hfs]].
  unfold convert. rewrite needs_decode_guard, Hneed, Hslice. cbn [negb].
  rewrite bind_run, utils_Exists_run. cbn [fst snd].
  rewrite bool_decide_eq_false_2 by (rewrite Hnone; apply is_Some_None).
  unfold convert_miss, try. erewrite bind_eq; [|exact Hopen]. reflexivity.
Qed.


(** X5.  What the stream returned by [open] delivers for an unencrypted,
    readable file: the gzip-decoded bytes for a [.gz] path whose header is
    accepted, the zstd-decoded bytes for a [.zstd] path, and the bytes of
    the file itself for any other path.  A [.gz] path whose header is
    rejected makes [open] fail with the decoder's error. *)
Theorem open_reads_decoded (src algo d : string) (wr : bool) (w : World) :
  fs w !! src = Some (RegFile d true wr) ->
  let o := open src "" algo w in
  (HasSuffix src ".gz" = true -> gzip_header d = None ->
     exists r, o.1 = Ok r
               /\ reader_Read r o.2
                  = ((gzip_decode d).1.1, (gzip_decode d).1.2, o.2))
  /\ (HasSuffix src ".gz" = true -> forall e, gzip_header d = Some e ->
        o.1 = Err e)
  /\ (HasSuffix src ".gz" = false -> HasSuffix src ".zstd" = true ->
        exists r, o.1 = Ok r
                  /\ reader_Read r o.2
                     = ((zstd_decode d).1.1, (zstd_decode d).1.2, o.2))
  /\ (HasSuffix src ".gz" = false -> HasSuffix src ".zstd" = false ->
        exists r, o.1 = Ok r /\ reader_Read r o.2 = (d, None, o.2)).
Proof.
  intros Hfile o. subst o.
  split; [|split; [|split]].
  - intros Hgz Hhdr.
    destruct (gzip_decode d) as [[plain rerr] cerr] eqn:Hdec.
    rewrite (open_gz_run src algo d plain wr w rerr cerr Hfile Hgz Hhdr Hdec).
    eexists. split; [reflexivity|].
    unfold reader_Read, read_all. mred. cbn [compressR].
    rewrite lookup_insert_eq. reflexivity.
  - intros Hgz e Hhdr. unfold open, try. cbn [String.eqb negb].
    erewrite bind_eq; [|apply (os_Open_file_run src d wr); exact Hfile].
    rewrite Hgz. unfold gzip_NewReader, read_all. mred.
    rewrite lookup_insert_eq. cbn [s_data s_rerr]. rewrite Hhdr. reflexivity.
  - intros Hgz Hzstd.
    destruct (zstd_decode d) as [[plain rerr] cerr] eqn:Hdec.
    rewrite (open_zstd_run src algo d plain wr w rerr cerr Hfile Hgz Hzstd Hdec).
    eexists. split; [reflexivity|].
    unfold reader_Read, read_all. mred. cbn [compressR].
    rewrite lookup_insert_eq. reflexivity.
  - intros Hgz Hzstd.
    rewrite (open_plain_run src algo d wr w Hfile Hgz Hzstd).
    eexists. split; [reflexivity|].
    unfold reader_Read, read_all. mred. cbn [compressR].
    rewrite lookup_insert_eq. reflexivity.
Qed.

(** X6.  Without a key, a source that does not exist or is not readable
    makes [open] fail with the error of [os.Open]; the environment and the
    key are not consulted and no stream object is created. *)
Theorem open_missing_source (src algo : string) (w : World) :
  (fs w !! src = None ->
     open src "" algo w
     = (Err ("open " +:+ src +:+ ": no such file or directory"),
        logged w [EvOpen src]))
  /\ (forall d wr, fs w !! src = Some (RegFile d false wr) ->
        open src "" algo w
        = (Err ("open " +:+ src +:+ ": permission denied"),
           logged w [EvOpen src])).
Proof.
  split.
  - intros Hnone. unfold open, try, os_Open. cbn [String.eqb negb]. mred.
    rewrite Hnone. reflexivity.
  - intros d wr Hfile. unfold open, try, os_Open. cbn [String.eqb negb]. mred.
    rewrite Hfile. reflexivity.
Qed.

Lemma call_loadEncrypt_run (key : string) (w : World) :
  call_loadEncrypt key w = (loadEncrypt key, logged w [EvLoadEncrypt key]).
Proof. reflexivity. Qed.

(** The steps of [open] on a key, once the passphrase check has let it
    pass, up to the lookup of the source. *)
Lemma open_key_run (src key algo : string) (w : World) :
  key <> "" ->
  let passphrase := default "" (environ w !! "JFS_RSA_PASSPHRASE") in
  (passphrase = ""
   -> forall b, pem_Decode (loadEncrypt key) = Some b -> marked_encrypted b = false) ->
  let inspected :=
    if passphrase =? "" then [EvPemDecode] else [] in
  let checked :=
    ([EvGetenv "JFS_RSA_PASSPHRASE"; EvLoadEncrypt key] ++ inspected
       ++ [EvParseRsaPrivateKey])%list in
  match ParseRsaPrivateKeyFromPem (loadEncrypt key) passphrase with
  | Err e => open src key algo w = (Err ("parse rsa: " +:+ e), logged w checked)
  | Panic msg => open src key algo w = (Panic msg, logged w checked)
  | Ok privKey =>
      match NewDataEncryptor privKey algo with
      | Err e =>
          open src key algo w
          = (Err e, logged w (checked ++ [EvNewDataEncryptor algo]))
      | Panic msg =>
          open src key algo w
          = (Panic msg, logged w (checked ++ [EvNewDataEncryptor algo]))
      | Ok _ =>
          fs w !! src = None ->
          open src key algo w
          = (Err ("failed to stat " +:+ src +:+ ": stat " +:+ src
                  +:+ ": no such file or directory"),
             logged w (checked ++ [EvNewDataEncryptor algo; EvStat src]))
      end
  end.
Proof.
  intros Hkey passphrase Hpass inspected checked.
  apply String.eqb_neq in Hkey.
  assert (Hopen : forall res evs,
    (try (fun e => "parse rsa: " +:+ e)
       (call_ParseRsaPrivateKeyFromPem (loadEncrypt key) passphrase)
       (fun privKey =>
          try id (call_NewDataEncryptor privKey algo) (fun encryptor =>
          serr <- os_Stat src ;;
          match serr with
          | Some e => ret (Err ("failed to stat " +:+ src +:+ ": " +:+ e))
          | None =>
              try (fun e => "failed to get absolute path of " +:+ src +:+ ": " +:+ e)
                (call_Abs src) (fun srcAbsPath =>
              try id
                (call_CreateStorage (TrimSuffix src (filepath_Base srcAbsPath)))
                (fun fileBlob =>
              blob_Get encryptor fileBlob (filepath_Base srcAbsPath)))
          end)))
      (logged w ([EvGetenv "JFS_RSA_PASSPHRASE"; EvLoadEncrypt key] ++ inspected))
    = (res, logged w evs) ->
    (forall a : handle, res <> Ok a) ->
    open src key algo w
    = (match res with Ok _ => Err "" | Err e => Err e | Panic m => Panic m end,
       logged w evs)).
  { intros res evs Hrest Hres. unfold open. unfold try at 1. rewrite Hkey. cbn [negb].
    assert (Hrefuse :
      (if passphrase =? ""
       then block <- call_pem_Decode (loadEncrypt key) ;;
            ret (match block with
                 | Some b => Contains (header b "Proc-Type") "ENCRYPTED"
                             && IsEncryptedPEMBlock b
                 | None => false
                 end)
       else ret false)
        (logged w [EvGetenv "JFS_RSA_PASSPHRASE"; EvLoadEncrypt key])
      = (false, logged w ([EvGetenv "JFS_RSA_PASSPHRASE"; EvLoadEncrypt key]
                          ++ inspected))).
    { subst inspected. destruct (passphrase =? "") eqn:Hp.
      - apply String.eqb_eq in Hp. unfold call_pem_Decode. mred.
        unfold logged. cbn [fs nocreate environ heap trace].
        rewrite <- !app_assoc. cbn [app].
        destruct (pem_Decode (loadEncrypt key)) as [b|] eqn:Hb; [|reflexivity].
        specialize (Hpass Hp b eq_refl). unfold marked_encrypted in Hpass.
        rewrite Hpass. reflexivity.
      - unfold ret. rewrite app_nil_r. reflexivity. }
    erewrite bind_eq; cycle 1.
    { erewrite bind_eq; [|apply os_Getenv_run]. fold passphrase.
      erewrite bind_eq; [|apply call_loadEncrypt_run].
      rewrite logged_logged. cbn [app].
      erewrite bind_eq; [|exact Hrefuse]. exact Hrest. }
    destruct res as [a|e|m]; [exfalso; now apply (Hres a) | reflexivity..]. }
  destruct (ParseRsaPrivateKeyFromPem (loadEncrypt key) passphrase)
    as [privKey|e|msg] eqn:Hparse.
  - destruct (NewDataEncryptor privKey algo) as [enc|e|msg] eqn:Henc.
    + intros Hnone.
      apply (Hopen (Err ("failed to stat " +:+ src +:+ ": stat " +:+ src
                         +:+ ": no such file or directory"))); [|discriminate].
      unfold try, call_ParseRsaPrivateKeyFromPem, call_NewDataEncryptor, os_Stat,
        logged.
      mred. rewrite Hparse. mred. rewrite Henc. mred. rewrite Hnone.
      subst checked. rewrite <- !app_assoc. reflexivity.
    + apply (Hopen (Err e)); [|discriminate].
      unfold try, call_ParseRsaPrivateKeyFromPem, call_NewDataEncryptor, logged.
      mred. rewrite Hparse. mred. rewrite Henc.
      subst checked. rewrite <- !app_assoc. reflexivity.
    + apply (Hopen (Panic msg)); [|discriminate].
      unfold try, call_ParseRsaPrivateKeyFromPem, call_NewDataEncryptor, logged.
      mred. rewrite Hparse. mred. rewrite Henc.
      subst checked. rewrite <- !app_assoc. reflexivity.
  - apply (Hopen (Err ("parse rsa: " +:+ e))); [|discriminate].
    unfold try, call_ParseRsaPrivateKeyFromPem, logged. mred. rewrite Hparse.
    subst checked. rewrite <- !app_assoc. reflexivity.
  - apply (Hopen (Panic msg)); [|discriminate].
    unfold try, call_ParseRsaPrivateKeyFromPem, logged. mred. rewrite Hparse.
    subst checked. rewrite <- !app_assoc. reflexivity.
Qed.

(** X7.  With a key that the passphrase check lets pass, [open] handles
    the key before the source: a key that does not parse gives
    "parse rsa: ..." and an encryptor that cannot be built (such as an
    unknown algorithm) gives its own error, both without any look at the
    source; a source that does not exist is reported as "failed to stat"
    only after both have succeeded.  No stream is opened in any of these
    cases, and the PEM text is inspected only when the passphrase is
    empty. *)
Theorem open_key_errors (src key algo : string) (w : World) :
  key <> "" ->
  let passphrase := default "" (environ w !! "JFS_RSA_PASSPHRASE") in
  (passphrase = ""
   -> forall b, pem_Decode (loadEncrypt key) = Some b -> marked_encrypted b = false) ->
  (forall e, ParseRsaPrivateKeyFromPem (loadEncrypt key) passphrase = Err e ->
     open src key algo w
     = (Err ("parse rsa: " +:+ e), logged w (key_checked key passphrase)))
  /\ (forall k e,
        ParseRsaPrivateKeyFromPem (loadEncrypt key) passphrase = Ok k ->
        NewDataEncryptor k algo = Err e ->
        open src key algo w
        = (Err e, logged w (key_checked key passphrase ++ [EvNewDataEncryptor algo])))
  /\ (forall k enc,
        ParseRsaPrivateKeyFromPem (loadEncrypt key) passphrase = Ok k ->
        NewDataEncryptor k algo = Ok enc ->
        fs w !! src = None ->
        open src key algo w
        = (Err ("failed to stat " +:+ src +:+ ": stat " +:+ src
                +:+ ": no such file or directory"),
           logged w (key_checked key passphrase
                     ++ [EvNewDataEncryptor algo; EvStat src]))).
Proof.
  intros Hkey passphrase Hpass.
  pose proof (open_key_run src key algo w Hkey Hpass) as Hrun.
  cbv zeta in Hrun. fold passphrase in Hrun.
  fold (key_checked key passphrase) in Hrun.
  split; [|split].
  - intros e He. now rewrite He in Hrun.
  - intros k e Hk He. now rewrite Hk, He in Hrun.
  - intros k enc Hk Henc Hnone. rewrite Hk, Henc in Hrun. now apply Hrun.
Qed.

End OpenFacts.

(** ** More on the inspector *)

Lemma row_le_total : Total row_le.
Proof. intros r1 r2. unfold row_le. apply String.leb_total. Qed.

Lemma names_summary_row (b : bool) (l : list (string * SegInfo)) :
  names (summary_row b <$> l) = l.*1.
Proof.
  unfold names. rewrite <- list_fmap_compose. apply list_fmap_ext.
  intros i [n x] _. destruct b; reflexivity.
Qed.

(** X8.  In whatever order the entries of the footer are met, the table
    [showBakSummary] builds from them has one row per segment, no name
    twice, in ascending byte-wise order of the names. *)
Theorem summary_rows_sorted (b : bool) (footer : Footer)
    (l : list (string * SegInfo)) :
  l ≡ₚ map_to_list (Infos footer) ->
  let table := sort_rows (summary_row b <$> l) in
  Sorted row_le table
  /\ names table ≡ₚ (map_to_list (Infos footer)).*1
  /\ NoDup (names table)
  /\ length table = size (Infos footer).
Proof.
  intros Hl table.
  assert (Hperm : names table ≡ₚ (map_to_list (Infos footer)).*1).
  { unfold table, sort_rows, names.
    rewrite merge_sort_Permutation. fold (names (summary_row b <$> l)).
    now rewrite names_summary_row, Hl. }
  split; [|split; [exact Hperm|split]].
  - unfold table, sort_rows.
    apply (@Sorted_merge_sort _ row_le _ row_le_total).
  - rewrite Hperm. apply NoDup_fst_map_to_list.
  - unfold table, sort_rows.
    rewrite merge_sort_Permutation, length_fmap, Hl. apply length_map_to_list.
Qed.

Section InspectFrame.
Context `{Ext : Externals}.
Variable R : World -> World -> Prop.
Hypothesis R_refl : forall w, R w w.
Hypothesis R_trans : forall w1 w2 w3, R w1 w2 -> R w2 w3 -> R w1 w3.
Hypothesis R_emit : forall e w, R w (emit e w).2.
Hypothesis R_Seek : forall h off, frame R (Seek h off).

Ltac inspect_tac :=
  unfold try;
  repeat first
    [ apply R_Seek
    | apply frame_emit; assumption
    | apply frame_ret; assumption
    | apply frame_get; assumption
    | apply frame_bind; [assumption | | intros ?]
    | case_match ].

Lemma frame_print_rows (b : bool) (data : list (list string)) :
  frame R (print_rows b data).
Proof.
  induction data as [|v data IH]; cbn [print_rows].
  - apply frame_ret; assumption.
  - apply frame_bind; [assumption | | intros _; exact IH].
    unfold print_row, Print. inspect_tac.
Qed.

Lemma frame_showBakSummary (fp : handle) (b : bool) : frame R (showBakSummary fp b).
Proof.
  unfold showBakSummary, call_ReadFooter, Print.
  unfold try.
  repeat first
    [ apply frame_print_rows
    | apply frame_emit; assumption
    | apply frame_ret; assumption
    | apply frame_get; assumption
    | apply frame_bind; [assumption | | intros ?]
    | case_match ].
Qed.

Lemma frame_showBakDetail (fp : handle) (offset : Z) :
  frame R (showBakDetail fp offset).
Proof. unfold showBakDetail, call_ReadSegment, Print. inspect_tac. Qed.

Lemma frame_inspect (ctx : Context) (fp : handle) :
  frame R (if negb (IsSet_offset ctx) then showBakSummary fp false
           else if (Int64_offset ctx =? -1)%Z then showBakSummary fp true
                else showBakDetail fp (Int64_offset ctx)).
Proof.
  repeat case_match;
    first [apply frame_showBakSummary | apply frame_showBakDetail].
Qed.

End InspectFrame.

Section InspectMore.
Context `{Ext : Externals}.

Lemma keeps_open_refl h w : keeps_open h w w.
Proof. intros s Hs. eauto. Qed.

Lemma keeps_open_trans h w1 w2 w3 :
  keeps_open h w1 w2 -> keeps_open h w2 w3 -> keeps_open h w1 w3.
Proof.
  intros H12 H23 s Hs. destruct (H12 s Hs) as (s2 & Hs2 & Hn2).
  destruct (H23 s2 Hs2) as (s3 & Hs3 & Hn3). exists s3. split; [exact Hs3|congruence].
Qed.

Lemma keeps_open_emit h e w : keeps_open h w (emit e w).2.
Proof. intros s Hs. eauto. Qed.

Lemma keeps_open_Seek h h' off : frame (keeps_open h) (Seek h' off).
Proof.
  intros w s Hs. unfold Seek. mcases; eauto.
  cbn [heap]. rewrite lookup_insert. destruct (decide (h' = h)) as [->|]; [|eauto].
  simplify_eq. eexists. split; reflexivity.
Qed.

Lemma same_fs_Seek h off : frame same_fs (Seek h off).
Proof. intros w. unfold same_fs, Seek. mcases; reflexivity. Qed.

Lemma statBak_opened (ctx : Context) (path : string) (w w1 : World) (fp : handle) :
  os_Open path (logged w [EvLog ("load backup from " +:+ path)]) = (Ok fp, w1) ->
  statBak ctx path w
  = (r <- (if negb (IsSet_offset ctx) then showBakSummary fp false
           else if (Int64_offset ctx =? -1)%Z then showBakSummary fp true
                else showBakDetail fp (Int64_offset ctx)) ;;
     _ <- Close fp ;; ret r) w1.
Proof.
  intros Hopen. unfold statBak, try at 1.
  rewrite bind_run. cbn [Infof emit fst snd].
  erewrite bind_eq; [|exact Hopen]. reflexivity.
Qed.

Lemma os_Open_fresh (name : string) (w w' : World) (fp : handle) :
  os_Open name w = (Ok fp, w') ->
  exists s, heap w' !! fp = Some s /\ s_nclose s = 0.
Proof.
  unfold os_Open. mcases; intros [= <- <-]; cbn [heap];
    rewrite lookup_insert_eq; eauto.
Qed.

(** X9.  [statBak] writes nothing to the file system on any path, and
    whenever it has opened the file it closes it exactly once, as its last
    action, whatever the footer or the segment turn out to be. *)
Theorem statBak_reads_and_closes (ctx : Context) (path : string) (w : World) :
  fs (statBak ctx path w).2 = fs w
  /\ (forall fp w1,
        os_Open path (logged w [EvLog ("load backup from " +:+ path)]) = (Ok fp, w1) ->
        times_closed (statBak ctx path w).2 fp = 1
        /\ exists evs, trace (statBak ctx path w).2
                       = (trace w1 ++ evs ++ [EvClose fp])%list).
Proof.
  split.
  - unfold statBak, try at 1. rewrite bind_run. cbn [Infof emit fst snd].
    set (w0 := mkWorld _ _ _ _ _).
    rewrite bind_run.
    assert (H0 : fs (os_Open path w0).2 = fs w)
      by (now rewrite (frame_os_Open same_fs same_fs_refl same_fs_trans
                         ltac:(reflexivity) ltac:(reflexivity) path w0)).
    destruct (os_Open path w0) as [[fp|e|msg] w1]; cbn [fst snd] in *;
      try exact H0.
    rewrite close_after_run. cbn [snd].
    rewrite Close_fs.
    rewrite (frame_inspect same_fs same_fs_refl same_fs_trans
               ltac:(reflexivity) same_fs_Seek ctx fp w1).
    exact H0.
  - intros fp w1 Hopen. rewrite (statBak_opened ctx path w w1 fp Hopen).
    rewrite close_after_run. cbn [snd].
    set (m := if negb (IsSet_offset ctx) then _ else _).
    destruct (os_Open_fresh _ _ _ _ Hopen) as (s & Hs & Hn).
    destruct (frame_inspect (keeps_open fp) (keeps_open_refl fp)
                (keeps_open_trans fp) (keeps_open_emit fp)
                (keeps_open_Seek fp) ctx fp w1 s Hs) as (s' & Hs' & Hn').
    fold m in Hs'. split.
    + rewrite (Close_run fp s' _ Hs'). unfold times_closed. cbn [snd heap].
      rewrite lookup_insert_eq. cbn [bump_close s_nclose]. congruence.
    + rewrite Close_trace.
      destruct (frame_inspect (fun w w' => exists evs, trace w' = (trace w ++ evs)%list)
                  ltac:(intros w0; exists []; now rewrite app_nil_r)
                  ltac:(intros wa wb wc [e1 H1] [e2 H2]; exists (e1 ++ e2)%list;
                        now rewrite H2, H1, app_assoc)
                  ltac:(intros e w0; now exists [e])
                  ltac:(intros h off w0; unfold Seek; mcases; cbn [trace];
                        eexists; reflexivity)
                  ctx fp w1) as [evs Hevs].
      fold m in Hevs. exists evs. now rewrite Hevs, app_assoc.
Qed.

Lemma showBakDetail_fail (fp : handle) (offset : Z) (w : World) (s : Stream)
    (name e : string) :
  heap w !! fp = Some s ->
  file_name (s_layer s) = Some name ->
  s_nclose s = 0 ->
  (0 <= offset <= seek_max)%Z ->
  bak_ReadSegment (s_data s) offset = Err e ->
  showBakDetail fp offset w
  = (Err ("failed to read segment: " +:+ e),
     mkWorld (fs w) (nocreate w) (environ w) (<[fp := move_to s offset]> (heap w))
       (trace w ++ [EvSeek fp offset; EvReadSegment fp offset])).
Proof.
  intros Hs Hname Hopen Hoff Hseg. unfold showBakDetail.
  erewrite bind_eq; [|apply (Seek_accepted fp offset w s name); assumption].
  unfold call_ReadSegment, try. mred.
  rewrite lookup_insert_eq. mred. cbn [move_to s_data s_pos].
  rewrite Hseg. rewrite <- !app_assoc. reflexivity.
Qed.

(** X10.  The failures of [statBak].  A path that does not exist: the error
    of [os.Open] wrapped in "failed to open file", and nothing is read,
    printed or closed.  A footer that cannot be read, with the offset flag
    unset or [-1]: "failed to read footer" and nothing is printed.  A
    segment that cannot be read at an offset the seek accepts (not
    negative, not beyond the largest offset of the file system): "failed
    to read segment" after one seek and one read, and nothing is printed.
    An offset other than [-1] that the seek refuses: the error of the
    seek, not wrapped, after the one seek and no read.  In the last three
    cases the file is closed before the error is returned. *)
Theorem statBak_failures (ctx : Context) (path : string) (w : World) :
  let opened :=
    (trace w ++ [EvLog ("load backup from " +:+ path); EvOpen path])%list in
  let fp := fresh (dom (heap w)) in
  (fs w !! path = None ->
     statBak ctx path w
     = (Err ("failed to open file " +:+ path +:+ ": open " +:+ path
             +:+ ": no such file or directory"),
        logged w [EvLog ("load backup from " +:+ path); EvOpen path]))
  /\ (forall d wr e,
        fs w !! path = Some (RegFile d true wr) ->
        IsSet_offset ctx = false \/ Int64_offset ctx = (-1)%Z ->
        bak_ReadFooter d = Err e ->
        (statBak ctx path w).1 = Err ("failed to read footer: " +:+ e)
        /\ trace (statBak ctx path w).2
           = (opened ++ [EvReadFooter fp; EvClose fp])%list)
  /\ (forall d wr e,
        fs w !! path = Some (RegFile d true wr) ->
        IsSet_offset ctx = true ->
        (0 <= Int64_offset ctx <= seek_max)%Z ->
        bak_ReadSegment d (Int64_offset ctx) = Err e ->
        (statBak ctx path w).1 = Err ("failed to read segment: " +:+ e)
        /\ trace (statBak ctx path w).2
           = (opened ++ [EvSeek fp (Int64_offset ctx);
                         EvReadSegment fp (Int64_offset ctx); EvClose fp])%list)
  /\ (forall d wr,
        fs w !! path = Some (RegFile d true wr) ->
        IsSet_offset ctx = true ->
        Int64_offset ctx <> (-1)%Z ->
        (Int64_offset ctx < 0 \/ seek_max < Int64_offset ctx)%Z ->
        (statBak ctx path w).1 = Err ("seek " +:+ path +:+ ": invalid argument")
        /\ trace (statBak ctx path w).2
           = (opened ++ [EvSeek fp (Int64_offset ctx); EvClose fp])%list).
Proof.
  intros opened fp. split; [|split; [|split]].
  - intros Hnone. unfold statBak, try, os_Open, Infof, logged. mred.
    rewrite Hnone. rewrite <- app_assoc. reflexivity.
  - intros d wr e Hfile Hmode Hfooter.
    rewrite (statBak_run ctx path d wr w Hfile). cbv zeta. fold fp. fold opened.
    set (w1 := mkWorld _ _ _ _ opened).
    assert (Hsum : forall b, showBakSummary fp b w1
              = (Err ("failed to read footer: " +:+ e), logged w1 [EvReadFooter fp])).
    { intros b. unfold showBakSummary, call_ReadFooter, try. mred.
      unfold w1 at 1. cbn [heap]. rewrite lookup_insert_eq. cbn [s_data].
      rewrite Hfooter. reflexivity. }
    rewrite close_after_run.
    assert (Hm : (if negb (IsSet_offset ctx) then showBakSummary fp false
                  else if (Int64_offset ctx =? -1)%Z then showBakSummary fp true
                       else showBakDetail fp (Int64_offset ctx)) w1
                 = (Err ("failed to read footer: " +:+ e), logged w1 [EvReadFooter fp])).
    { destruct (IsSet_offset ctx); cbn [negb]; [|apply Hsum].
      destruct Hmode as [Hm|Hm]; [discriminate|]. rewrite Hm. apply Hsum. }
    rewrite Hm. cbn [fst snd]. split; [reflexivity|].
    rewrite Close_trace. cbn [logged trace]. unfold w1. cbn [trace].
    rewrite <- app_assoc. reflexivity.
  - intros d wr e Hfile Hset Hpos Hseg.
    rewrite (statBak_run ctx path d wr w Hfile). cbv zeta. fold fp. fold opened.
    set (w1 := mkWorld _ _ _ _ opened).
    rewrite close_after_run. rewrite Hset. cbn [negb].
    assert (Hne : (Int64_offset ctx =? -1)%Z = false) by (apply Z.eqb_neq; lia).
    rewrite Hne.
    assert (Hfp : heap w1 !! fp = Some (mkStream (LFile path) d None None 0 0))
      by apply lookup_insert_eq.
    rewrite (showBakDetail_fail fp _ w1 _ path e Hfp eq_refl eq_refl Hpos Hseg).
    cbn [fst snd].
    split; [reflexivity|].
    rewrite Close_trace. cbn [trace]. unfold w1. cbn [trace].
    rewrite <- !app_assoc. reflexivity.
  - intros d wr Hfile Hset Hne Hbad.
    rewrite (statBak_run ctx path d wr w Hfile). cbv zeta. fold fp. fold opened.
    set (w1 := mkWorld _ _ _ _ opened).
    rewrite close_after_run. rewrite Hset. cbn [negb].
    apply Z.eqb_neq in Hne. rewrite Hne.
    assert (Hfp : heap w1 !! fp = Some (mkStream (LFile path) d None None 0 0))
      by apply lookup_insert_eq.
    rewrite (showBakDetail_refused fp _ w1 _ path Hfp eq_refl eq_refl Hbad).
    cbn [fst snd].
    split; [reflexivity|].
    rewrite Close_trace. cbn [logged trace]. unfold w1. cbn [trace].
    rewrite <- !app_assoc. reflexivity.
Qed.

End InspectMore.

(** ** The layers [open] stacks, and what [convert] does to its target *)

Section LayerFacts.
Context `{Ext : Externals}.

(** [open] is its first half followed by the choice of the decoder. *)
Lemma open_split (src key algo : string) :
  open src key algo
  = try id (open_base src key algo)
      (fun fp =>
         if HasSuffix src ".gz"
         then try id (gzip_NewReader fp) (fun r => ret (Ok (mkReader fp r)))
         else if HasSuffix src ".zstd"
         then r <- zstd_NewReader fp ;; ret (Ok (mkReader fp r))
         else ret (Ok (mkReader fp fp))).
Proof. reflexivity. Qed.

Lemma ensures_open_base (src key algo : string) :
  ensures (open_base src key algo) (fun fp w1 => is_Some (heap w1 !! fp)).
Proof.
  unfold open_base, try, call_loadEncrypt, call_pem_Decode,
    call_ParseRsaPrivateKeyFromPem, call_NewDataEncryptor, call_Abs,
    call_CreateStorage.
  repeat first [ apply ensures_os_Open | apply ensures_blob_Get
               | apply ensures_bind; intros ? | apply ensures_Err
               | apply ensures_Panic | case_match ].
Qed.

Lemma open_base_Err (src key algo e : string) (w w1 : World) :
  open_base src key algo w = (Err e, w1) ->
  open src key algo w = (Err e, w1).
Proof.
  intros Hbase. rewrite open_split. unfold try at 1.
  now rewrite (bind_eq _ _ _ _ _ Hbase).
Qed.

Lemma open_base_Ok (src key algo : string) (w w1 : World) (fp : handle) :
  open_base src key algo w = (Ok fp, w1) ->
  open src key algo w
  = (if HasSuffix src ".gz"
     then try id (gzip_NewReader fp) (fun r => ret (Ok (mkReader fp r)))
     else if HasSuffix src ".zstd"
     then r <- zstd_NewReader fp ;; ret (Ok (mkReader fp r))
     else ret (Ok (mkReader fp fp))) w1.
Proof.
  intros Hbase. rewrite open_split. unfold try at 1.
  now rewrite (bind_eq _ _ _ _ _ Hbase).
Qed.

Lemma gzip_NewReader_run (fp : handle) (s : Stream) (w : World) :
  heap w !! fp = Some s ->
  gzip_NewReader fp w
  = match gzip_header (s_data s) with
    | Some herr => (Err herr, logged w [EvGzipNewReader fp])
    | None =>
        (Ok (base_handle w),
         with_stream w (decoder_over (LGzip fp) (gzip_decode (s_data s)) s)
           (EvGzipNewReader fp))
    end.
Proof.
  intros Hs. unfold gzip_NewReader, read_all. mred. rewrite Hs.
  destruct (gzip_header (s_data s)); [reflexivity|].
  unfold with_stream, decoder_over, base_handle.
  destruct (gzip_decode (s_data s)) as [[plain rerr] cerr]. reflexivity.
Qed.

Lemma zstd_NewReader_run (fp : handle) (s : Stream) (w : World) :
  heap w !! fp = Some s ->
  zstd_NewReader fp w
  = (base_handle w,
     with_stream w (decoder_over (LZstd fp) (zstd_decode (s_data s)) s)
       (EvZstdNewReader fp)).
Proof.
  intros Hs. unfold zstd_NewReader, read_all. mred. rewrite Hs.
  unfold with_stream, decoder_over, base_handle.
  destruct (zstd_decode (s_data s)) as [[plain rerr] cerr]. reflexivity.
Qed.

(** Every stream [open] returns can be read: its compression layer is an
    object on the heap. *)
Lemma open_compress_alive (src key algo : string) (w w' : World) (r : reader) :
  open src key algo w = (Ok r, w') -> is_Some (heap w' !! compressR r).
Proof.
  rewrite open_split. unfold try at 1. intros Hopen.
  destruct (open_base src key algo w) as [[fp|e|msg] w1] eqn:Hbase;
    rewrite (bind_eq _ _ _ _ _ Hbase) in Hopen; [|discriminate..].
  apply ensures_open_base in Hbase as [s Hs].
  destruct (HasSuffix src ".gz").
  - unfold try in Hopen.
    rewrite bind_run, (gzip_NewReader_run fp s w1 Hs) in Hopen.
    destruct (gzip_header (s_data s)); [discriminate|].
    injection Hopen as <- <-. cbn [compressR with_stream heap].
    rewrite lookup_insert_eq. eauto.
  - destruct (HasSuffix src ".zstd").
    + rewrite (bind_eq _ _ _ _ _ (zstd_NewReader_run fp s w1 Hs)) in Hopen.
      injection Hopen as <- <-. cbn [compressR with_stream heap].
      rewrite lookup_insert_eq. eauto.
    + injection Hopen as <- <-. cbn [compressR]. eauto.
Qed.

(** C9.  [open] chooses the compression layer by the suffix of [src]
    alone, for every key and algorithm.
    (1) Every stream it returns has a gzip reader over the base layer for
    [.gz], a zstd reader over the base layer for [.zstd], both objects of
    their own, and the base layer itself in both fields for any other
    path.
    (2) It does return that stream whenever its first half has produced
    the base stream [fp]: for [.gz] a new gzip reader over [fp] that
    delivers the decoded bytes, unless the header is refused, in which
    case the header's error is returned; for [.zstd] a new zstd reader
    over [fp], always; for any other path [fp] itself, with no further
    effect.
    (3) Without a key, the first half produces the base stream for every
    readable file. *)
Theorem open_selects_compression (src key algo : string) (w : World) :
  (forall r w', open src key algo w = (Ok r, w') ->
     (HasSuffix src ".gz" = true ->
        compressR r <> encryptR r
        /\ exists s, heap w' !! compressR r = Some s
                     /\ s_layer s = LGzip (encryptR r))
     /\ (HasSuffix src ".zstd" = true ->
           compressR r <> encryptR r
           /\ exists s, heap w' !! compressR r = Some s
                        /\ s_layer s = LZstd (encryptR r))
     /\ (HasSuffix src ".gz" = false -> HasSuffix src ".zstd" = false ->
           compressR r = encryptR r))
  /\ (forall fp w1, open_base src key algo w = (Ok fp, w1) ->
        exists s, heap w1 !! fp = Some s
          /\ base_handle w1 <> fp
          /\ (HasSuffix src ".gz" = true ->
                open src key algo w
                = match gzip_header (s_data s) with
                  | Some herr => (Err herr, logged w1 [EvGzipNewReader fp])
                  | None =>
                      (Ok (mkReader fp (base_handle w1)),
                       with_stream w1
                         (decoder_over (LGzip fp) (gzip_decode (s_data s)) s)
                         (EvGzipNewReader fp))
                  end)
          /\ (HasSuffix src ".zstd" = true ->
                open src key algo w
                = (Ok (mkReader fp (base_handle w1)),
                   with_stream w1
                     (decoder_over (LZstd fp) (zstd_decode (s_data s)) s)
                     (EvZstdNewReader fp)))
          /\ (HasSuffix src ".gz" = false -> HasSuffix src ".zstd" = false ->
                open src key algo w = (Ok (mkReader fp fp), w1)))
  /\ (forall d wr, key = "" -> fs w !! src = Some (RegFile d true wr) ->
        open_base src key algo w
        = (Ok (base_handle w), with_stream w (base_stream src d) (EvOpen src))).
Proof.
  split; [|split].
  - intros r w'. apply open_Ok_layers.
  - intros fp w1 Hbase.
    destruct (ensures_open_base src key algo w fp w1 Hbase) as [s Hs].
    exists s. split; [exact Hs|]. split.
    { apply fresh_ne. eauto. }
    rewrite (open_base_Ok _ _ _ _ _ _ Hbase).
    split; [|split].
    + intros Hgz. rewrite Hgz. unfold try.
      rewrite bind_run, (gzip_NewReader_run fp s w1 Hs).
      destruct (gzip_header (s_data s)); reflexivity.
    + intros Hzstd.
      destruct (HasSuffix src ".gz") eqn:Hgz.
      { apply suffixes_exclusive in Hgz. congruence. }
      rewrite Hzstd. cbv iota.
      rewrite (bind_eq _ _ _ _ _ (zstd_NewReader_run fp s w1 Hs)). reflexivity.
    + intros Hgz Hzstd. rewrite Hgz, Hzstd. reflexivity.
  - intros d wr -> Hfile. unfold open_base. cbn [String.eqb negb].
    apply (os_Open_file_run src d wr w Hfile).
Qed.

(** [os.Create] on a writable file that is there. *)
Lemma os_Create_existing_run (name old : string) (rd : bool) (w : World) :
  fs w !! name = Some (RegFile old rd true) ->
  os_Create name w
  = (Ok (base_handle w),
     mkWorld (<[name := RegFile "" rd true]> (fs w)) (nocreate w) (environ w)
       (<[base_handle w := mkStream (LWriter name) "" None None 0 0]> (heap w))
       (trace w ++ [EvCreate name])).
Proof. intros Hfile. unfold os_Create. mred. rewrite Hfile. reflexivity. Qed.

(** C2 (amended).  [convert] creates its target with [os.Create], which
    creates or truncates; nothing in it is exclusive.
    (1) Within one call the check comes first and [open] writes nothing:
    when the check finds no file at the target, [convert] goes on to
    materialize it, and the target is still absent when [open] has
    returned and the creation runs.
    (2) When a writable file is nevertheless at the target as the
    materialization runs, the creation does not fail: it empties the
    file, the copy then fills it with the decoded bytes, and the result
    is the one of an undisturbed run, the target path or the wrapped
    error of the copy; what the file held before is gone. *)
Theorem convert_truncates_existing_target (path nPath key algo : string) :
  (forall w,
     needs_decode path key = true ->
     slice path 0 (LastIndex path ".") = Some nPath ->
     fs w !! nPath = None ->
     convert path key algo w
     = convert_miss path nPath key algo (logged w [EvExists nPath])
     /\ fs (open path key algo (logged w [EvExists nPath])).2 !! nPath = None)
  /\ (forall w r w1 old rd,
        open path key algo w = (Ok r, w1) ->
        fs w !! nPath = Some (RegFile old rd true) ->
        exists s,
          heap w1 !! compressR r = Some s
          /\ (os_Create nPath w1).1 = Ok (base_handle w1)
          /\ fs (os_Create nPath w1).2 !! nPath = Some (RegFile "" rd true)
          /\ (convert_miss path nPath key algo w).1
             = match s_rerr s with
               | Some e => Err ("failed to convert " +:+ path +:+ " to "
                                +:+ nPath +:+ ": " +:+ e)
               | None => Ok nPath
               end
          /\ fs (convert_miss path nPath key algo w).2
             = <[nPath := RegFile (s_data s) rd true]> (fs w)).
Proof.
  split.
  - intros w Hneed Hslice Hnone. split.
    + unfold convert. rewrite needs_decode_guard, Hneed. cbn [negb].
      rewrite Hslice, bind_run, utils_Exists_run. cbn [fst snd].
      rewrite bool_decide_eq_false_2; [reflexivity|].
      rewrite Hnone. now intros [? ?].
    + rewrite open_fs. exact Hnone.
  - intros w r w1 old rd Hopen Hfile.
    destruct (open_compress_alive _ _ _ _ _ _ Hopen) as [s Hs].
    assert (Hfs : fs w1 = fs w).
    { pose proof (open_fs path key algo w) as H. now rewrite Hopen in H. }
    assert (Hfile1 : fs w1 !! nPath = Some (RegFile old rd true))
      by now rewrite Hfs.
    pose proof (os_Create_existing_run nPath old rd w1 Hfile1) as Hcreate.
    exists s. split; [exact Hs|]. rewrite Hcreate. cbn [fst snd fs].
    split; [reflexivity|]. split; [apply lookup_insert_eq|].
    destruct (convert_miss path nPath key algo w) as [res w'] eqn:Hrun.
    cbn [fst snd]. unfold convert_miss in Hrun. unfold try at 1 in Hrun.
    rewrite (bind_eq _ _ _ _ _ Hopen), (bind_eq _ _ _ _ _ Hcreate) in Hrun.
    set (wh := base_handle w1) in Hrun.
    set (w2 := mkWorld _ _ _ _ _) in Hrun.
    assert (Hne : wh <> compressR r) by (apply fresh_ne; eauto).
    assert (Hcopy : io_Copy wh r w2
                    = (s_rerr s,
                       mkWorld (<[nPath := RegFile ("" +:+ s_data s) rd true]> (fs w2))
                         (nocreate w2) (environ w2) (heap w2)
                         (trace w2 ++ [EvCopy wh (compressR r)]))).
    { apply (io_Copy_run wh r w2 s (mkStream (LWriter nPath) "" None None 0 0)).
      - unfold w2. cbn [heap]. now rewrite lookup_insert_ne.
      - unfold w2. cbn [heap]. apply lookup_insert_eq.
      - reflexivity.
      - reflexivity.
      - unfold w2. cbn [fs]. apply lookup_insert_eq. }
    rewrite (bind_eq _ _ _ _ _ Hcopy) in Hrun.
    destruct (s_rerr s) as [e|]; rewrite !bind_run in Hrun;
      cbn [ret fst snd] in Hrun; injection Hrun as <- <-;
      (split; [reflexivity|]);
      rewrite reader_Close_fs, Close_fs; cbn [Infof emit fs snd];
      unfold w2; cbn [fs]; rewrite insert_insert_eq, Hfs; reflexivity.
Qed.

End LayerFacts.

(** ** The command [load] *)

Section LoadCommandFacts.
Context `{Ext : Externals} `{MExt : MetaExternals}.

Lemma call_meta_Load_eq (uri : string) (check : bool) (e : Engine)
    (f : result Format) (d : DB) :
  meta_Load uri check (db e) = (f, d) ->
  call_meta_Load uri check e = (f, mkEngine d (calls e ++ [CallLoad check])).
Proof. intros H. unfold call_meta_Load. now rewrite H. Qed.

Lemma call_LoadMeta_eq (uri data : string) (rerr lerr : option string)
    (e : Engine) (d : DB) :
  meta_LoadMeta uri data rerr (db e) = (lerr, d) ->
  call_LoadMeta uri data rerr e
  = (lerr, mkEngine d (calls e ++ [CallLoadMeta data rerr])).
Proof. intros H. unfold call_LoadMeta. now rewrite H. Qed.

Lemma call_LoadMetaV2_eq (uri : string) (threads : Z) (data : string)
    (rerr lerr : option string) (e : Engine) (d : DB) :
  meta_LoadMetaV2 uri threads data rerr (db e) = (lerr, d) ->
  call_LoadMetaV2 uri threads data rerr e
  = (lerr, mkEngine d (calls e ++ [CallLoadMetaV2 threads data rerr])).
Proof. intros H. unfold call_LoadMetaV2. now rewrite H. Qed.

(** X11.  In inspection mode ([--binary --stat]) the file is the first
    argument: it is converted and handed to [statBak], whose result is the
    result of the command.  The metadata engine is not contacted at all,
    and neither a second argument nor standard input is looked at. *)
Theorem load_stat_inspects_first_argument (c : Command) (e : Engine) (w : World) :
  cli_binary c = true ->
  cli_stat c = true ->
  let w0 := (setup0 (cli_Args c) w).2 in
  let cv := convert (Args_Get c 0) (cli_key c) (cli_algo c) w0 in
  (load c e w).1.2 = e
  /\ (forall src, cv.1 = Ok src ->
        load c e w = ((statBak (cli_offset c) src cv.2).1, e,
                      (statBak (cli_offset c) src cv.2).2))
  /\ (forall err, cv.1 = Err err -> load c e w = (Err err, e, cv.2)).
Proof.
  intros Hb Hs w0 cv.
  assert (Hload : load c e w
    = match cv.1 with
      | Ok src => ((statBak (cli_offset c) src cv.2).1, e,
                   (statBak (cli_offset c) src cv.2).2)
      | Err err => (Err err, e, cv.2)
      | Panic msg => (Panic msg, e, cv.2)
      end).
  { unfold load. rewrite bind_run. fold w0. rewrite Hb, Hs.
    rewrite bind_run. fold cv. destruct cv.1; try reflexivity.
    rewrite bind_run. reflexivity. }
  split; [|split].
  - rewrite Hload. destruct cv.1; reflexivity.
  - intros src Hsrc. now rewrite Hload, Hsrc.
  - intros err Herr. now rewrite Hload, Herr.
Qed.

(** X12.  In binary mode with a key, a source name without ['.'] makes the
    command panic in [convert] before anything is opened or loaded.  The
    name is the empty string when the dump is to come from standard input
    (one argument), so [--binary] with a key and standard input always
    ends this way. *)
Theorem load_binary_key_panics (c : Command) (e : Engine) (w : World) :
  cli_binary c = true ->
  cli_key c <> "" ->
  Contains (Args_Get c (if cli_stat c then 0 else 1)) "." = false ->
  load c e w
  = (Panic "slice bounds out of range [:-1]", e, (setup0 (cli_Args c) w).2).
Proof.
  intros Hb Hkey Hdot. unfold load. rewrite bind_run, Hb.
  assert (Hcv : forall w0,
    convert (if cli_stat c then Args_Get c 0 else Args_Get c 1)
      (cli_key c) (cli_algo c) w0
    = (Panic "slice bounds out of range [:-1]", w0)).
  { intros w0. unfold convert. rewrite needs_decode_guard.
    unfold needs_decode. apply String.eqb_neq in Hkey. rewrite Hkey. cbn [negb orb].
    replace (if cli_stat c then Args_Get c 0 else Args_Get c 1)
      with (Args_Get c (if cli_stat c then 0 else 1)) by (now destruct (cli_stat c)).
    rewrite (LastIndex_no_dot _ Hdot). reflexivity. }
  erewrite bind_eq; [|apply Hcv]. reflexivity.
Qed.

Lemma load_into_used (c : Command) (uri src : string) (i : Input) (e : Engine)
    (w : World) (format : Format) (d : DB) :
  meta_Load uri false (db e) = (Ok format, d) ->
  load_into c uri src i e w
  = (Err ("database " +:+ utils_RemovePassword uri +:+ " is used by volume "
          +:+ fmt_Name format),
     mkEngine d (calls e ++ [CallLoad false]), w).
Proof.
  intros H. unfold load_into. rewrite (call_meta_Load_eq _ _ _ _ _ H). reflexivity.
Qed.

(** X13.  When the database named by the first argument already holds a
    volume, no dump is loaded into it: the only call [load] can make on the
    client is the first [Load(false)], after which it returns
    "database ... is used by volume ...".  The command can then succeed
    only as an inspection. *)
Theorem load_refuses_used_database (c : Command) (e : Engine) (w : World)
    (format : Format) (d : DB) :
  meta_Load (Args_Get c 0) false (db e) = (Ok format, d) ->
  let out := load c e w in
  (out.1.2 = e
   \/ out.1 = (Err ("database " +:+ utils_RemovePassword (Args_Get c 0)
                    +:+ " is used by volume " +:+ fmt_Name format),
               mkEngine d (calls e ++ [CallLoad false])))
  /\ (out.1.1 = Ok tt -> cli_binary c = true /\ cli_stat c = true).
Proof.
  intros Hused out.
  assert (Hsrc : forall src w1,
    let o := load_source c src e w1 in
    (o.1.2 = e
     \/ o.1 = (Err ("database " +:+ utils_RemovePassword (Args_Get c 0)
                    +:+ " is used by volume " +:+ fmt_Name format),
               mkEngine d (calls e ++ [CallLoad false])))
    /\ o.1.1 <> Ok tt).
  { intros src w1 o. subst o. unfold load_source. rewrite bind_run.
    destruct (length (cli_Args c) =? 1)%nat.
    - rewrite (load_into_used _ _ _ _ _ _ _ _ Hused). cbn [fst snd].
      split; [right; reflexivity | discriminate].
    - rewrite bind_run.
      destruct (open src (cli_key c) (cli_algo c) _).1 as [r|err|msg];
        cbn [ret fst snd]; try (split; [left; reflexivity | discriminate]).
      rewrite bind_run, (load_into_used _ _ _ _ _ _ _ _ Hused).
      rewrite bind_run. cbn [ret fst snd].
      split; [right; reflexivity | discriminate]. }
  subst out. unfold load. rewrite bind_run.
  destruct (cli_binary c) eqn:Hb; [|now destruct (Hsrc (Args_Get c 1) (setup0 (cli_Args c) w).2)].
  rewrite bind_run.
  destruct (convert _ (cli_key c) (cli_algo c) _).1 as [src|err|msg];
    cbn [ret fst snd]; try (split; [left; reflexivity | discriminate]).
  destruct (cli_stat c) eqn:Hs.
  - rewrite bind_run. cbn [ret fst snd]. split; [left; reflexivity | auto].
  - match goal with |- context [load_source c src e ?w1] =>
      now destruct (Hsrc src w1) end.
Qed.

(** The loader of the mode of the command, on the database. *)
Lemma load_into_run (c : Command) (uri src : string) (i : Input) (e : Engine)
    (w : World) (data x : string) (rerr lerr : option string) (d1 d2 : DB) :
  meta_Load uri false (db e) = (Err x, d1) ->
  input_Read c i w = (data, rerr, w) ->
  (if cli_binary c then meta_LoadMetaV2 uri (cli_threads c) data rerr d1
   else meta_LoadMeta uri data rerr d1) = (lerr, d2) ->
  match lerr with
  | Some err =>
      load_into c uri src i e w
      = (Err err,
         mkEngine d2 (calls e ++ [CallLoad false; loader_call c data rerr]), w)
  | None =>
      forall format d3,
        meta_Load uri true d2 = (Ok format, d3) ->
        load_into c uri src i e w
        = (Ok tt,
           mkEngine d3 (calls e ++ [CallLoad false; loader_call c data rerr;
                                    CallLoad true]),
           logged w (load_done src format))
  end.
Proof.
  intros Hfree Hread Hload.
  assert (Hcall :
    (if cli_binary c
     then call_LoadMetaV2 uri (cli_threads c) data rerr
            (mkEngine d1 (calls e ++ [CallLoad false]))
     else call_LoadMeta uri data rerr (mkEngine d1 (calls e ++ [CallLoad false])))
    = (lerr, mkEngine d2 (calls e ++ [CallLoad false; loader_call c data rerr]))).
  { unfold loader_call. destruct (cli_binary c).
    - erewrite call_LoadMetaV2_eq by exact Hload. cbn [calls].
      now rewrite <- app_assoc.
    - erewrite call_LoadMeta_eq by exact Hload. cbn [calls].
      now rewrite <- app_assoc. }
  unfold load_into. rewrite (call_meta_Load_eq _ _ _ _ _ Hfree).
  erewrite bind_eq; [|exact Hread]. cbn beta iota. rewrite Hcall.
  destruct lerr as [err|]; [reflexivity|].
  intros format d3 Hback.
  erewrite call_meta_Load_eq by exact Hback. cbn [calls].
  rewrite <- app_assoc. cbn [app].
  unfold load_done, Warnf, Infof, logged.
  destruct (fmt_SecretKey format =? "removed"); mred;
    rewrite <- ?app_assoc; reflexivity.
Qed.

Lemma input_Read_world (c : Command) (i : Input) (w : World) :
  (input_Read c i w).2 = w.
Proof. destruct i; reflexivity. Qed.

(** The part of [load] that talks to the client writes no file. *)
Lemma load_into_fs (c : Command) (uri src : string) (i : Input) (e : Engine)
    (w : World) :
  fs (load_into c uri src i e w).2 = fs w.
Proof.
  unfold load_into.
  destruct (call_meta_Load uri false e) as [[format|err|msg] e1]; try reflexivity.
  rewrite bind_run, input_Read_world.
  destruct (input_Read c i w).1 as [data rerr].
  destruct (if cli_binary c then _ else _) as [[lerr|] e2]; [reflexivity|].
  destruct (call_meta_Load uri true e2) as [[format|err2|msg] e3]; try reflexivity.
  destruct (fmt_SecretKey format =? "removed"); reflexivity.
Qed.

(** X14.  Without [--binary], a [.gz] dump is decoded on the fly: the
    loader receives the gzip-decoded bytes, the stream is closed when the
    command returns, and no plain file is written; the file system after
    the command is the file system before it. *)
Theorem load_json_streams (c : Command) (e : Engine) (w : World)
    (uri src d plain x : string) (wr : bool) (rerr cerr lerr : option string)
    (d1 d2 : DB) :
  cli_binary c = false ->
  cli_Args c = [uri; src] ->
  cli_key c = "" ->
  let w1 := (removePassword uri (setup0 (cli_Args c) w).2).2 in
  fs w1 !! src = Some (RegFile d true wr) ->
  HasSuffix src ".gz" = true ->
  gzip_header d = None ->
  gzip_decode d = (plain, rerr, cerr) ->
  meta_Load uri false (db e) = (Err x, d1) ->
  meta_LoadMeta uri plain rerr d1 = (lerr, d2) ->
  let out := load c e w in
  fs out.2 = fs w1
  /\ match lerr with
     | Some err =>
         out.1 = (Err err,
                  mkEngine d2 (calls e ++ [CallLoad false; CallLoadMeta plain rerr]))
     | None =>
         forall format d3,
           meta_Load uri true d2 = (Ok format, d3) ->
           out.1 = (Ok tt,
                    mkEngine d3 (calls e ++ [CallLoad false; CallLoadMeta plain rerr;
                                             CallLoad true]))
     end.
Proof.
  intros Hb Hargs Hkey w1 Hfile Hgz Hhdr Hdec Hfree Hload out.
  set (r := mkReader (base_handle w1) (over_handle w1 src d)).
  set (w2 := (open src "" (cli_algo c) w1).2).
  assert (Hopen : open src "" (cli_algo c) w1 = (Ok r, w2))
    by (unfold w2; now rewrite (open_gz_run src _ d plain wr w1 rerr cerr
                                  Hfile Hgz Hhdr Hdec)).
  assert (Hout : out = ((load_into c uri src (FromReader r) e w2).1,
                        (reader_Close r (load_into c uri src (FromReader r) e w2).2).2)).
  { assert (H0 : Args_Get c 0 = uri) by (unfold Args_Get; now rewrite Hargs).
    assert (H1 : Args_Get c 1 = src) by (unfold Args_Get; now rewrite Hargs).
    assert (Hlen : (length (cli_Args c) =? 1)%nat = false) by now rewrite Hargs.
    subst out. unfold load.
    rewrite bind_run, Hb. unfold load_source. rewrite H0, H1, Hlen.
    rewrite bind_run. fold w1. rewrite Hkey.
    erewrite bind_eq; [|exact Hopen]. cbn beta iota.
    rewrite !bind_run. reflexivity. }
  assert (Hread : input_Read c (FromReader r) w2 = (plain, rerr, w2)).
  { unfold w2. rewrite (open_gz_run src _ d plain wr w1 rerr cerr Hfile Hgz Hhdr Hdec).
    unfold input_Read, reader_Read, read_all. mred. cbn [compressR r].
    rewrite lookup_insert_eq. reflexivity. }
  split.
  - rewrite Hout. cbn [snd]. rewrite reader_Close_fs, load_into_fs.
    unfold w2. apply open_fs.
  - pose proof (load_into_run c uri src _ e _ plain x rerr lerr d1 d2 Hfree Hread)
      as Hinto.
    rewrite Hb in Hinto. specialize (Hinto Hload).
    unfold loader_call in Hinto. rewrite Hb in Hinto.
    destruct lerr as [err|].
    + rewrite Hout, Hinto. reflexivity.
    + intros format d3 Hback. rewrite Hout, (Hinto format d3 Hback). reflexivity.
Qed.

(** X15.  With [--binary], an unencrypted [.gz] dump is first written out
    as a plain file beside it and then loaded from that file: the loader
    receives the decoded bytes, and after a successful load the plain file
    is still on disk. *)
Theorem load_binary_materializes (c : Command) (e : Engine) (w : World)
    (uri nPath d plain x : string) (wr : bool) (cerr : option string)
    (d1 d2 d3 : DB) (format : Format) :
  cli_binary c = true ->
  cli_stat c = false ->
  cli_Args c = [uri; nPath +:+ ".gz"] ->
  cli_key c = "" ->
  (forall u w', fs (removePassword u w').2 = fs w') ->
  let w0 := (setup0 (cli_Args c) w).2 in
  fs w0 !! (nPath +:+ ".gz") = Some (RegFile d true wr) ->
  fs w0 !! nPath = None ->
  nPath ∉ nocreate w0 ->
  HasSuffix nPath ".gz" = false ->
  HasSuffix nPath ".zstd" = false ->
  gzip_header d = None ->
  gzip_decode d = (plain, None, cerr) ->
  meta_Load uri false (db e) = (Err x, d1) ->
  meta_LoadMetaV2 uri (cli_threads c) plain None d1 = (None, d2) ->
  meta_Load uri true d2 = (Ok format, d3) ->
  let out := load c e w in
  out.1 = (Ok tt,
           mkEngine d3 (calls e ++ [CallLoad false;
                                    CallLoadMetaV2 (cli_threads c) plain None;
                                    CallLoad true]))
  /\ fs out.2 = <[nPath := RegFile plain true true]> (fs w0).
Proof.
  intros Hb Hs Hargs Hkey Hrm w0 Hfile Hnone Hnc Hgz Hzstd Hhdr Hdec
    Hfree Hload Hback out.
  destruct (convert_gz_full_run nPath (cli_algo c) d plain wr w0 None cerr
              Hfile Hnone Hnc Hhdr Hdec)
    as (fp & gz & wh & w1 & Hconv & _ & _ & _ & _ & _ & _ & Hfs1 & _).
  set (w2 := (removePassword uri w1).2).
  assert (Hfs2 : fs w2 = <[nPath := RegFile plain true true]> (fs w0))
    by (unfold w2; now rewrite Hrm).
  assert (Hplain : fs w2 !! nPath = Some (RegFile plain true true))
    by (rewrite Hfs2; apply lookup_insert_eq).
  pose proof (open_plain_run nPath (cli_algo c) plain true w2 Hplain Hgz Hzstd)
    as Hopen.
  set (r := mkReader (base_handle w2) (base_handle w2)) in Hopen.
  set (w3 := mkWorld _ _ _ _ _) in Hopen.
  assert (Hread : input_Read c (FromReader r) w3 = (plain, None, w3)).
  { unfold input_Read, reader_Read, read_all. mred. cbn [compressR r].
    unfold w3. cbn [heap]. rewrite lookup_insert_eq. reflexivity. }
  pose proof (load_into_run c uri nPath _ e _ plain x None None d1 d2
                Hfree Hread) as Hinto.
  rewrite Hb in Hinto. specialize (Hinto Hload format d3 Hback).
  unfold loader_call in Hinto. rewrite Hb in Hinto.
  assert (Hout : out = ((load_into c uri nPath (FromReader r) e w3).1,
                        (reader_Close r (load_into c uri nPath (FromReader r) e w3).2).2)).
  { assert (H0 : Args_Get c 0 = uri) by (unfold Args_Get; now rewrite Hargs).
    assert (H1 : Args_Get c 1 = nPath +:+ ".gz")
      by (unfold Args_Get; now rewrite Hargs).
    assert (Hlen : (length (cli_Args c) =? 1)%nat = false) by now rewrite Hargs.
    subst out. unfold load. rewrite bind_run, Hb, Hs, H1. fold w0. rewrite Hkey.
    erewrite bind_eq; [|exact Hconv]. cbn beta iota.
    unfold load_source. rewrite H0, Hlen, Hkey.
    rewrite bind_run. fold w2.
    erewrite bind_eq; [|exact Hopen]. cbn beta iota.
    rewrite !bind_run. reflexivity. }
  split.
  - rewrite Hout, Hinto. reflexivity.
  - rewrite Hout. cbn [snd]. rewrite reader_Close_fs, load_into_fs.
    unfold w3. cbn [fs]. exact Hfs2.
Qed.

(** X16.  With one argument and without [--binary] the dump is read from
    standard input: the key and algorithm flags are not used, nothing is
    opened or closed, the loader receives what standard input delivers, and
    the success line names [STDIN]. *)
Theorem load_reads_stdin (c : Command) (e : Engine) (w : World)
    (uri x : string) (s : Stream) (d1 d2 d3 : DB) (format : Format) :
  cli_binary c = false ->
  cli_Args c = [uri] ->
  let w1 := (removePassword uri (setup0 (cli_Args c) w).2).2 in
  heap w1 !! cli_stdin c = Some s ->
  meta_Load uri false (db e) = (Err x, d1) ->
  meta_LoadMeta uri (s_data s) (s_rerr s) d1 = (None, d2) ->
  meta_Load uri true d2 = (Ok format, d3) ->
  load c e w
  = (Ok tt,
     mkEngine d3 (calls e ++ [CallLoad false; CallLoadMeta (s_data s) (s_rerr s);
                              CallLoad true]),
     logged w1 (load_done "STDIN" format)).
Proof.
  intros Hb Hargs w1 Hs Hfree Hload Hback.
  assert (H0 : Args_Get c 0 = uri) by (unfold Args_Get; now rewrite Hargs).
  assert (Hlen : (length (cli_Args c) =? 1)%nat = true) by now rewrite Hargs.
  assert (Hread : input_Read c FromStdin w1 = (s_data s, s_rerr s, w1)).
  { unfold input_Read, read_all. mred. rewrite Hs. reflexivity. }
  pose proof (load_into_run c uri "STDIN" _ e _ _ x _ None d1 d2 Hfree Hread)
    as Hinto.
  rewrite Hb in Hinto. specialize (Hinto Hload format d3 Hback).
  unfold loader_call in Hinto. rewrite Hb in Hinto.
  unfold load. rewrite bind_run, Hb. unfold load_source. rewrite H0, Hlen.
  rewrite bind_run. fold w1. exact Hinto.
Qed.

End LoadCommandFacts.

(** * The further properties at work *)

Section MoreRuns.
Import Sample.

(** C9 at a gzip dump, at an encrypted zstd dump opened with a key, and
    at a container without a compression suffix. *)
Lemma open_selects_compression_witness :
  let gz := @open_base ext "dump.json.gz" "" "" w_gz in
  let zs := @open_base ext "meta.bin.zstd" "PEM:k" "aes256gcm-rsa"
              w_encrypted_zstd in
  let pl := @open_base ext "meta.bin" "" "" w_bak in
  (gz.1 = Ok 0
   /\ @open ext "dump.json.gz" "" "" w_gz
      = (Ok (mkReader 0 1),
         with_stream gz.2 (mkStream (LGzip 0) "{}" None None 0 0)
           (EvGzipNewReader 0)))
  /\ (zs.1 = Ok 0
      /\ @open ext "meta.bin.zstd" "PEM:k" "aes256gcm-rsa" w_encrypted_zstd
         = (Ok (mkReader 0 1),
            with_stream zs.2 (mkStream (LZstd 0) "cipher" None None 0 0)
              (EvZstdNewReader 0)))
  /\ (pl.1 = Ok 0
      /\ @open ext "meta.bin" "" "" w_bak = (Ok (mkReader 0 0), pl.2)).
Proof.
  cbv zeta. split; [|split].
  - assert (H : @open_base ext "dump.json.gz" "" "" w_gz
                = (Ok 0, (@open_base ext "dump.json.gz" "" "" w_gz).2))
      by (vm_compute; reflexivity).
    split; [vm_compute; reflexivity|].
    destruct (proj1 (proj2 (@open_selects_compression ext "dump.json.gz" "" ""
                              w_gz)) 0 _ H)
      as (s & Hs & _ & Hgz & _).
    vm_compute in Hs. injection Hs as <-.
    exact (Hgz eq_refl).
  - assert (H : @open_base ext "meta.bin.zstd" "PEM:k" "aes256gcm-rsa"
                  w_encrypted_zstd
                = (Ok 0, (@open_base ext "meta.bin.zstd" "PEM:k" "aes256gcm-rsa"
                            w_encrypted_zstd).2))
      by (vm_compute; reflexivity).
    split; [vm_compute; reflexivity|].
    destruct (proj1 (proj2 (@open_selects_compression ext "meta.bin.zstd" "PEM:k"
                              "aes256gcm-rsa" w_encrypted_zstd)) 0 _ H)
      as (s & Hs & _ & _ & Hzstd & _).
    vm_compute in Hs. injection Hs as <-.
    exact (Hzstd eq_refl).
  - assert (H : @open_base ext "meta.bin" "" "" w_bak
                = (Ok 0, (@open_base ext "meta.bin" "" "" w_bak).2))
      by (vm_compute; reflexivity).
    split; [vm_compute; reflexivity|].
    destruct (proj1 (proj2 (@open_selects_compression ext "meta.bin" "" ""
                              w_bak)) 0 _ H)
      as (s & _ & _ & _ & _ & Hplain).
    exact (Hplain eq_refl eq_refl).
Defined.

(** C2 (amended) at a gzip dump: the target is absent at the check of an
    undisturbed call, and a target that is there when the materialization
    runs is replaced by the decoded bytes. *)
Lemma convert_truncates_existing_target_witness :
  (fs w_gz !! "dump.json" = None
   /\ @convert ext "dump.json.gz" "" "" w_gz
      = @convert_miss ext "dump.json.gz" "dump.json" "" ""
          (logged w_gz [EvExists "dump.json"]))
  /\ (fs w_race !! "dump.json"
      = Some (RegFile "written by someone else" true true)
      /\ (@open ext "dump.json.gz" "" "" w_race).1 = Ok (mkReader 0 1)
      /\ (@convert_miss ext "dump.json.gz" "dump.json" "" "" w_race).1
         = Ok "dump.json"
      /\ fs (@convert_miss ext "dump.json.gz" "dump.json" "" "" w_race).2
         = <["dump.json" := RegFile "{}" true true]> (fs w_race)).
Proof.
  split.
  - assert (Hnone : fs w_gz !! "dump.json" = None) by (vm_compute; reflexivity).
    split; [exact Hnone|].
    exact (proj1 (proj1 (@convert_truncates_existing_target ext "dump.json.gz"
                           "dump.json" "" "") w_gz eq_refl eq_refl Hnone)).
  - assert (Hfile : fs w_race !! "dump.json"
                    = Some (RegFile "written by someone else" true true))
      by (vm_compute; reflexivity).
    assert (Hopen : @open ext "dump.json.gz" "" "" w_race
                    = (Ok (mkReader 0 1), (@open ext "dump.json.gz" "" "" w_race).2))
      by (vm_compute; reflexivity).
    split; [exact Hfile|]. split; [vm_compute; reflexivity|].
    destruct (proj2 (@convert_truncates_existing_target ext "dump.json.gz"
                       "dump.json" "" "") w_race _ _ _ _ Hopen Hfile)
      as (s & Hs & _ & _ & Hres & Hfs).
    vm_compute in Hs. injection Hs as <-.
    split; [exact Hres | exact Hfs].
Defined.

Lemma convert_gz_writes_decoded_witness :
  fs w_gz !! ("dump.json" +:+ ".gz") = Some (RegFile "G{}" true true)
  /\ fs w_gz !! "dump.json" = None
  /\ exists w', @convert ext "dump.json.gz" "" "" w_gz = (Ok "dump.json", w')
                /\ fs w' = <["dump.json" := RegFile "{}" true true]> (fs w_gz).
Proof.
  assert (Hfile : fs w_gz !! ("dump.json" +:+ ".gz") = Some (RegFile "G{}" true true))
    by (vm_compute; reflexivity).
  assert (Hnone : fs w_gz !! "dump.json" = None) by (vm_compute; reflexivity).
  split; [exact Hfile|]. split; [exact Hnone|].
  destruct (@convert_gz_writes_decoded ext "dump.json" "" "G{}" "{}" true w_gz None
              Hfile Hnone ltac:(apply not_elem_of_empty) eq_refl eq_refl)
    as (fp & gz & wh & w' & Hrun & Hfs & _).
  exists w'. split; [exact Hrun | exact Hfs].
Defined.

Lemma convert_failed_copy_is_cached_witness :
  fs w_gz_corrupt !! ("dump.json" +:+ ".gz") = Some (RegFile "G{!" true true)
  /\ exists w',
       @convert ext "dump.json.gz" "" "" w_gz_corrupt
       = (Err "failed to convert dump.json.gz to dump.json: corrupt input", w')
       /\ fs w' !! "dump.json" = Some (RegFile "{" true true)
       /\ @convert ext "dump.json.gz" "" "" w'
          = (Ok "dump.json",
             logged w' [EvExists "dump.json"; EvLog (skip_message "dump.json")]).
Proof.
  assert (Hfile : fs w_gz_corrupt !! ("dump.json" +:+ ".gz")
                  = Some (RegFile "G{!" true true)) by (vm_compute; reflexivity).
  split; [exact Hfile|].
  exact (@convert_failed_copy_is_cached ext "dump.json" "" "G{!" "{" "corrupt input"
           true w_gz_corrupt (Some "corrupt input")
           Hfile ltac:(vm_compute; reflexivity) ltac:(apply not_elem_of_empty)
           eq_refl eq_refl).
Defined.

Lemma convert_footprint_witness :
  fs (@convert ext "dump.json.gz" "" "" w_gz).2 !! "dump.json.gz"
  = fs w_gz !! "dump.json.gz".
Proof. exact (proj1 (proj2 (@convert_footprint ext "dump.json.gz" "" "" w_gz))). Defined.

Lemma open_reads_decoded_witness :
  fs w_gz !! "dump.json.gz" = Some (RegFile "G{}" true true)
  /\ exists r, (@open ext "dump.json.gz" "" "" w_gz).1 = Ok r
               /\ @reader_Read r (@open ext "dump.json.gz" "" "" w_gz).2
                  = ("{}", None, (@open ext "dump.json.gz" "" "" w_gz).2).
Proof.
  assert (Hfile : fs w_gz !! "dump.json.gz" = Some (RegFile "G{}" true true))
    by (vm_compute; reflexivity).
  split; [exact Hfile|].
  exact (proj1 (@open_reads_decoded ext "dump.json.gz" "" "G{}" true w_gz Hfile)
           eq_refl eq_refl).
Defined.

Lemma open_missing_source_witness :
  fs empty_world !! "nope.json" = None
  /\ @open ext "nope.json" "" "" empty_world
     = (Err "open nope.json: no such file or directory",
        logged empty_world [EvOpen "nope.json"]).
Proof.
  assert (H : fs empty_world !! "nope.json" = None) by (vm_compute; reflexivity).
  split; [exact H|].
  exact (proj1 (@open_missing_source ext "nope.json" "" empty_world) H).
Defined.

Lemma open_key_errors_witness :
  "junk" <> ""
  /\ @open ext "meta.bak" "junk" "aes256gcm-rsa" empty_world
     = (Err "parse rsa: invalid key", logged empty_world (key_checked "junk" "")).
Proof.
  split; [discriminate|].
  refine (proj1 (@open_key_errors ext "meta.bak" "junk" "aes256gcm-rsa" empty_world
                   ltac:(discriminate) _) "invalid key" eq_refl).
  intros _ b Hb. discriminate Hb.
Defined.

Lemma convert_open_failure_witness :
  needs_decode "nope.json.gz" "" = true
  /\ fs empty_world !! "nope.json" = None
  /\ @convert ext "nope.json.gz" "" "" empty_world
     = (Err "open nope.json.gz: no such file or directory",
        logged empty_world [EvExists "nope.json"; EvOpen "nope.json.gz"]).
Proof.
  assert (H : fs empty_world !! "nope.json" = None) by (vm_compute; reflexivity).
  split; [reflexivity|]. split; [exact H|].
  refine (proj1 (@convert_open_failure ext "nope.json.gz" "" "" "nope.json" _
                   empty_world _ eq_refl eq_refl H _)).
  vm_compute. reflexivity.
Defined.


Lemma summary_rows_sorted_witness :
  [("inode", mkSegInfo 100 0); ("edge", mkSegInfo 250 4096)]
    ≡ₚ map_to_list (<["inode" := mkSegInfo 100 0]>
                      (<["edge" := mkSegInfo 250 4096]> (∅ : gmap string SegInfo)))
  /\ Sorted row_le
       (sort_rows (summary_row true
                     <$> [("inode", mkSegInfo 100 0); ("edge", mkSegInfo 250 4096)])).
Proof.
  assert (H : [("inode", mkSegInfo 100 0); ("edge", mkSegInfo 250 4096)]
              ≡ₚ map_to_list (<["inode" := mkSegInfo 100 0]>
                                (<["edge" := mkSegInfo 250 4096]>
                                   (∅ : gmap string SegInfo)))).
  { rewrite map_to_list_insert, map_to_list_insert, map_to_list_empty;
      [reflexivity | reflexivity | vm_compute; reflexivity]. }
  split; [exact H|].
  exact (proj1 (summary_rows_sorted true
                  (mkFooter 1 (<["inode" := mkSegInfo 100 0]>
                                (<["edge" := mkSegInfo 250 4096]> ∅))) _ H)).
Defined.

Lemma statBak_reads_and_closes_witness :
  os_Open "meta.bin" (logged w_bak [EvLog ("load backup from " +:+ "meta.bin")])
  = (Ok 0, (os_Open "meta.bin"
              (logged w_bak [EvLog ("load backup from " +:+ "meta.bin")])).2)
  /\ times_closed (@statBak ext (mkContext false 0) "meta.bin" w_bak).2 0 = 1.
Proof.
  assert (H : os_Open "meta.bin" (logged w_bak [EvLog ("load backup from " +:+ "meta.bin")])
              = (Ok 0, (os_Open "meta.bin"
                          (logged w_bak [EvLog ("load backup from " +:+ "meta.bin")])).2))
    by (vm_compute; reflexivity).
  split; [exact H|].
  exact (proj1 (proj2 (@statBak_reads_and_closes ext (mkContext false 0) "meta.bin" w_bak)
                  0 _ H)).
Defined.

Lemma statBak_failures_witness :
  (fs empty_world !! "nope.bin" = None
   /\ @statBak ext (mkContext false 0) "nope.bin" empty_world
      = (Err "failed to open file nope.bin: open nope.bin: no such file or directory",
         logged empty_world [EvLog "load backup from nope.bin"; EvOpen "nope.bin"]))
  /\ (fs w_not_bak !! "notes.txt" = Some (RegFile "hello" true true)
      /\ (@statBak ext (mkContext true (-1)) "notes.txt" w_not_bak).1
         = Err "failed to read footer: bad magic"
      /\ trace (@statBak ext (mkContext true (-1)) "notes.txt" w_not_bak).2
         = [EvLog "load backup from notes.txt"; EvOpen "notes.txt";
            EvReadFooter 0; EvClose 0])
  /\ (fs w_bak !! "meta.bin" = Some (RegFile "seg0seg1JFS" true true)
      /\ (@statBak ext (mkContext true 100) "meta.bin" w_bak).1
         = Err "failed to read segment: unexpected EOF"
      /\ trace (@statBak ext (mkContext true 100) "meta.bin" w_bak).2
         = [EvLog "load backup from meta.bin"; EvOpen "meta.bin"; EvSeek 0 100;
            EvReadSegment 0 100; EvClose 0])
  /\ ((@statBak ext (mkContext true 9223372036854775807) "meta.bin" w_bak).1
      = Err "seek meta.bin: invalid argument"
      /\ trace (@statBak ext (mkContext true 9223372036854775807) "meta.bin"
                  w_bak).2
         = [EvLog "load backup from meta.bin"; EvOpen "meta.bin";
            EvSeek 0 9223372036854775807; EvClose 0]).
Proof.
  assert (H : fs empty_world !! "nope.bin" = None) by (vm_compute; reflexivity).
  assert (Hnotes : fs w_not_bak !! "notes.txt" = Some (RegFile "hello" true true))
    by (vm_compute; reflexivity).
  assert (Hbak : fs w_bak !! "meta.bin" = Some (RegFile "seg0seg1JFS" true true))
    by (vm_compute; reflexivity).
  split; [|split; [|split]].
  - split; [exact H|].
    exact (proj1 (@statBak_failures ext (mkContext false 0) "nope.bin" empty_world) H).
  - split; [exact Hnotes|].
    exact (proj1 (proj2 (@statBak_failures ext (mkContext true (-1)) "notes.txt"
                           w_not_bak))
             "hello" true "bad magic" Hnotes (or_intror eq_refl) eq_refl).
  - split; [exact Hbak|].
    exact (proj1 (proj2 (proj2 (@statBak_failures ext (mkContext true 100)
                                  "meta.bin" w_bak)))
             "seg0seg1JFS" true "unexpected EOF" Hbak eq_refl
             ltac:(vm_compute; split; discriminate) eq_refl).
  - exact (proj2 (proj2 (proj2 (@statBak_failures ext
                                  (mkContext true 9223372036854775807)
                                  "meta.bin" w_bak)))
             "seg0seg1JFS" true Hbak eq_refl ltac:(discriminate)
             ltac:(right; vm_compute; reflexivity)).
Defined.

Lemma load_stat_inspects_first_argument_witness :
  cli_binary cmd_stat = true /\ cli_stat cmd_stat = true
  /\ (@load ext mext cmd_stat empty_engine w_bak).1.2 = empty_engine.
Proof.
  split; [reflexivity|]. split; [reflexivity|].
  exact (proj1 (@load_stat_inspects_first_argument ext mext cmd_stat empty_engine
                  w_bak eq_refl eq_refl)).
Defined.

Lemma load_binary_key_panics_witness :
  cli_key cmd_binary_key_stdin <> ""
  /\ @load ext mext cmd_binary_key_stdin empty_engine w_stdin
     = (Panic "slice bounds out of range [:-1]", empty_engine, w_stdin).
Proof.
  split; [discriminate|].
  exact (@load_binary_key_panics ext mext cmd_binary_key_stdin empty_engine w_stdin
           eq_refl ltac:(discriminate) eq_refl).
Defined.

Lemma load_refuses_used_database_witness :
  meta_Load "redis://h/1" false (db used_engine)
  = (Ok (mkFormat "vol1" ""), Some "vol1")
  /\ ((@load ext mext cmd_json used_engine w_gz).1.1 = Ok tt ->
      cli_binary cmd_json = true /\ cli_stat cmd_json = true).
Proof.
  split; [reflexivity|].
  exact (proj2 (@load_refuses_used_database ext mext cmd_json used_engine w_gz
                  (mkFormat "vol1" "") (Some "vol1") eq_refl)).
Defined.

Lemma load_json_streams_witness :
  cli_Args cmd_json = ["redis://h/1"; "dump.json.gz"]
  /\ fs (@load ext mext cmd_json empty_engine w_gz).2 = fs w_gz.
Proof.
  split; [reflexivity|].
  exact (proj1 (@load_json_streams ext mext cmd_json empty_engine w_gz
                  "redis://h/1" "dump.json.gz" "G{}" "{}" "database is not formatted"
                  true None None None None (Some "{}")
                  eq_refl eq_refl eq_refl ltac:(vm_compute; reflexivity)
                  eq_refl eq_refl eq_refl eq_refl eq_refl)).
Defined.

Lemma load_binary_materializes_witness :
  cli_Args cmd_binary = ["redis://h/1"; "dump.json" +:+ ".gz"]
  /\ (@load ext mext cmd_binary empty_engine w_gz).1
     = (Ok tt, @mkEngine mext (Some "{}")
                 [CallLoad false; CallLoadMetaV2 10 "{}" None; CallLoad true])
  /\ fs (@load ext mext cmd_binary empty_engine w_gz).2
     = <["dump.json" := RegFile "{}" true true]> (fs w_gz).
Proof.
  split; [reflexivity|].
  exact (@load_binary_materializes ext mext cmd_binary empty_engine w_gz
           "redis://h/1" "dump.json" "G{}" "{}" "database is not formatted"
           true None None (Some "{}") (Some "{}") (mkFormat "{}" "")
           eq_refl eq_refl eq_refl eq_refl ltac:(reflexivity)
           ltac:(vm_compute; reflexivity) ltac:(vm_compute; reflexivity)
           ltac:(apply not_elem_of_empty) eq_refl eq_refl eq_refl eq_refl
           eq_refl eq_refl eq_refl).
Defined.

Lemma load_reads_stdin_witness :
  cli_Args cmd_stdin = ["redis://h/1"]
  /\ @load ext mext cmd_stdin empty_engine w_stdin
     = (Ok tt,
        @mkEngine mext (Some "{..}")
          [CallLoad false; CallLoadMeta "{..}" None; CallLoad true],
        logged w_stdin [EvLog "load metadata from STDIN succeed"]).
Proof.
  split; [reflexivity|].
  exact (@load_reads_stdin ext mext cmd_stdin empty_engine w_stdin
           "redis://h/1" "database is not formatted"
           (mkStream (LFile "/dev/stdin") "{..}" None None 0 0)
           None (Some "{..}") (Some "{..}") (mkFormat "{..}" "")
           eq_refl eq_refl ltac:(vm_compute; reflexivity) eq_refl eq_refl eq_refl).
Defined.

End MoreRuns.
